(** * nRF52 flash driver (src/flash/nor/nrf52.c): model and properties

    The driver is a host-side state machine that talks to a microcontroller
    through the debug probe.  Everything it does to the outside world goes
    through a handful of calls of the target layer ([target_read_u32],
    [target_write_u32], [target_read_memory], ...).  The model keeps those
    calls abstract (class [Target]) and records every call, with what came
    back, in a trace; the driver's own data (the chip descriptor and the
    flash bank with its sector array) is explicit state. *)

From stdpp Require Import base list numbers.
From Stdlib Require Import ZArith Lia.

Local Open Scope Z_scope.

(** ** Machine integers *)

(** [uint32_t] arithmetic wraps modulo 2^32. *)
Definition wrap32 (z : Z) : Z := z mod 2 ^ 32.

(** Conversion of a [uint32_t] value to [int] (two's complement). *)
Definition to_int (z : Z) : Z := if z <? 2 ^ 31 then z else z - 2 ^ 32.

(** ** Register addresses and bit fields *)

Definition NRF52_FLASH_BASE_ADDR : Z := 0x0.

Definition NRF52_FICR_BASE_ADDR : Z := 0x10000000.
Definition NRF52_FICR_CODEPAGESIZE_ADDR : Z := Z.lor NRF52_FICR_BASE_ADDR 0x010.
Definition NRF52_FICR_CODESIZE_ADDR : Z := Z.lor NRF52_FICR_BASE_ADDR 0x014.

Definition NRF52_UICR_BASE_ADDR : Z := 0x10001000.

Definition NRF52_NVMC_BASE_ADDR : Z := 0x4001E000.
Definition NRF52_NVMC_READY_ADDR : Z := Z.lor NRF52_NVMC_BASE_ADDR 0x400.
Definition NRF52_NVMC_CONFIG_ADDR : Z := Z.lor NRF52_NVMC_BASE_ADDR 0x504.
Definition NRF52_NVMC_ERASEPAGE_ADDR : Z := Z.lor NRF52_NVMC_BASE_ADDR 0x508.
Definition NRF52_NVMC_ERASEALL_ADDR : Z := Z.lor NRF52_NVMC_BASE_ADDR 0x50C.
Definition NRF52_NVMC_ERASEUICR_ADDR : Z := Z.lor NRF52_NVMC_BASE_ADDR 0x514.

(** [enum nrf52_nvmc_config_bits] *)
Definition NRF52_NVMC_CONFIG_REN : Z := 0x0.
Definition NRF52_NVMC_CONFIG_WEN : Z := 0x01.
Definition NRF52_NVMC_CONFIG_EEN : Z := 0x02.

(** [enum nrf52_nvmc_ready_bits] *)
Definition NRF52_NVMC_BUSY : Z := 0x0.
Definition NRF52_NVMC_READY : Z := 0x01.

(** ** Return codes

    The numeric values of OpenOCD's return codes are declared in headers
    that are not part of the driver (helper/log.h, flash/common.h,
    target/target.h).  The driver only ever compares a code with
    [ERROR_OK], so the codes are a parameter of the model: six integers,
    the five errors being different from [ERROR_OK] and the time-out code
    being different from the generic failure. *)
Class ErrorCodes := {
  ERROR_OK : Z;
  ERROR_FAIL : Z;
  ERROR_FLASH_SECTOR_INVALID : Z;
  ERROR_FLASH_BUSY : Z;
  ERROR_FLASH_BANK_NOT_PROBED : Z;
  ERROR_TARGET_RESOURCE_NOT_AVAILABLE : Z;
  ERROR_FAIL_not_ok : ERROR_FAIL ≠ ERROR_OK;
  ERROR_FLASH_SECTOR_INVALID_not_ok : ERROR_FLASH_SECTOR_INVALID ≠ ERROR_OK;
  ERROR_FLASH_BUSY_not_ok : ERROR_FLASH_BUSY ≠ ERROR_OK;
  ERROR_FLASH_BANK_NOT_PROBED_not_ok : ERROR_FLASH_BANK_NOT_PROBED ≠ ERROR_OK;
  ERROR_TARGET_RESOURCE_NOT_AVAILABLE_not_ok :
    ERROR_TARGET_RESOURCE_NOT_AVAILABLE ≠ ERROR_OK;
  ERROR_FLASH_BUSY_not_fail : ERROR_FLASH_BUSY ≠ ERROR_FAIL
}.

(** ** Driver data *)

(** [struct flash_sector]; [is_erased] and [is_protected] are the C [int]s:
    1 = yes, 0 = no, -1 = unknown. *)
Record flash_sector := {
  offset : Z;
  size : Z;
  is_erased : Z;
  is_protected : Z
}.

(** The fields of [struct flash_bank] the driver uses.  [sectors] is the
    array behind [bank->sectors], [num_sectors] the C [int] next to it. *)
Record flash_bank := {
  base : Z;
  bank_size : Z;
  num_sectors : Z;
  sectors : list flash_sector;
  bank_number : Z
}.

(** [struct nrf52_info]; [probed0] and [probed1] are [bank[0].probed] and
    [bank[1].probed]. *)
Record nrf52_info := {
  code_page_size : Z;
  code_memory_size : Z;
  probed0 : bool;
  probed1 : bool
}.

(** [struct working_area], as far as the driver looks into it. *)
Record working_area := {
  wa_address : Z;
  wa_size : Z
}.

(** ** The target layer *)

(** The calls the driver makes into the debug target (and the one call it
    makes into the host allocator), as transitions of an abstract world
    [T].  Each returns the C return code first where the C function has
    one, then what it stores through its output pointer. *)
Class Target (T : Type) := {
  target_read_u32 : Z → T → Z * Z * T;
  target_write_u32 : Z → Z → T → Z * T;
  (* address, size, count *)
  target_read_memory : Z → Z → Z → T → Z * list Z * T;
  (* address, size, count, buffer *)
  target_write_memory : Z → Z → Z → list Z → T → Z * T;
  (* address, size, buffer *)
  target_write_buffer : Z → Z → list Z → T → Z * T;
  target_alloc_working_area : Z → T → Z * working_area * T;
  target_free_working_area : working_area → T → T;
  (* buffer, count, block size, r0..r3, fifo start, fifo size, entry *)
  target_run_flash_async_algorithm :
    list Z → Z → Z → list Z → Z → Z → Z → T → Z * T;
  alive_sleep : Z → T → T;
  (* calloc(nmemb, ...): true when memory was obtained *)
  calloc : Z → T → bool * T
}.

(** One entry per call, with the arguments and what the call returned. *)
Inductive event :=
| EvReadU32 (address retval value : Z)
| EvWriteU32 (address value retval : Z)
| EvReadMemory (address size count retval : Z)
| EvWriteMemory (address size count : Z) (data : list Z) (retval : Z)
| EvWriteBuffer (address size : Z) (data : list Z) (retval : Z)
| EvAlloc (size retval : Z) (area : working_area)
| EvFree (area : working_area)
| EvRunAlgorithm (buffer : list Z) (count block_size : Z)
    (reg_params : list Z) (fifo_start fifo_size entry retval : Z)
| EvSleep (ms : Z)
| EvCalloc (nmemb : Z) (ok : bool).

(** ** What can be read off a trace (most recent call first) *)

(** The mode last acknowledged by the controller: the value of the most
    recent write to the NVMC configuration register that returned
    [ERROR_OK]. *)
Fixpoint nvmc_config `{ErrorCodes} (tr : list event) : option Z :=
  match tr with
  | [] => None
  | EvWriteU32 a v r :: tr' =>
      if (a =? NRF52_NVMC_CONFIG_ADDR) && (r =? ERROR_OK) then Some v
      else nvmc_config tr'
  | _ :: tr' => nvmc_config tr'
  end.

(** Number of reads of the word at [a]. *)
Fixpoint count_reads (a : Z) (tr : list event) : nat :=
  match tr with
  | [] => O
  | EvReadU32 a' _ _ :: tr' =>
      if a' =? a then S (count_reads a tr') else count_reads a tr'
  | _ :: tr' => count_reads a tr'
  end.

(** Number of calls of [alive_sleep]. *)
Fixpoint count_sleeps (tr : list event) : nat :=
  match tr with
  | [] => O
  | EvSleep _ :: tr' => S (count_sleeps tr')
  | _ :: tr' => count_sleeps tr'
  end.

(** The values written to the erase-trigger register [reg], oldest first. *)
Fixpoint erase_triggers (reg : Z) (tr : list event) : list Z :=
  match tr with
  | [] => []
  | EvWriteU32 a v _ :: tr' =>
      if a =? reg then erase_triggers reg tr' ++ [v] else erase_triggers reg tr'
  | _ :: tr' => erase_triggers reg tr'
  end.

(** The reads of target memory, as (address, size, count), oldest first. *)
Fixpoint memory_reads (tr : list event) : list (Z * Z * Z) :=
  match tr with
  | [] => []
  | EvReadMemory a sz n _ :: tr' => memory_reads tr' ++ [(a, sz, n)]
  | _ :: tr' => memory_reads tr'
  end.

(** ** State and the driver monad *)

Record state (T : Type) := {
  chip : nrf52_info;
  bank : flash_bank;
  target : T;
  trace : list event
}.
Arguments chip {T} s.
Arguments bank {T} s.
Arguments target {T} s.
Arguments trace {T} s.

(** Ways a C execution stops without returning: a failed [assert], an
    operation without defined behaviour (division by zero, access outside
    an array), or a loop of the model that ran out of steps. *)
Inductive fault := AssertionFailed | UndefinedBehaviour | OutOfFuel.

Inductive outcome (T A : Type) :=
| Done (a : A) (s : state T)
| Fault (f : fault) (s : state T).
Arguments Done {T A} a s.
Arguments Fault {T A} f s.

Definition M (T A : Type) : Type := state T → outcome T A.

Definition ret {T A} (a : A) : M T A := fun s => Done a s.

Definition bind {T A B} (m : M T A) (k : A → M T B) : M T B :=
  fun s => match m s with
           | Done a s' => k a s'
           | Fault f s' => Fault f s'
           end.

Definition fail {T A} (f : fault) : M T A := fun s => Fault f s.

Definition assert {T} (b : bool) : M T unit :=
  if b then ret tt else fail AssertionFailed.

Notation "x <- m ;; k" := (bind m (fun x => k))
  (at level 100, m at next level, right associativity).
Notation "m ;; k" := (bind m (fun _ => k))
  (at level 100, right associativity).

(** The state in which an execution ended, whichever way it ended. *)
Definition final {T A} (o : outcome T A) : state T :=
  match o with Done _ s => s | Fault _ s => s end.

Definition get_chip {T} : M T nrf52_info := fun s => Done (chip s) s.
Definition get_bank {T} : M T flash_bank := fun s => Done (bank s) s.

Definition put_chip {T} (c : nrf52_info) : M T unit :=
  fun s => Done tt {| chip := c; bank := bank s; target := target s; trace := trace s |}.
Definition put_bank {T} (b : flash_bank) : M T unit :=
  fun s => Done tt {| chip := chip s; bank := b; target := target s; trace := trace s |}.

(** A call into the target layer: the world moves on and the call is
    recorded. *)
Definition call {T} (t' : T) (e : event) (s : state T) : state T :=
  {| chip := chip s; bank := bank s; target := t'; trace := e :: trace s |}.

(** ** Arrays of bytes *)

(** [memcpy (dst + pos, src, n)] on arrays whose extents are known: copying
    from beyond [src] or to beyond [dst] has no defined behaviour. *)
Definition blit (dst : list Z) (pos : Z) (src : list Z) (n : Z) : option (list Z) :=
  if (pos + n <=? Z.of_nat (length dst)) && (n <=? Z.of_nat (length src)) then
    Some (take (Z.to_nat pos) dst ++ take (Z.to_nat n) src
            ++ drop (Z.to_nat (pos + n)) dst)
  else None.

(** Modelled from the spec: the macro DIV_ROUND_UP is declared in
    helper/types.h, which is not part of the driver; the spec has the code
    region driver compute "the first and last page touched", the last one
    being the quotient rounded up, here in [uint32_t] arithmetic. *)
Definition DIV_ROUND_UP (m n : Z) : Z := wrap32 (m + n - 1) / n.

(** [nrf52_flash_write_code]: the loader program, 32 bytes. *)
Definition nrf52_flash_write_code : list Z :=
  [ 0x0d; 0x68; 0x00; 0x2d; 0x0b; 0xd0; 0x4c; 0x68;
    0xac; 0x42; 0xf9; 0xd0; 0x20; 0xcc; 0x20; 0xc3;
    0x94; 0x42; 0x01; 0xd3; 0x0c; 0x46; 0x08; 0x34;
    0x4c; 0x60; 0x04; 0x38; 0xf0; 0xd1; 0x00; 0xbe ].

(** How a loop in the middle of a function ends: it runs to its end, or
    the function returns from inside it. *)
Inductive loop_exit := Completed | Returned (retval : Z).

Section Driver.

Context `{EC : ErrorCodes}.
Context {T : Type} `{TG : Target T}.

Local Abbreviation M := (M T).

(** ** Calls into the target layer *)

(** The value comes back through a [uint32_t *]. *)
Definition read_u32 (address : Z) : M (Z * Z) := fun s =>
  let '(res, v, t') := target_read_u32 address (target s) in
  Done (res, wrap32 v) (call t' (EvReadU32 address res (wrap32 v)) s).

Definition write_u32 (address value : Z) : M Z := fun s =>
  let '(res, t') := target_write_u32 address value (target s) in
  Done res (call t' (EvWriteU32 address value res) s).

(** The callee fills [size * count] bytes of the caller's array. *)
Definition read_memory (address size count : Z) : M (Z * list Z) := fun s =>
  let '(res, data, t') := target_read_memory address size count (target s) in
  Done (res, resize (Z.to_nat (size * count)) 0 data)
       (call t' (EvReadMemory address size count res) s).

Definition write_memory (address size count : Z) (buffer : list Z) : M Z := fun s =>
  let '(res, t') := target_write_memory address size count buffer (target s) in
  Done res (call t' (EvWriteMemory address size count buffer res) s).

Definition write_buffer (address size : Z) (buffer : list Z) : M Z := fun s =>
  let '(res, t') := target_write_buffer address size buffer (target s) in
  Done res (call t' (EvWriteBuffer address size buffer res) s).

Definition alloc_working_area (size : Z) : M (Z * working_area) := fun s =>
  let '(res, area, t') := target_alloc_working_area size (target s) in
  Done (res, area) (call t' (EvAlloc size res area) s).

Definition free_working_area (area : working_area) : M unit := fun s =>
  Done tt (call (target_free_working_area area (target s)) (EvFree area) s).

Definition run_flash_async_algorithm (buffer : list Z) (count block_size : Z)
    (reg_params : list Z) (fifo_start fifo_size entry : Z) : M Z := fun s =>
  let '(res, t') :=
    target_run_flash_async_algorithm buffer count block_size reg_params
      fifo_start fifo_size entry (target s) in
  Done res (call t' (EvRunAlgorithm buffer count block_size reg_params
                       fifo_start fifo_size entry res) s).

Definition sleep (ms : Z) : M unit := fun s =>
  Done tt (call (alive_sleep ms (target s)) (EvSleep ms) s).

(** [calloc (nmemb, sizeof (struct flash_sector))] with [nmemb] an [int]:
    a negative count converts to a [size_t] whose product with the element
    size cannot be represented, and [calloc] returns NULL. *)
Definition alloc_sectors (nmemb : Z) : M bool := fun s =>
  if nmemb <? 0 then Done false (call (target s) (EvCalloc nmemb false) s)
  else
    let '(ok, t') := calloc nmemb (target s) in
    Done ok (call t' (EvCalloc nmemb ok) s).

(** ** Field updates *)

Definition set_code_page_size (v : Z) (c : nrf52_info) : nrf52_info :=
  {| code_page_size := v; code_memory_size := code_memory_size c;
     probed0 := probed0 c; probed1 := probed1 c |}.

Definition set_code_memory_size (v : Z) (c : nrf52_info) : nrf52_info :=
  {| code_page_size := code_page_size c; code_memory_size := v;
     probed0 := probed0 c; probed1 := probed1 c |}.

Definition set_probed (n : nat) (c : nrf52_info) : nrf52_info :=
  match n with
  | O => {| code_page_size := code_page_size c; code_memory_size := code_memory_size c;
            probed0 := true; probed1 := probed1 c |}
  | _ => {| code_page_size := code_page_size c; code_memory_size := code_memory_size c;
            probed0 := probed0 c; probed1 := true |}
  end.

Definition set_sectors (l : list flash_sector) (b : flash_bank) : flash_bank :=
  {| base := base b; bank_size := bank_size b; num_sectors := num_sectors b;
     sectors := l; bank_number := bank_number b |}.

Definition set_is_erased (v : Z) (sec : flash_sector) : flash_sector :=
  {| offset := offset sec; size := size sec; is_erased := v;
     is_protected := is_protected sec |}.

(** [bank->sectors[i]]: reading outside the array is undefined. *)
Definition sector (i : nat) : M flash_sector := fun s =>
  match sectors (bank s) !! i with
  | Some sec => Done sec s
  | None => Fault UndefinedBehaviour s
  end.

(** [sector->is_erased = v] for the sector at index [i]. *)
Definition mark_erased (i : nat) (v : Z) : M unit :=
  sec <- sector i ;;
  b <- get_bank ;;
  put_bank (set_sectors (<[i := set_is_erased v sec]> (sectors b)) b).

(** ** nrf52_protect_check: not implemented by the driver, reports success *)
Definition nrf52_protect_check : M Z := ret ERROR_OK.

(** ** nrf52_probe *)

(** The calloc'ed array: [n] zeroed entries. *)
Definition zero_sector : flash_sector :=
  {| offset := 0; size := 0; is_erased := 0; is_protected := 0 |}.

(** One pass of the loop body that fills [bank->sectors[i]]. *)
Definition probe_fill_sector (page_size : Z) (l : list flash_sector) (i : nat)
    : list flash_sector :=
  <[i := {| offset := wrap32 (Z.of_nat i * page_size);
            size := page_size;
            is_erased := -1;
            is_protected := -1 |}]> l.

(** The identity registers are read through pointers to the two fields of
    the chip descriptor, so each field holds what its read stored, also
    when the read fails. *)
Definition nrf52_probe : M Z :=
  r <- read_u32 NRF52_FICR_CODEPAGESIZE_ADDR ;;
  c <- get_chip ;;
  put_chip (set_code_page_size (snd r) c) ;;
  if negb (fst r =? ERROR_OK) then ret (fst r) else
  r <- read_u32 NRF52_FICR_CODESIZE_ADDR ;;
  c <- get_chip ;;
  put_chip (set_code_memory_size (snd r) c) ;;
  if negb (fst r =? ERROR_OK) then ret (fst r) else
  c <- get_chip ;;
  let c := set_code_memory_size
             (wrap32 (code_memory_size c * code_page_size c)) c in
  put_chip c ;;
  b <- get_bank ;;
  if base b =? NRF52_FLASH_BASE_ADDR then
    if code_page_size c =? 0 then fail UndefinedBehaviour else
    let n := to_int (code_memory_size c / code_page_size c) in
    ok <- alloc_sectors n ;;
    let b := {| base := base b; bank_size := code_memory_size c;
                num_sectors := n;
                sectors := if ok then replicate (Z.to_nat n) zero_sector else [];
                bank_number := bank_number b |} in
    put_bank b ;;
    if negb ok then ret ERROR_FLASH_BANK_NOT_PROBED else
    (* for (int i = 0; i < bank->num_sectors; i++) *)
    put_bank (set_sectors
                (foldl (probe_fill_sector (code_page_size c)) (sectors b)
                       (seq 0 (Z.to_nat n))) b) ;;
    nrf52_protect_check ;;
    put_chip (set_probed 0 c) ;;
    ret ERROR_OK
  else
    ok <- alloc_sectors 1 ;;
    let b := {| base := base b; bank_size := code_page_size c;
                num_sectors := 1;
                sectors := if ok then replicate 1 zero_sector else [];
                bank_number := bank_number b |} in
    put_bank b ;;
    if negb ok then ret ERROR_FLASH_BANK_NOT_PROBED else
    put_bank (set_sectors
                (<[0%nat := {| offset := 0; size := bank_size b;
                               is_erased := -1; is_protected := -1 |}]> (sectors b)) b) ;;
    put_chip (set_probed 1 c) ;;
    ret ERROR_OK.

(** ** nrf52_wait_for_nvmc *)

(** [do { ... } while (timeout--)] with the counter at [timeout] when the
    body is entered. *)
Fixpoint nrf52_wait_for_nvmc_loop (timeout : nat) : M Z :=
  r <- read_u32 NRF52_NVMC_READY_ADDR ;;
  if negb (fst r =? ERROR_OK) then ret (fst r) else
  if snd r =? NRF52_NVMC_READY then ret ERROR_OK else
  sleep 1 ;;
  match timeout with
  | O => ret ERROR_FLASH_BUSY
  | S timeout' => nrf52_wait_for_nvmc_loop timeout'
  end.

Definition nrf52_wait_for_nvmc : M Z := nrf52_wait_for_nvmc_loop 100.

(** ** The three mode transitions *)

Definition nrf52_nvmc_erase_enable : M Z :=
  res <- nrf52_wait_for_nvmc ;;
  if negb (res =? ERROR_OK) then ret res else
  write_u32 NRF52_NVMC_CONFIG_ADDR NRF52_NVMC_CONFIG_EEN.

Definition nrf52_nvmc_write_enable : M Z :=
  res <- nrf52_wait_for_nvmc ;;
  if negb (res =? ERROR_OK) then ret res else
  write_u32 NRF52_NVMC_CONFIG_ADDR NRF52_NVMC_CONFIG_WEN.

Definition nrf52_nvmc_read_only : M Z :=
  res <- nrf52_wait_for_nvmc ;;
  if negb (res =? ERROR_OK) then ret res else
  write_u32 NRF52_NVMC_CONFIG_ADDR NRF52_NVMC_CONFIG_REN.

(** ** nrf52_nvmc_generic_erase *)
Definition nrf52_nvmc_generic_erase (erase_register erase_value : Z) : M Z :=
  res <- nrf52_nvmc_erase_enable ;;
  if negb (res =? ERROR_OK) then ret res else
  write_u32 erase_register erase_value ;;
  nrf52_nvmc_read_only.

(** ** nrf52_find_sector_by_address *)

(** The test of the loop body, on one sector. *)
Definition sector_contains (page_size address : Z) (sec : flash_sector) : Prop :=
  offset sec ≤ address ∧ address < wrap32 (offset sec + page_size).

Global Instance sector_contains_dec page_size address sec :
  Decision (sector_contains page_size address sec).
Proof. unfold sector_contains. apply _. Defined.

(** The index of the first of the [num_sectors] entries of the array that
    passes the test stands for the pointer the C function returns, [None]
    for NULL.  This is the search among the entries the array holds.  Where
    it holds fewer than [num_sectors] of them (a probe whose allocation
    failed leaves none) and none of these passes the test, the C loop goes
    on reading past the array: [sectors_missing] tells so, and the one
    caller, the loop of [nrf52_write_pages], stops there with undefined
    behaviour instead of taking the answer. *)
Definition nrf52_find_sector_by_address (b : flash_bank) (c : nrf52_info)
    (address : Z) : option nat :=
  fst <$> list_find (sector_contains (code_page_size c) address)
            (take (Z.to_nat (num_sectors b)) (sectors b)).

Definition sectors_missing (b : flash_bank) : bool :=
  Z.of_nat (length (sectors b)) <? num_sectors b.

(** ** nrf52_erase_all *)
Definition nrf52_erase_all : M Z :=
  nrf52_nvmc_generic_erase NRF52_NVMC_ERASEALL_ADDR 0x01.

(** ** nrf52_erase_page, on the sector at index [i] *)
Definition nrf52_erase_page (i : nat) : M Z :=
  sec <- sector i ;;
  if is_protected sec =? 1 then ret ERROR_FAIL else
  b <- get_bank ;;
  res <- (if base b =? NRF52_UICR_BASE_ADDR then
            nrf52_nvmc_generic_erase NRF52_NVMC_ERASEUICR_ADDR 0x00000001
          else
            nrf52_nvmc_generic_erase NRF52_NVMC_ERASEPAGE_ADDR (offset sec)) ;;
  (if res =? ERROR_OK then mark_erased i 1 else ret tt) ;;
  ret res.

(** ** nrf52_ll_flash_write *)

(** The fallback loop [for (; bytes > 0; bytes -= 4)]: one word per pass,
    each followed by a wait for the controller.  [target_write_memory]
    gets the four bytes at the front of [buffer]. *)
Fixpoint nrf52_ll_flash_write_slow (fuel : nat) (offset : Z) (buffer : list Z)
    (bytes : Z) : M Z :=
  match fuel with
  | O => fail OutOfFuel
  | S fuel' =>
      if bytes >? 0 then
        retval <- write_memory offset 4 1 (take 4 buffer) ;;
        if negb (retval =? ERROR_OK) then ret retval else
        retval <- nrf52_wait_for_nvmc ;;
        if negb (retval =? ERROR_OK) then ret retval else
        nrf52_ll_flash_write_slow fuel' (wrap32 (offset + 4)) (drop 4 buffer)
          (wrap32 (bytes - 4))
      else ret ERROR_OK
  end.

(** The loop [while (target_alloc_working_area (..., buffer_size, &source)
    != ERROR_OK)]: [inr source] when an area was obtained, [inl retval] when
    the function returns from inside the loop. *)
Fixpoint nrf52_ll_flash_write_source (fuel : nat) (write_algorithm : working_area)
    (buffer_size : Z) : M (Z + working_area) :=
  match fuel with
  | O => fail OutOfFuel
  | S fuel' =>
      r <- alloc_working_area buffer_size ;;
      if negb (fst r =? ERROR_OK) then
        let buffer_size := buffer_size / 2 in
        let buffer_size := wrap32 (Z.land buffer_size (Z.lnot 3)) in
        if buffer_size <=? 256 then
          free_working_area write_algorithm ;;
          ret (inl ERROR_TARGET_RESOURCE_NOT_AVAILABLE)
        else nrf52_ll_flash_write_source fuel' write_algorithm buffer_size
      else ret (inr (snd r))
  end.

Definition nrf52_ll_flash_write (offset : Z) (buffer : list Z) (bytes : Z) : M Z :=
  let buffer_size := 8192 in
  let address := wrap32 (NRF52_FLASH_BASE_ADDR + offset) in
  assert (bytes mod 4 =? 0) ;;
  r <- alloc_working_area (Z.of_nat (length nrf52_flash_write_code)) ;;
  if negb (fst r =? ERROR_OK) then
    nrf52_ll_flash_write_slow (S (Z.to_nat (bytes / 4))) offset buffer bytes
  else
  let write_algorithm := snd r in
  retval <- write_buffer (wa_address write_algorithm)
              (Z.of_nat (length nrf52_flash_write_code)) nrf52_flash_write_code ;;
  if negb (retval =? ERROR_OK) then ret retval else
  src <- nrf52_ll_flash_write_source 32 write_algorithm buffer_size ;;
  match src with
  | inl retval => ret retval
  | inr source =>
      retval <- run_flash_async_algorithm buffer (bytes / 4) 4
                  [ bytes; wa_address source;
                    wrap32 (wa_address source + wa_size source); address ]
                  (wa_address source) (wa_size source)
                  (wa_address write_algorithm) ;;
      free_working_area source ;;
      free_working_area write_algorithm ;;
      ret retval
  end.

(** ** nrf52_write_pages *)

(** The loop [for (offset = start; offset < end; offset += page size)]. *)
Fixpoint nrf52_write_pages_erase (fuel : nat) (offset end_ : Z) : M loop_exit :=
  match fuel with
  | O => fail OutOfFuel
  | S fuel' =>
      if offset <? end_ then
        b <- get_bank ;;
        c <- get_chip ;;
        match nrf52_find_sector_by_address b c offset with
        | None =>
            (* the search went through every entry: past the array, if it
               holds fewer than [num_sectors] *)
            if sectors_missing b then fail UndefinedBehaviour
            else ret (Returned ERROR_FLASH_SECTOR_INVALID)
        | Some i =>
            sec <- sector i ;;
            if is_protected sec =? 1 then ret (Returned ERROR_FAIL) else
            res <- (if negb (is_erased sec =? 1) then nrf52_erase_page i
                    else ret ERROR_OK) ;;
            if negb (res =? ERROR_OK) then ret (Returned res) else
            mark_erased i 1 ;;
            nrf52_write_pages_erase fuel' (wrap32 (offset + code_page_size c)) end_
        end
      else ret Completed
  end.

Definition nrf52_write_pages (start end_ : Z) (buffer : list Z) : M Z :=
  c <- get_chip ;;
  (* the remainder of a division by zero is undefined *)
  (if code_page_size c =? 0 then fail UndefinedBehaviour else ret tt) ;;
  assert (start mod code_page_size c =? 0) ;;
  assert (end_ mod code_page_size c =? 0) ;;
  e <- nrf52_write_pages_erase (S (Z.to_nat (end_ / code_page_size c))) start end_ ;;
  match e with
  | Returned res => ret res
  | Completed =>
      res <- nrf52_nvmc_write_enable ;;
      if negb (res =? ERROR_OK) then ret res else
      res <- nrf52_ll_flash_write start buffer (wrap32 (end_ - start)) ;;
      if negb (res =? ERROR_OK) then
        nrf52_nvmc_read_only ;;
        ret res
      else nrf52_nvmc_read_only
  end.

(** ** nrf52_erase *)

(** [for (int s = first; s <= last && res == ERROR_OK; s++)] over the
    indices still to visit. *)
Fixpoint nrf52_erase_loop (indices : list Z) (res : Z) : M Z :=
  match indices with
  | [] => ret res
  | s :: rest =>
      if res =? ERROR_OK then
        (if s <? 0 then fail UndefinedBehaviour else ret tt) ;;
        res <- nrf52_erase_page (Z.to_nat s) ;;
        nrf52_erase_loop rest res
      else ret res
  end.

Definition nrf52_erase (first last : Z) : M Z :=
  nrf52_erase_loop (seqZ first (last - first + 1)) ERROR_OK.

(** ** nrf52_code_flash_write *)

(** The variable-length array [buffer_to_flash] starts with indeterminate
    contents, written 0 here; every byte of it is assigned before use when
    the three pieces add up to the array. *)
Definition nrf52_code_flash_write (buffer : list Z) (offset count : Z) : M Z :=
  c <- get_chip ;;
  (if code_page_size c =? 0 then fail UndefinedBehaviour else ret tt) ;;
  let first_page := offset / code_page_size c in
  let last_page := DIV_ROUND_UP (wrap32 (offset + count)) (code_page_size c) in
  let first_page_offset := wrap32 (first_page * code_page_size c) in
  let last_page_offset := wrap32 (last_page * code_page_size c) in
  let page_cnt := wrap32 (last_page - first_page) in
  let buffer_to_flash :=
    replicate (Z.to_nat (wrap32 (page_cnt * code_page_size c))) 0 in
  let pre := wrap32 (offset - first_page_offset) in
  filled <- (if pre >? 0 then
               r <- read_memory first_page_offset 1 pre ;;
               match blit buffer_to_flash 0 (snd r) pre with
               | Some a => ret (fst r, a)
               | None => fail UndefinedBehaviour
               end
             else ret (ERROR_OK, buffer_to_flash)) ;;
  if negb (fst filled =? ERROR_OK) then ret (fst filled) else
  match blit (snd filled) pre buffer count with
  | None => fail UndefinedBehaviour
  | Some buffer_to_flash =>
      let post := wrap32 (last_page_offset - wrap32 (offset + count)) in
      filled <- (if post >? 0 then
                   r <- read_memory (wrap32 (offset + count)) 1 post ;;
                   match blit buffer_to_flash (pre + count) (snd r) post with
                   | Some a => ret (fst r, a)
                   | None => fail UndefinedBehaviour
                   end
                 else ret (ERROR_OK, buffer_to_flash)) ;;
      if negb (fst filled =? ERROR_OK) then ret (fst filled) else
      nrf52_write_pages first_page_offset last_page_offset (snd filled)
  end.

(** ** nrf52_uicr_flash_write *)
Definition nrf52_uicr_flash_write (buffer : list Z) (offset count : Z) : M Z :=
  c <- get_chip ;;
  let nrf52_uicr_size := code_page_size c in
  if wrap32 (offset + count) >? nrf52_uicr_size then ret ERROR_FAIL else
  r <- read_memory NRF52_UICR_BASE_ADDR 1 nrf52_uicr_size ;;
  let uicr := snd r in
  if negb (fst r =? ERROR_OK) then ret (fst r) else
  sec <- sector 0 ;;
  res <- (if negb (is_erased sec =? 1) then nrf52_erase_page 0
          else ret ERROR_OK) ;;
  if negb (res =? ERROR_OK) then ret res else
  match blit uicr offset buffer count with
  | None => fail UndefinedBehaviour
  | Some uicr =>
      res <- nrf52_nvmc_write_enable ;;
      if negb (res =? ERROR_OK) then ret res else
      res <- nrf52_ll_flash_write NRF52_UICR_BASE_ADDR uicr nrf52_uicr_size ;;
      if negb (res =? ERROR_OK) then
        nrf52_nvmc_read_only ;;
        ret res
      else nrf52_nvmc_read_only
  end.

(** ** nrf52_write: the strategy bound to the bank at bank set-up *)
Definition nrf52_write (buffer : list Z) (offset count : Z) : M Z :=
  b <- get_bank ;;
  if bank_number b =? 0 then nrf52_code_flash_write buffer offset count
  else nrf52_uicr_flash_write buffer offset count.

(** ** nrf52_bank_is_probed, nrf52_auto_probe *)
Definition nrf52_bank_is_probed : M bool :=
  b <- get_bank ;;
  c <- get_chip ;;
  ret (if bank_number b =? 0 then probed0 c else probed1 c).

Definition nrf52_auto_probe : M Z :=
  p <- nrf52_bank_is_probed ;;
  if negb p then nrf52_probe else ret ERROR_OK.

End Driver.

(** ** What was handed to the target for programming *)

(** The bytes submitted for writing to flash, oldest first: the words of
    the fallback loop and the buffers streamed by the loader program. *)
Fixpoint flash_data (tr : list event) : list Z :=
  match tr with
  | [] => []
  | EvWriteMemory _ _ _ data _ :: tr' => flash_data tr' ++ data
  | EvRunAlgorithm buffer count block_size _ _ _ _ _ :: tr' =>
      flash_data tr' ++ take (Z.to_nat (count * block_size)) buffer
  | _ :: tr' => flash_data tr'
  end.

(** Number of times the loader program was started. *)
Fixpoint count_runs (tr : list event) : nat :=
  match tr with
  | [] => O
  | EvRunAlgorithm _ _ _ _ _ _ _ _ :: tr' => S (count_runs tr')
  | _ :: tr' => count_runs tr'
  end.

(** The page offsets visited by [for (offset = start; offset < end;
    offset += page_size)] on aligned bounds. *)
Definition page_offsets (start end_ page_size : Z) : list Z :=
  (fun k => start + k * page_size) <$> seqZ 0 ((end_ - start) / page_size).

(** The erase-trigger register and value [nrf52_erase_page] uses for a
    sector of bank [b]. *)
Definition erase_register (b : flash_bank) : Z :=
  if base b =? NRF52_UICR_BASE_ADDR then NRF52_NVMC_ERASEUICR_ADDR
  else NRF52_NVMC_ERASEPAGE_ADDR.

Definition erase_value (b : flash_bank) (sec : flash_sector) : Z :=
  if base b =? NRF52_UICR_BASE_ADDR then 1 else offset sec.

(** The sector [nrf52_find_sector_by_address] yields for a page. *)
Definition page_sector (b : flash_bank) (c : nrf52_info) (page : Z)
    : option flash_sector :=
  i ← nrf52_find_sector_by_address b c page; sectors b !! i.

(** The erase triggers due for a list of pages: one per page whose sector
    is not marked erased, in page order. *)
Definition due_erases (b : flash_bank) (c : nrf52_info) (pages : list Z) : list Z :=
  omap (fun page =>
          sec ← page_sector b c page;
          if is_erased sec =? 1 then None else Some (erase_value b sec)) pages.

(** [uint32_t] values. *)
Definition uint32 (z : Z) : Prop := 0 ≤ z < 2 ^ 32.

(** The sum of the sizes of the sectors of a bank. *)
Definition sectors_extent (b : flash_bank) : Z :=
  foldr (fun sec acc => size sec + acc) 0 (sectors b).

(** ** A simulated target

    A small deterministic target for running the driver on concrete
    inputs.  The identity registers hold [sim_page_size] and
    [sim_code_size]; the next [sim_busy] reads of the ready flag find the
    controller busy; working areas of up to [sim_free_ram] bytes can be
    had; writes to the register [sim_bad_register] fail; starting the
    loader program returns [sim_run_result]; target memory reads as 0xFF. *)
Record sim := {
  sim_page_size : Z;
  sim_code_size : Z;
  sim_busy : nat;
  sim_free_ram : Z;
  sim_bad_register : Z;
  sim_run_result : Z
}.

(** A concrete assignment of the return codes, following OpenOCD's
    headers. *)
Global Program Instance openocd_codes : ErrorCodes := {|
  ERROR_OK := 0;
  ERROR_FAIL := -4;
  ERROR_FLASH_SECTOR_INVALID := -901;
  ERROR_FLASH_BUSY := -905;
  ERROR_FLASH_BANK_NOT_PROBED := -907;
  ERROR_TARGET_RESOURCE_NOT_AVAILABLE := -308
|}.
Solve All Obligations with done.

Definition sim_read_u32 (address : Z) (t : sim) : Z * Z * sim :=
  if address =? NRF52_FICR_CODEPAGESIZE_ADDR then (0, sim_page_size t, t)
  else if address =? NRF52_FICR_CODESIZE_ADDR then (0, sim_code_size t, t)
  else if address =? NRF52_NVMC_READY_ADDR then
    match sim_busy t with
    | O => (0, NRF52_NVMC_READY, t)
    | S n => (0, NRF52_NVMC_BUSY,
              {| sim_page_size := sim_page_size t; sim_code_size := sim_code_size t;
                 sim_busy := n; sim_free_ram := sim_free_ram t;
                 sim_bad_register := sim_bad_register t;
                 sim_run_result := sim_run_result t |})
    end
  else (0, 0, t).

Global Instance sim_target : Target sim := {|
  target_read_u32 := sim_read_u32;
  target_write_u32 address value t :=
    (if address =? sim_bad_register t then -4 else 0, t);
  target_read_memory address size count t :=
    (0, replicate (Z.to_nat (size * count)) 0xFF, t);
  target_write_memory address size count buffer t := (0, t);
  target_write_buffer address size buffer t := (0, t);
  target_alloc_working_area size t :=
    if size <=? sim_free_ram t
    then (0, {| wa_address := 0x20000000; wa_size := size |}, t)
    else (-308, {| wa_address := 0; wa_size := 0 |}, t);
  target_free_working_area area t := t;
  target_run_flash_async_algorithm buffer count block_size reg_params
      fifo_start fifo_size entry t := (sim_run_result t, t);
  alive_sleep ms t := t;
  calloc nmemb t := (true, t)
|}.

(** A well-behaved chip with [pages] pages of [page_size] bytes. *)
Definition sim_chip (page_size pages : Z) : sim :=
  {| sim_page_size := page_size; sim_code_size := pages; sim_busy := 0;
     sim_free_ram := 0x4000; sim_bad_register := -1; sim_run_result := 0 |}.

(** The state right after the bank at [bank_base] was set up, before any
    probe. *)
Definition sim_start (t : sim) (bank_base : Z) : state sim :=
  {| chip := {| code_page_size := 0; code_memory_size := 0;
                probed0 := false; probed1 := false |};
     bank := {| base := bank_base; bank_size := 0; num_sectors := 0;
                sectors := []; bank_number := if bank_base =? 0 then 0 else 1 |};
     target := t;
     trace := [] |}.

(** The state after a probe of that bank, with the trace cleared. *)
Definition sim_probed (t : sim) (bank_base : Z) : state sim :=
  let s := final (nrf52_probe (sim_start t bank_base)) in
  {| chip := chip s; bank := bank s; target := target s; trace := [] |}.

(** ** The calls that matter to the flash

    Polls of the ready flag, sleeps, mode changes and the management of
    working areas leave the flash as it is.  What remains of a trace is the
    sequence of its other register writes, its reads of target memory and
    the data submitted for programming. *)
Inductive effect :=
| RegWrite (address value : Z)
| MemRead (address size count : Z)
| Program (data : list Z).

Fixpoint effects (tr : list event) : list effect :=
  match tr with
  | [] => []
  | EvWriteU32 a v _ :: tr' =>
      if a =? NRF52_NVMC_CONFIG_ADDR then effects tr'
      else effects tr' ++ [RegWrite a v]
  | EvReadMemory a sz n _ :: tr' => effects tr' ++ [MemRead a sz n]
  | EvWriteMemory _ _ _ data _ :: tr' => effects tr' ++ [Program data]
  | EvRunAlgorithm buffer count block_size _ _ _ _ _ :: tr' =>
      effects tr' ++ [Program (take (Z.to_nat (count * block_size)) buffer)]
  | _ :: tr' => effects tr'
  end.

Definition effect_trigger (reg : Z) (e : effect) : option Z :=
  match e with
  | RegWrite a v => if a =? reg then Some v else None
  | _ => None
  end.

Definition effect_read (e : effect) : option (Z * Z * Z) :=
  match e with MemRead a sz n => Some (a, sz, n) | _ => None end.

Definition effect_data (e : effect) : list Z :=
  match e with Program data => data | _ => [] end.

Definition is_program (e : effect) : Prop :=
  match e with Program _ => True | _ => False end.

(** The driver's own data and the flash-relevant calls are as before. *)
Definition unchanged {T} (s s' : state T) : Prop :=
  chip s' = chip s ∧ bank s' = bank s ∧ effects (trace s') = effects (trace s).

(** The bank with the sector at index [i] marked erased. *)
Definition bank_erased (i : nat) (b : flash_bank) : flash_bank :=
  match sectors b !! i with
  | Some sec => set_sectors (<[i := set_is_erased 1 sec]> (sectors b)) b
  | None => b
  end.

(** The pages the erase loop of [nrf52_write_pages] visits, by the loop's
    own recursion. *)
Fixpoint loop_pages (fuel : nat) (offset end_ page_size : Z) : list Z :=
  match fuel with
  | O => []
  | S fuel' =>
      if offset <? end_ then
        offset :: loop_pages fuel' (wrap32 (offset + page_size)) end_ page_size
      else []
  end.

(** The driver's own data and the mode are as before, and the only
    flash-relevant calls since are the submissions [effs]. *)
Definition programs_after {T} `{ErrorCodes} (s s' : state T) (effs : list effect) : Prop :=
  chip s' = chip s ∧ bank s' = bank s ∧
  nvmc_config (trace s') = nvmc_config (trace s) ∧
  effects (trace s') = effects (trace s) ++ effs ∧
  Forall is_program effs.

(** [b'] is [b] with some of its sectors marked erased. *)
Definition marks_erased (b b' : flash_bank) : Prop :=
  base b' = base b ∧ bank_size b' = bank_size b ∧
  num_sectors b' = num_sectors b ∧ bank_number b' = bank_number b ∧
  Forall2 (fun sec sec' => sec' = sec ∨ sec' = set_is_erased 1 sec)
          (sectors b) (sectors b').

(** The sector offsets of a bank are [uint32_t] values. *)
Definition bank_typed (b : flash_bank) : Prop :=
  Forall (fun sec => 0 ≤ offset sec) (sectors b).

(** An execution that did not stop for want of steps in the model. *)
Definition within_fuel {T A} (o : outcome T A) : Prop :=
  match o with Fault OutOfFuel _ => False | _ => True end.

(** The sector array as [nrf52_probe] lays it out for pages of
    [page_size] bytes: [num_sectors] entries, entry [i] at offset
    [i * page_size], of one page, status unknown. *)
Definition probed_layout (b : flash_bank) (page_size : Z) : Prop :=
  num_sectors b = Z.of_nat (length (sectors b)) ∧
  ∀ (i : nat) sec, sectors b !! i = Some sec →
    offset sec = Z.of_nat i * page_size ∧ size sec = page_size ∧
    is_erased sec = -1 ∧ is_protected sec = -1.

(** ** Concrete scenarios on the simulated target *)

(** A chip whose controller stays busy for the next thousand polls. *)
Definition sim_stuck_busy : sim :=
  {| sim_page_size := 4096; sim_code_size := 2; sim_busy := 1000;
     sim_free_ram := 0x4000; sim_bad_register := -1; sim_run_result := 0 |}.

(** A chip with no working area at all. *)
Definition sim_no_ram : sim :=
  {| sim_page_size := 4096; sim_code_size := 2; sim_busy := 0;
     sim_free_ram := 0; sim_bad_register := -1; sim_run_result := 0 |}.

(** A chip with room for the loader program but not for a buffer. *)
Definition sim_low_ram : sim :=
  {| sim_page_size := 4096; sim_code_size := 2; sim_busy := 0;
     sim_free_ram := 100; sim_bad_register := -1; sim_run_result := 0 |}.

(** A chip on which writes to the page-erase trigger register fail. *)
Definition sim_trigger_fails : sim :=
  {| sim_page_size := 4096; sim_code_size := 2; sim_busy := 0;
     sim_free_ram := 0x4000; sim_bad_register := NRF52_NVMC_ERASEPAGE_ADDR;
     sim_run_result := 0 |}.

(** A chip on which the loader program fails. *)
Definition sim_loader_fails : sim :=
  {| sim_page_size := 4096; sim_code_size := 2; sim_busy := 0;
     sim_free_ram := 0x4000; sim_bad_register := -1; sim_run_result := -4 |}.

(** The probed code region of the two-page chip, and of the chip whose
    loader fails with page 0 already marked erased. *)
Definition two_pages : state sim := sim_probed (sim_chip 4096 2) NRF52_FLASH_BASE_ADDR.

Definition half_erased : state sim :=
  final (mark_erased 0 1 (sim_probed sim_loader_fails NRF52_FLASH_BASE_ADDR)).

(** The probed configuration region of the two-page chip. *)
Definition config_region : state sim := sim_probed (sim_chip 4096 2) NRF52_UICR_BASE_ADDR.

(** Identity registers whose product does not fit 32 bits. *)
Definition sim_odd_chip : sim := sim_chip 3 0x55555557.

(** The states in which the probe of the code region ends, on the
    two-page chip and on that chip. *)
Definition two_pages_probe : state sim :=
  final (nrf52_probe (sim_start (sim_chip 4096 2) NRF52_FLASH_BASE_ADDR)).

Definition odd_pages_probe : state sim :=
  final (nrf52_probe (sim_start sim_odd_chip NRF52_FLASH_BASE_ADDR)).

(** A buffer of [n] bytes to write. *)
Definition payload (n : Z) : list Z := replicate (Z.to_nat n) 7.

(** ** The rest of the driver: bank set-up and the driver's entry points *)

Definition set_bank_number (n : Z) (b : flash_bank) : flash_bank :=
  {| base := base b; bank_size := bank_size b; num_sectors := num_sectors b;
     sectors := sectors b; bank_number := n |}.

(** [chip->bank[n].probed = false] *)
Definition clear_probed (n : Z) (c : nrf52_info) : nrf52_info :=
  if n =? 0 then
    {| code_page_size := code_page_size c; code_memory_size := code_memory_size c;
       probed0 := false; probed1 := probed1 c |}
  else
    {| code_page_size := code_page_size c; code_memory_size := code_memory_size c;
       probed0 := probed0 c; probed1 := false |}.

(** What [calloc (1, sizeof *chip)] hands out. *)
Definition zero_chip : nrf52_info :=
  {| code_page_size := 0; code_memory_size := 0; probed0 := false; probed1 := false |}.

Section DriverEntries.

Context `{EC : ErrorCodes}.
Context {T : Type} `{TG : Target T}.

(** ** nrf52_protect: not implemented by the driver, reports success *)
Definition nrf52_protect (set first last : Z) : M T Z := ret ERROR_OK.

(** [calloc (1, sizeof *chip)] *)
Definition alloc_chip : M T bool := fun s =>
  let '(ok, t') := calloc 1 (target s) in
  Done ok (call t' (EvCalloc 1 ok) s).

(** ** The bank command handler

    [static_chip] is the function's static pointer: [None] while it is
    NULL, the chip descriptor it points to afterwards.  The state's chip
    is the one behind [bank->driver_priv], assigned at the end.  The
    write strategy stored with the bank number is the one [nrf52_write]
    selects for that number. *)
Definition nrf52_flash_bank_command (static_chip : option nrf52_info) : M T Z :=
  b <- get_bank ;;
  if negb ((base b =? NRF52_FLASH_BASE_ADDR) || (base b =? NRF52_UICR_BASE_ADDR))
  then ret ERROR_FAIL else
  let n := if base b =? NRF52_FLASH_BASE_ADDR then 0 else 1 in
  put_bank (set_bank_number n b) ;;
  c <- match static_chip with
       | Some c => ret c
       | None => ok <- alloc_chip ;; assert ok ;; ret zero_chip
       end ;;
  put_chip (clear_probed n c) ;;
  ret ERROR_OK.

(** ** The entries of [struct flash_driver nrf52_flash] that the driver
    implements itself, and the erase-everything operation behind its
    [mass_erase] command. *)
Inductive driver_entry :=
| EntryErase (first last : Z)
| EntryProtect (set first last : Z)
| EntryWrite (buffer : list Z) (offset count : Z)
| EntryProbe
| EntryAutoProbe
| EntryProtectCheck
| EntryEraseAll.

Definition run_entry (e : driver_entry) : M T Z :=
  match e with
  | EntryErase first last => nrf52_erase first last
  | EntryProtect set first last => nrf52_protect set first last
  | EntryWrite buffer offset count => nrf52_write buffer offset count
  | EntryProbe => nrf52_probe
  | EntryAutoProbe => nrf52_auto_probe
  | EntryProtectCheck => nrf52_protect_check
  | EntryEraseAll => nrf52_erase_all
  end.

End DriverEntries.

(** ** More to read off a trace *)

(** The three erase-trigger registers of the controller. *)
Definition is_erase_trigger (a : Z) : bool :=
  (a =? NRF52_NVMC_ERASEPAGE_ADDR) || (a =? NRF52_NVMC_ERASEALL_ADDR)
  || (a =? NRF52_NVMC_ERASEUICR_ADDR).

(** The mode last acknowledged is [v]. *)
Definition config_is `{ErrorCodes} (v : Z) (tr : list event) : bool :=
  match nvmc_config tr with
  | Some v' => v' =? v
  | None => false
  end.

(** Every write to an erase-trigger register was made while the mode last
    acknowledged was erase-enabled, and every submission of data for
    programming while it was write-enabled. *)
Fixpoint mode_respected `{ErrorCodes} (tr : list event) : bool :=
  match tr with
  | [] => true
  | e :: tr' =>
      mode_respected tr' &&
      match e with
      | EvWriteU32 a _ _ =>
          if is_erase_trigger a then config_is NRF52_NVMC_CONFIG_EEN tr' else true
      | EvWriteMemory _ _ _ _ _ => config_is NRF52_NVMC_CONFIG_WEN tr'
      | EvRunAlgorithm _ _ _ _ _ _ _ _ => config_is NRF52_NVMC_CONFIG_WEN tr'
      | _ => true
      end
  end.

(** The words written by [target_write_memory], as (address, bytes),
    oldest first. *)
Fixpoint word_writes (tr : list event) : list (Z * list Z) :=
  match tr with
  | [] => []
  | EvWriteMemory a _ _ data _ :: tr' => word_writes tr' ++ [(a, data)]
  | _ :: tr' => word_writes tr'
  end.

(** The working areas obtained, and those released, oldest first. *)
Fixpoint areas_obtained `{ErrorCodes} (tr : list event) : list working_area :=
  match tr with
  | [] => []
  | EvAlloc _ r area :: tr' =>
      if r =? ERROR_OK then areas_obtained tr' ++ [area] else areas_obtained tr'
  | _ :: tr' => areas_obtained tr'
  end.

Fixpoint areas_released (tr : list event) : list working_area :=
  match tr with
  | [] => []
  | EvFree area :: tr' => areas_released tr' ++ [area]
  | _ :: tr' => areas_released tr'
  end.

(** The sectors of a bank lie on the page grid: [num_sectors] entries,
    entry [i] at offset [i * page_size]. *)
Definition sector_grid (b : flash_bank) (page_size : Z) : Prop :=
  num_sectors b = Z.of_nat (length (sectors b)) ∧
  ∀ (i : nat) sec, sectors b !! i = Some sec → offset sec = Z.of_nat i * page_size.

(** ** Triples

    [hoare P m Q F]: from a state that satisfies [P], [m] returns in a
    state that satisfies [Q] of its result, or stops in a state that
    satisfies [F]. *)
Definition hoare {T A} (P : state T → Prop) (m : M T A)
    (Q : A → state T → Prop) (F : state T → Prop) : Prop :=
  ∀ s, P s → match m s with
             | Done a s' => Q a s'
             | Fault _ s' => F s'
             end.

(** What the erase and write operations keep of a state, [tr0] being the
    trace they started from: if the modes were respected in [tr0] they
    still are; the flash-relevant calls made since all satisfy [ok]; the
    chip is [c0]; and the bank is [b0] but for sectors marked erased
    since. *)
Definition kept {T} `{ErrorCodes} (tr0 : list event) (ok : effect → Prop)
    (c0 : nrf52_info) (b0 : flash_bank) (s : state T) : Prop :=
  (mode_respected tr0 = true → mode_respected (trace s) = true) ∧
  (∃ added, effects (trace s) = effects tr0 ++ added ∧ Forall ok added) ∧
  chip s = c0 ∧ marks_erased b0 (bank s).

(** The calls that neither change the mode nor are relevant to the flash. *)
Definition quiet_event (e : event) : Prop :=
  match e with
  | EvWriteU32 _ _ _ | EvReadMemory _ _ _ _ | EvWriteMemory _ _ _ _ _
  | EvRunAlgorithm _ _ _ _ _ _ _ _ => False
  | _ => True
  end.

(** The erase trigger of a sector of [b] whose protection state is not 1. *)
Definition unprotected_trigger (b : flash_bank) (e : effect) : Prop :=
  ∃ (i : nat) sec, sectors b !! i = Some sec ∧ is_protected sec ≠ 1 ∧
    e = RegWrite (erase_register b) (erase_value b sec).

(** The erase trigger [nrf52_erase_page] writes for the sector at index
    [i] of bank [b]. *)
Definition sector_trigger (b : flash_bank) (i : Z) : option effect :=
  sec ← sectors b !! Z.to_nat i;
  Some (RegWrite (erase_register b) (erase_value b sec)).

(** The calls the wait for the controller makes. *)
Definition polling_event (e : event) : Prop :=
  match e with
  | EvReadU32 _ _ _ | EvSleep _ => True
  | _ => False
  end.

(** The sizes of the working areas asked for, oldest first. *)
Fixpoint alloc_requests (tr : list event) : list Z :=
  match tr with
  | [] => []
  | EvAlloc size _ _ :: tr' => alloc_requests tr' ++ [size]
  | _ :: tr' => alloc_requests tr'
  end.

(** The buffer sizes the loop of [nrf52_ll_flash_write] asks for when every
    request fails, by the loop's own recursion: each is half the one
    before, rounded down to a multiple of four, and the loop gives up
    before asking for 256 bytes or fewer. *)
Fixpoint buffer_sizes (fuel : nat) (buffer_size : Z) : list Z :=
  match fuel with
  | O => []
  | S fuel' =>
      buffer_size ::
      (let next := wrap32 (Z.land (buffer_size / 2) (Z.lnot 3)) in
       if next <=? 256 then [] else buffer_sizes fuel' next)
  end.

(** ** What a read of target memory hands to the driver

    The [count] bytes the driver holds after [read_memory] of [count]
    single bytes at [address] from the target in state [t]: those the
    target returned.  And the state in which the read leaves the target. *)
Definition bytes_read {T} `{Target T} (address count : Z) (t : T) : list Z :=
  resize (Z.to_nat count) 0 (target_read_memory address 1 count t).1.2.

Definition after_read {T} `{Target T} (address count : Z) (t : T) : T :=
  (target_read_memory address 1 count t).2.

(** ** More scenarios on the simulated target *)

(** A chip with four pages of sixteen bytes, its code region and its
    configuration region after a probe. *)
Definition small_chip : sim := sim_chip 16 4.

Definition small_pages : state sim := sim_probed small_chip NRF52_FLASH_BASE_ADDR.

Definition small_config : state sim := sim_probed small_chip NRF52_UICR_BASE_ADDR.

(** The code region with page 1 protected, as the flash layer records it
    in [is_protected]. *)
Definition set_is_protected (v : Z) (sec : flash_sector) : flash_sector :=
  {| offset := offset sec; size := size sec; is_erased := is_erased sec;
     is_protected := v |}.

Definition page_one_protected : state sim :=
  {| chip := chip small_pages;
     bank := set_sectors (alter (set_is_protected 1) 1%nat (sectors (bank small_pages)))
               (bank small_pages);
     target := target small_pages;
     trace := [] |}.

(** The code region after pages 1 and 2 were erased, and after they were
    written. *)
Definition small_pages_erased : state sim := final (nrf52_erase 1 2 small_pages).

Definition small_pages_written : state sim :=
  final (nrf52_write_pages 16 48 (payload 32) small_pages).

(** The code region of the chip on which writes to the page-erase trigger
    fail. *)
Definition trigger_fails_pages : state sim :=
  sim_probed sim_trigger_fails NRF52_FLASH_BASE_ADDR.

(** A target whose memory cannot be read: [target_read_memory] fails,
    every other call succeeds and finds the controller ready. *)
Inductive unreadable := Unreadable.

Global Instance unreadable_target : Target unreadable | 100 := {|
  target_read_u32 address t := (0, NRF52_NVMC_READY, t);
  target_write_u32 address value t := (0, t);
  target_read_memory address size count t := (-4, [], t);
  target_write_memory address size count buffer t := (0, t);
  target_write_buffer address size buffer t := (0, t);
  target_alloc_working_area size t :=
    (0, {| wa_address := 0x20000000; wa_size := size |}, t);
  target_free_working_area area t := t;
  target_run_flash_async_algorithm buffer count block_size reg_params
      fifo_start fifo_size entry t := (0, t);
  alive_sleep ms t := t;
  calloc nmemb t := (true, t)
|}.

(** Its code region, four pages of sixteen bytes, laid out as by a probe. *)
Definition unreadable_pages : state unreadable :=
  {| chip := chip small_pages; bank := bank small_pages;
     target := Unreadable; trace := [] |}.

(** The code region of the small chip with its sector array gone, as a
    probe whose allocation failed leaves it: [num_sectors] is 4 and there
    is no array. *)
Definition small_pages_no_array : state sim :=
  {| chip := chip small_pages; bank := set_sectors [] (bank small_pages);
     target := target small_pages; trace := [] |}.

(** The chip that refuses the page-erase trigger, after erase mode was
    enabled and the trigger for the page at 4096 was written, and refused. *)
Definition trigger_refused : state sim :=
  final (write_u32 NRF52_NVMC_ERASEPAGE_ADDR 4096
           (final (nrf52_nvmc_erase_enable (sim_start sim_trigger_fails 0)))).

(** A target behind a debug link that carries [link_calls] more transfers
    and then drops.  While transfers remain, every access to the target
    succeeds: the controller is found ready, memory reads as 0xFF and the
    loader program runs to its end.  Once none remains, every access
    fails.  Working areas, sleeping and host memory do not use the link. *)
Record link := { link_calls : nat }.

Definition link_transfer (t : link) : Z * link :=
  match link_calls t with
  | O => (-4, t)
  | S n => (0, {| link_calls := n |})
  end.

Global Instance link_target : Target link | 100 := {|
  target_read_u32 address t :=
    let (r, t') := link_transfer t in (r, NRF52_NVMC_READY, t');
  target_write_u32 address value t := link_transfer t;
  target_read_memory address size count t :=
    let (r, t') := link_transfer t in
    (r, replicate (Z.to_nat (size * count)) 0xFF, t');
  target_write_memory address size count buffer t := link_transfer t;
  target_write_buffer address size buffer t := link_transfer t;
  target_alloc_working_area size t :=
    (0, {| wa_address := 0x20000000; wa_size := size |}, t);
  target_free_working_area area t := t;
  target_run_flash_async_algorithm buffer count block_size reg_params
      fifo_start fifo_size entry t := link_transfer t;
  alive_sleep ms t := t;
  calloc nmemb t := (true, t)
|}.

(** The code region of four pages of sixteen bytes, laid out as by a probe,
    on a link good for [calls] more transfers. *)
Definition link_pages (calls : nat) : state link :=
  {| chip := chip small_pages; bank := bank small_pages;
     target := {| link_calls := calls |}; trace := [] |}.


(** * Properties *)

Section Properties.

Context `{EC : ErrorCodes}.
Context {T : Type} `{TG : Target T}.

(** ** Bookkeeping *)

Lemma eqb_ok_refl : (ERROR_OK =? ERROR_OK) = true.
Proof. apply Z.eqb_refl. Qed.

Lemma unchanged_refl (s : state T) : unchanged s s.
Proof. by repeat split. Qed.

Lemma unchanged_trans (s1 s2 s3 : state T) :
  unchanged s1 s2 → unchanged s2 s3 → unchanged s1 s3.
Proof. intros (?&?&?) (?&?&?). repeat split; congruence. Qed.

Lemma config_is_no_erase_register (b : flash_bank) :
  erase_register b ≠ NRF52_NVMC_CONFIG_ADDR.
Proof. unfold erase_register. by case_match. Qed.

(** The observations of a trace, from its effects. *)
Lemma erase_triggers_effects reg tr :
  reg ≠ NRF52_NVMC_CONFIG_ADDR →
  erase_triggers reg tr = omap (effect_trigger reg) (effects tr).
Proof.
  intros Hreg. induction tr as [|e tr IH]; [done|].
  destruct e; simpl; rewrite ?omap_app; simpl; rewrite ?app_nil_r; try done.
  destruct (address =? NRF52_NVMC_CONFIG_ADDR) eqn:Ha.
  - apply Z.eqb_eq in Ha. subst address.
    destruct (NRF52_NVMC_CONFIG_ADDR =? reg) eqn:Hb; [|done].
    apply Z.eqb_eq in Hb. congruence.
  - rewrite omap_app. simpl. rewrite IH.
    destruct (address =? reg); simpl; [done|]. by rewrite app_nil_r.
Qed.

Lemma memory_reads_effects tr : memory_reads tr = omap effect_read (effects tr).
Proof.
  induction tr as [|e tr IH]; [done|].
  destruct e; simpl; try done; rewrite ?omap_app; simpl; rewrite ?app_nil_r; try congruence.
  destruct (address =? NRF52_NVMC_CONFIG_ADDR); [done|].
  rewrite omap_app. simpl. by rewrite app_nil_r.
Qed.

Lemma flash_data_effects tr : flash_data tr = mbind effect_data (effects tr).
Proof.
  induction tr as [|e tr IH]; [done|].
  destruct e; simpl; try done; rewrite ?bind_app; simpl; rewrite ?app_nil_r; try congruence.
  destruct (address =? NRF52_NVMC_CONFIG_ADDR); [done|].
  rewrite bind_app. simpl. by rewrite app_nil_r.
Qed.

(** ** The ready-wait *)

(** The wait always returns, and touches nothing but the ready flag. *)
Lemma wait_for_nvmc_loop_returns n (s : state T) :
  ∃ res s', nrf52_wait_for_nvmc_loop n s = Done res s' ∧ unchanged s s' ∧
            nvmc_config (trace s') = nvmc_config (trace s).
Proof.
  revert s. induction n as [|n IH]; intros s; simpl;
    unfold bind, read_u32;
    destruct (target_read_u32 _ _) as [[res v] t'];
    simpl; destruct (res =? ERROR_OK); simpl;
    try destruct (wrap32 v =? NRF52_NVMC_READY); simpl;
    try (eexists _, _; split; [reflexivity|]; by repeat split).
  edestruct IH as (r & s' & -> & Hu & Hc).
  eexists _, _. split; [reflexivity|]. split; [|by rewrite Hc].
  destruct Hu as (?&?&?). repeat split; simpl in *; congruence.
Qed.

Lemma wait_for_nvmc_returns (s : state T) :
  ∃ res s', nrf52_wait_for_nvmc s = Done res s' ∧ unchanged s s' ∧
            nvmc_config (trace s') = nvmc_config (trace s).
Proof. apply wait_for_nvmc_loop_returns. Qed.

(** A read that finds the flag set ends the wait at once, with success. *)
Lemma wait_for_nvmc_loop_ready n (s : state T) v t' :
  target_read_u32 NRF52_NVMC_READY_ADDR (target s) = (ERROR_OK, v, t') →
  wrap32 v = NRF52_NVMC_READY →
  nrf52_wait_for_nvmc_loop n s =
    Done ERROR_OK (call t' (EvReadU32 NRF52_NVMC_READY_ADDR ERROR_OK NRF52_NVMC_READY) s).
Proof.
  intros Hr Hv. destruct n; simpl; unfold bind, read_u32; rewrite Hr; simpl;
    rewrite eqb_ok_refl, Hv; reflexivity.
Qed.

(** A failed read of the flag ends the wait at once, with the read's code. *)
Lemma wait_for_nvmc_loop_io_error n (s : state T) res v t' :
  target_read_u32 NRF52_NVMC_READY_ADDR (target s) = (res, v, t') →
  res ≠ ERROR_OK →
  nrf52_wait_for_nvmc_loop n s =
    Done res (call t' (EvReadU32 NRF52_NVMC_READY_ADDR res (wrap32 v)) s).
Proof.
  intros Hr Hres. apply Z.eqb_neq in Hres.
  destruct n; simpl; unfold bind, read_u32; rewrite Hr; simpl; rewrite Hres; reflexivity.
Qed.

(** On a target whose flag never reads ready, and whose reads succeed, the
    wait polls once more than its counter says and ends with the busy code. *)
Lemma wait_for_nvmc_loop_busy n (s : state T) :
  (∀ t, ∃ v t', target_read_u32 NRF52_NVMC_READY_ADDR t = (ERROR_OK, v, t') ∧
                wrap32 v ≠ NRF52_NVMC_READY) →
  ∃ s', nrf52_wait_for_nvmc_loop n s = Done ERROR_FLASH_BUSY s' ∧
        count_reads NRF52_NVMC_READY_ADDR (trace s') =
          (count_reads NRF52_NVMC_READY_ADDR (trace s) + S n)%nat ∧
        count_sleeps (trace s') = (count_sleeps (trace s) + S n)%nat.
Proof.
  intros Hbusy. revert s. induction n as [|n IH]; intros s; simpl;
    unfold bind, read_u32;
    destruct (Hbusy (target s)) as (v & t' & -> & Hv); apply Z.eqb_neq in Hv;
    simpl; rewrite eqb_ok_refl, Hv; simpl.
  - eexists. split; [reflexivity|]. simpl. split; lia.
  - edestruct IH as (s' & -> & Hc & Hs). eexists. split; [reflexivity|].
    rewrite Hc, Hs. simpl. split; lia.
Qed.

(** ** Mode transitions *)

Ltac mode_transition s :=
  unfold bind;
  destruct (wait_for_nvmc_returns s) as (r & s1 & -> & (Hc & Hb & He) & Hm);
  destruct (r =? ERROR_OK) eqn:Hr; simpl;
  [ unfold write_u32; destruct (target_write_u32 _ _ _) as [res t'];
    eexists _, _; split; [reflexivity|];
    split; [repeat split; simpl; rewrite ?Z.eqb_refl; congruence|];
    simpl; rewrite ?Z.eqb_refl; simpl;
    split; [by intros ->; rewrite eqb_ok_refl|];
    by intros Hne%Z.eqb_neq; rewrite Hne
  | eexists _, _; split; [reflexivity|];
    split; [by repeat split|];
    split; [by intros ->; rewrite eqb_ok_refl in Hr|done] ].

Lemma nvmc_erase_enable_returns (s : state T) :
  ∃ res s', nrf52_nvmc_erase_enable s = Done res s' ∧ unchanged s s' ∧
    (res = ERROR_OK → nvmc_config (trace s') = Some NRF52_NVMC_CONFIG_EEN) ∧
    (res ≠ ERROR_OK → nvmc_config (trace s') = nvmc_config (trace s)).
Proof. unfold nrf52_nvmc_erase_enable. mode_transition s. Qed.

Lemma nvmc_write_enable_returns (s : state T) :
  ∃ res s', nrf52_nvmc_write_enable s = Done res s' ∧ unchanged s s' ∧
    (res = ERROR_OK → nvmc_config (trace s') = Some NRF52_NVMC_CONFIG_WEN) ∧
    (res ≠ ERROR_OK → nvmc_config (trace s') = nvmc_config (trace s)).
Proof. unfold nrf52_nvmc_write_enable. mode_transition s. Qed.

Lemma nvmc_read_only_returns (s : state T) :
  ∃ res s', nrf52_nvmc_read_only s = Done res s' ∧ unchanged s s' ∧
    (res = ERROR_OK → nvmc_config (trace s') = Some NRF52_NVMC_CONFIG_REN) ∧
    (res ≠ ERROR_OK → nvmc_config (trace s') = nvmc_config (trace s)).
Proof. unfold nrf52_nvmc_read_only. mode_transition s. Qed.

(** The transition to read-only mode begins with a poll of the ready flag. *)
Lemma nvmc_read_only_polls (s : state T) res s' :
  nrf52_nvmc_read_only s = Done res s' →
  (count_reads NRF52_NVMC_READY_ADDR (trace s) <
   count_reads NRF52_NVMC_READY_ADDR (trace s'))%nat.
Proof.
  assert (Hloop : ∀ n (s : state T) res s',
    nrf52_wait_for_nvmc_loop n s = Done res s' →
    (count_reads NRF52_NVMC_READY_ADDR (trace s) <
     count_reads NRF52_NVMC_READY_ADDR (trace s'))%nat).
  { clear. induction n as [|n IH]; intros s res s'; simpl;
      unfold bind, read_u32;
      destruct (target_read_u32 _ _) as [[r v] t']; simpl;
      destruct (r =? ERROR_OK); simpl;
      try destruct (wrap32 v =? NRF52_NVMC_READY); simpl;
      try (intros [= <- <-]; simpl; lia).
    intros H%IH. simpl in H. lia. }
  unfold nrf52_nvmc_read_only, bind, nrf52_wait_for_nvmc.
  destruct (nrf52_wait_for_nvmc_loop 100 s) as [r s1|] eqn:Hw; [|done].
  apply Hloop in Hw.
  destruct (r =? ERROR_OK); simpl.
  - unfold write_u32. destruct (target_write_u32 _ _ _) as [r' t'].
    intros [= <- <-]. simpl. lia.
  - by intros [= <- <-].
Qed.

(** ** The generic erase operation *)

Lemma nvmc_generic_erase_returns (s : state T) reg val :
  reg ≠ NRF52_NVMC_CONFIG_ADDR →
  ∃ res s', nrf52_nvmc_generic_erase reg val s = Done res s' ∧
    chip s' = chip s ∧ bank s' = bank s ∧
    (effects (trace s') = effects (trace s) ∨
     effects (trace s') = effects (trace s) ++ [RegWrite reg val]) ∧
    (res = ERROR_OK →
     effects (trace s') = effects (trace s) ++ [RegWrite reg val] ∧
     nvmc_config (trace s') = Some NRF52_NVMC_CONFIG_REN).
Proof.
  intros Hreg%Z.eqb_neq. unfold nrf52_nvmc_generic_erase, bind.
  destruct (nvmc_erase_enable_returns s) as (r & s1 & -> & (Hc1 & Hb1 & He1) & _).
  destruct (r =? ERROR_OK) eqn:Hr; simpl.
  - unfold write_u32 at 1. destruct (target_write_u32 _ _ _) as [rt t'].
    destruct (nvmc_read_only_returns (call t' (EvWriteU32 reg val rt) s1))
      as (r' & s2 & -> & (Hc2 & Hb2 & He2) & Hm & _).
    simpl in *. rewrite Hreg in He2.
    eexists _, _. split; [reflexivity|].
    split; [congruence|]. split; [congruence|]. split; [right; congruence|].
    intros ->. split; [congruence|auto].
  - eexists _, _. split; [reflexivity|].
    split; [done|]. split; [done|]. split; [by left|].
    intros ->. by rewrite eqb_ok_refl in Hr.
Qed.

(** What the transition to read-only mode does, step by step: it waits
    for the controller; if the wait fails it returns the wait's code and
    goes no further; otherwise it writes the read-only value to the mode
    register and returns what that write returned. *)
Lemma nvmc_read_only_steps (s : state T) :
  ∃ w sw, nrf52_wait_for_nvmc s = Done w sw ∧
    (count_reads NRF52_NVMC_READY_ADDR (trace s) <
     count_reads NRF52_NVMC_READY_ADDR (trace sw))%nat ∧
    nvmc_config (trace sw) = nvmc_config (trace s) ∧
    if w =? ERROR_OK then
      ∃ rr t',
        target_write_u32 NRF52_NVMC_CONFIG_ADDR NRF52_NVMC_CONFIG_REN (target sw)
          = (rr, t') ∧
        nrf52_nvmc_read_only s =
          Done rr (call t' (EvWriteU32 NRF52_NVMC_CONFIG_ADDR NRF52_NVMC_CONFIG_REN rr) sw)
    else nrf52_nvmc_read_only s = Done w sw.
Proof.
  destruct (wait_for_nvmc_returns s) as (w & sw & Hw & _ & Hm).
  exists w, sw. split; [done|].
  assert (if w =? ERROR_OK then
      ∃ rr t',
        target_write_u32 NRF52_NVMC_CONFIG_ADDR NRF52_NVMC_CONFIG_REN (target sw)
          = (rr, t') ∧
        nrf52_nvmc_read_only s =
          Done rr (call t' (EvWriteU32 NRF52_NVMC_CONFIG_ADDR NRF52_NVMC_CONFIG_REN rr) sw)
    else nrf52_nvmc_read_only s = Done w sw) as Hstep.
  { unfold nrf52_nvmc_read_only, bind. rewrite Hw.
    destruct (w =? ERROR_OK); simpl; [|done].
    unfold write_u32. destruct (target_write_u32 _ _ _) as [rr t'].
    by exists rr, t'. }
  split; [|split; [done|exact Hstep]].
  destruct (w =? ERROR_OK).
  - destruct Hstep as (rr & t' & _ & Hro).
    by apply nvmc_read_only_polls in Hro.
  - by apply nvmc_read_only_polls in Hstep.
Qed.

(** C2, as amended.  Once erase mode is enabled, the generic erase goes on
    to the transition to read-only mode whatever the write of the trigger
    value returned: what the operation returns, and the state it ends in,
    are those of the read-only transition run after the trigger write, at
    which point the mode last acknowledged by the controller is
    erase-enabled (the trigger register not being the mode register).
    The transition first waits for the controller.  If the wait fails,
    the transition returns the wait's code without writing the mode
    register.  If the wait succeeds, it writes the read-only value to the
    mode register and returns what that write returned.  So the mode last
    acknowledged is read-only when the transition reports success, and is
    still the one before the transition, erase-enabled, when it reports
    an error. *)
Theorem generic_erase_returns_to_read_only
    (s s1 s2 : state T) (erase_register erase_value r : Z) :
  nrf52_nvmc_erase_enable s = Done ERROR_OK s1 →
  write_u32 erase_register erase_value s1 = Done r s2 →
  nrf52_nvmc_generic_erase erase_register erase_value s = nrf52_nvmc_read_only s2 ∧
  (erase_register ≠ NRF52_NVMC_CONFIG_ADDR →
   nvmc_config (trace s2) = Some NRF52_NVMC_CONFIG_EEN) ∧
  (∃ w sw, nrf52_wait_for_nvmc s2 = Done w sw ∧
     (count_reads NRF52_NVMC_READY_ADDR (trace s2) <
      count_reads NRF52_NVMC_READY_ADDR (trace sw))%nat ∧
     nvmc_config (trace sw) = nvmc_config (trace s2) ∧
     if w =? ERROR_OK then
       ∃ rr t',
         target_write_u32 NRF52_NVMC_CONFIG_ADDR NRF52_NVMC_CONFIG_REN (target sw)
           = (rr, t') ∧
         nrf52_nvmc_read_only s2 =
           Done rr (call t' (EvWriteU32 NRF52_NVMC_CONFIG_ADDR NRF52_NVMC_CONFIG_REN rr) sw)
     else nrf52_nvmc_read_only s2 = Done w sw) ∧
  ∃ res s', nrf52_nvmc_read_only s2 = Done res s' ∧
    (count_reads NRF52_NVMC_READY_ADDR (trace s2) <
     count_reads NRF52_NVMC_READY_ADDR (trace s'))%nat ∧
    (res = ERROR_OK → nvmc_config (trace s') = Some NRF52_NVMC_CONFIG_REN) ∧
    (res ≠ ERROR_OK → nvmc_config (trace s') = nvmc_config (trace s2)).
Proof.
  intros Hen Hwr. split; [|split; [|split]].
  - unfold nrf52_nvmc_generic_erase, bind. rewrite Hen, eqb_ok_refl. simpl.
    by rewrite Hwr.
  - intros Hreg%Z.eqb_neq.
    destruct (nvmc_erase_enable_returns s) as (r0 & s0 & Hen' & _ & Hm & _).
    rewrite Hen in Hen'. injection Hen' as <- <-.
    unfold write_u32 in Hwr. destruct (target_write_u32 _ _ _) as [rt t'].
    injection Hwr as <- <-. simpl. rewrite Hreg. simpl. by apply Hm.
  - apply nvmc_read_only_steps.
  - destruct (nvmc_read_only_returns s2) as (res & s' & Hro & _ & Hm & Hk).
    exists res, s'. split; [done|]. split; [|done].
    by eapply nvmc_read_only_polls.
Qed.

(** ** The bulk write *)

Ltac frame :=
  repeat split;
  cbn [chip bank trace target call effects nvmc_config app] in *;
  rewrite ?app_nil_r in *; try congruence;
  try (repeat constructor; done).


(** The fallback loop returns, and on success has submitted the buffer
    word by word without starting the loader program. *)
Lemma ll_flash_write_slow_returns fuel (s : state T) offset buffer bytes :
  0 ≤ bytes < 2 ^ 32 → bytes mod 4 = 0 →
  (Z.to_nat (bytes / 4) < fuel)%nat →
  ∃ res s' effs,
    nrf52_ll_flash_write_slow fuel offset buffer bytes s = Done res s' ∧
    programs_after s s' effs ∧
    (res = ERROR_OK → Z.of_nat (length effs) = bytes / 4) ∧
    (res = ERROR_OK → Z.of_nat (length buffer) = bytes →
     mbind effect_data effs = buffer).
Proof.
  unfold programs_after. revert s offset buffer bytes.
  induction fuel as [|fuel IH]; intros s offset buffer bytes Hb Hm Hf; [lia|].
  simpl. destruct (bytes >? 0) eqn:Hpos.
  - apply Z.gtb_lt in Hpos.
    assert (4 ≤ bytes) as H4.
    { apply Z.mod_divide in Hm as [k ->]; lia. }
    unfold bind at 1, write_memory.
    destruct (target_write_memory _ _ _ _ _) as [rw t'].
    destruct (rw =? ERROR_OK) eqn:Hrw; simpl.
    2:{ eexists _, _, [Program (take 4 buffer)]. split; [reflexivity|].
        split; [by frame|].
        split; intros ->; by rewrite eqb_ok_refl in Hrw. }
    unfold bind at 1.
    destruct (wait_for_nvmc_returns (call t' (EvWriteMemory offset 4 1 (take 4 buffer) rw) s))
      as (r & s1 & -> & (Hc1 & Hb1 & He1) & Hm1).
    destruct (r =? ERROR_OK) eqn:Hr; simpl.
    2:{ eexists _, _, [Program (take 4 buffer)]. split; [reflexivity|].
        split; [by frame|].
        split; intros ->; by rewrite eqb_ok_refl in Hr. }
    assert (wrap32 (bytes - 4) = bytes - 4) as Hw.
    { unfold wrap32. apply Z.mod_small. lia. }
    rewrite Hw.
    assert ((bytes - 4) / 4 = bytes / 4 - 1) as Hdiv.
    { apply Z.mod_divide in Hm as [k ->]; [|lia].
      replace (k * 4 - 4) with ((k - 1) * 4) by lia. rewrite !Z.div_mul; lia. }
    destruct (IH s1 (wrap32 (offset + 4)) (drop 4 buffer) (bytes - 4))
      as (res & s' & effs & -> & (Hc & Hbk & Hcfg & He & Hp) & Hlen & Hdata).
    { lia. }
    { apply Z.mod_divide in Hm as [k ->]; [|lia].
      replace (k * 4 - 4) with ((k - 1) * 4) by lia. apply Z.mod_mul. lia. }
    { rewrite Hdiv. assert (0 < bytes / 4). { apply Z.div_str_pos. lia. } lia. }
    eexists res, s', (Program (take 4 buffer) :: effs). split; [reflexivity|].
    split; [|split].
    + repeat split; simpl in *; try congruence.
      * rewrite He, He1. by rewrite <- app_assoc.
      * by constructor.
    + intros Hok. specialize (Hlen Hok). simpl length. lia.
    + intros Hok Hl. rewrite bind_cons. simpl effect_data.
      rewrite Hdata; [apply take_drop|done|].
      rewrite length_drop. lia.
  - rewrite Z.gtb_ltb in Hpos. apply Z.ltb_ge in Hpos. assert (bytes = 0) as -> by lia.
    eexists _, _, []. split; [reflexivity|].
    split; [by frame|].
    split; [done|].
    intros _ Hl. simpl. symmetry. apply nil_length_inv. lia.
Qed.

Lemma shrink_bound size :
  0 ≤ size → 0 ≤ wrap32 (Z.land (size / 2) (Z.lnot 3)) ≤ size / 2.
Proof.
  intros Hs. assert (0 ≤ size / 2) as Hh by (apply Z.div_pos; lia).
  rewrite <- Z.ldiff_land. change 3 with (Z.ones 2).
  rewrite Z.ldiff_ones_r by lia. rewrite Z.shiftr_div_pow2, Z.shiftl_mul_pow2 by lia.
  change (2 ^ 2) with 4.
  assert (0 ≤ size / 2 / 4 * 4 ≤ size / 2) as Hb.
  { pose proof (Z.mul_div_le (size / 2) 4). 
    assert (0 ≤ size / 2 / 4) by (apply Z.div_pos; lia). lia. }
  unfold wrap32.
  pose proof (Z.mod_le (size / 2 / 4 * 4) (2 ^ 32)).
  pose proof (Z.mod_pos_bound (size / 2 / 4 * 4) (2 ^ 32)). lia.
Qed.

(** The loop that looks for a buffer area returns: with an area, or with
    the resource code once the loader area has been released. *)
Lemma ll_flash_write_source_returns fuel (s : state T) wa size :
  0 ≤ size < 2 ^ Z.of_nat fuel → (0 < fuel)%nat →
  ∃ r s', nrf52_ll_flash_write_source fuel wa size s = Done r s' ∧
    programs_after s s' [] ∧
    match r with
    | inl retval => retval = ERROR_TARGET_RESOURCE_NOT_AVAILABLE ∧
                    head (trace s') = Some (EvFree wa)
    | inr _ => True
    end.
Proof.
  unfold programs_after. revert s size.
  induction fuel as [|fuel IH]; intros s size Hs Hf; [lia|].
  simpl. unfold bind at 1, alloc_working_area.
  destruct (target_alloc_working_area _ _) as [[r area] t'].
  simpl. destruct (r =? ERROR_OK); simpl.
  { eexists _, _. split; [reflexivity|]. split; [by frame|done]. }
  pose proof (shrink_bound size ltac:(lia)) as Hsh.
  set (size' := wrap32 _) in *.
  destruct (size' <=? 256) eqn:Hfloor.
  { eexists _, _. split; [reflexivity|]. split; [by frame|done]. }
  apply Z.leb_gt in Hfloor.
  assert (size / 2 < 2 ^ Z.of_nat fuel) as Hhalf.
  { apply Z.div_lt_upper_bound; [lia|].
    rewrite <- Z.pow_succ_r by lia. rewrite <- Nat2Z.inj_succ. lia. }
  destruct fuel as [|fuel']; [simpl in Hhalf; lia|].
  destruct (IH (call t' (EvAlloc size r area) s) size') as (r' & s' & -> & Hp & Hr);
    [lia|lia|].
  eexists _, _. split; [reflexivity|]. split; [|done].
  destruct Hp as (?&?&?&?&?). by frame.
Qed.

(** When no area of more than 256 bytes can be had, the loop gives up. *)
Lemma ll_flash_write_source_unavailable fuel (s : state T) wa size :
  (∀ t sz, 256 < sz → (target_alloc_working_area sz t).1.1 ≠ ERROR_OK) →
  256 < size < 2 ^ Z.of_nat fuel →
  ∃ s', nrf52_ll_flash_write_source fuel wa size s =
          Done (inl ERROR_TARGET_RESOURCE_NOT_AVAILABLE) s' ∧
        programs_after s s' [] ∧ head (trace s') = Some (EvFree wa).
Proof.
  intros Hno. unfold programs_after. revert s size.
  induction fuel as [|fuel IH]; intros s size Hs; [simpl in Hs; lia|].
  simpl. unfold bind at 1, alloc_working_area.
  pose proof (Hno (target s) size ltac:(lia)) as Hfail.
  destruct (target_alloc_working_area _ _) as [[r area] t'].
  simpl in Hfail. apply Z.eqb_neq in Hfail. simpl. rewrite Hfail. simpl.
  pose proof (shrink_bound size ltac:(lia)) as Hsh.
  set (size' := wrap32 _) in *.
  destruct (size' <=? 256) eqn:Hfloor.
  { eexists. split; [reflexivity|]. split; [by frame|done]. }
  apply Z.leb_gt in Hfloor.
  assert (size / 2 < 2 ^ Z.of_nat fuel) as Hhalf.
  { apply Z.div_lt_upper_bound; [lia|].
    rewrite <- Z.pow_succ_r by lia. rewrite <- Nat2Z.inj_succ. lia. }
  destruct (IH (call t' (EvAlloc size r area) s) size') as (s' & -> & Hp & Hr); [lia|].
  eexists. split; [reflexivity|]. split; [|done].
  destruct Hp as (?&?&?&?&?). by frame.
Qed.

(** The bulk write returns whenever its byte count is a multiple of four;
    it submits data and nothing else, and on success it has submitted the
    whole buffer. *)
Lemma ll_flash_write_returns (s : state T) offset buffer bytes :
  0 ≤ bytes < 2 ^ 32 → bytes mod 4 = 0 →
  ∃ res s' effs,
    nrf52_ll_flash_write offset buffer bytes s = Done res s' ∧
    programs_after s s' effs ∧
    (res = ERROR_OK → Z.of_nat (length buffer) = bytes →
     mbind effect_data effs = buffer).
Proof.
  intros Hb Hm. unfold nrf52_ll_flash_write, programs_after.
  apply Z.eqb_eq in Hm as Hm'. rewrite Hm'. unfold assert, bind at 1, ret.
  unfold bind at 1, alloc_working_area.
  destruct (target_alloc_working_area _ _) as [[r wa] t1]. cbn [fst snd].
  destruct (r =? ERROR_OK); cbn [negb].
  2:{ destruct (ll_flash_write_slow_returns (S (Z.to_nat (bytes / 4)))
                  (call t1 (EvAlloc (Z.of_nat (length nrf52_flash_write_code)) r wa) s)
                  offset buffer bytes) as (res & s' & effs & Heq & Hp & _ & Hd);
        [done|done|lia|].
      exists res, s', effs. split; [exact Heq|]. split; [|done].
      destruct Hp as (?&?&?&?&?). by frame. }
  unfold bind at 1, write_buffer.
  destruct (target_write_buffer _ _ _ _) as [rb t2].
  destruct (rb =? ERROR_OK) eqn:Hrb; cbn [negb].
  2:{ eexists _, _, []. split; [reflexivity|]. split; [by frame|].
      intros ->. by rewrite eqb_ok_refl in Hrb. }
  unfold bind at 1.
  edestruct (ll_flash_write_source_returns 32) as (src & s3 & -> & Hp & Hsrc);
    [|lia|]; [lia|].
  destruct Hp as (Hc3 & Hb3 & Hm3 & He3 & _). simpl in Hc3, Hb3, Hm3, He3.
  rewrite app_nil_r in He3.
  destruct src as [retval|source].
  { destruct Hsrc as [-> _]. eexists _, _, []. split; [reflexivity|].
    split; [by frame|].
    intros Hk. by destruct ERROR_TARGET_RESOURCE_NOT_AVAILABLE_not_ok. }
  unfold bind at 1, run_flash_async_algorithm.
  destruct (target_run_flash_async_algorithm _ _ _ _ _ _ _ _) as [rr t4].
  eexists _, _, [Program (take (Z.to_nat (bytes / 4 * 4)) buffer)].
  split; [reflexivity|]. split; [by frame|].
  intros _ Hl. simpl. rewrite app_nil_r. apply take_ge.
  apply Z.mod_divide in Hm as [k ->]; [|lia]. rewrite Z.div_mul by lia. lia.
Qed.

Lemma flash_data_programs_after (s s' : state T) effs :
  programs_after s s' effs →
  flash_data (trace s') = flash_data (trace s) ++ mbind effect_data effs.
Proof.
  intros (_ & _ & _ & He & _). by rewrite !flash_data_effects, He, bind_app.
Qed.

Lemma programs_no_reads effs : Forall is_program effs → omap effect_read effs = [].
Proof. induction 1 as [|e effs He _ IH]; [done|]. by destruct e. Qed.

Lemma programs_no_triggers reg effs :
  Forall is_program effs → omap (effect_trigger reg) effs = [].
Proof. induction 1 as [|e effs He _ IH]; [done|]. by destruct e. Qed.

Lemma memory_reads_programs_after (s s' : state T) effs :
  programs_after s s' effs →
  memory_reads (trace s') = memory_reads (trace s).
Proof.
  intros (_ & _ & _ & He & Hp). rewrite !memory_reads_effects, He, omap_app.
  rewrite (programs_no_reads effs) by done. by rewrite app_nil_r.
Qed.

Lemma erase_triggers_programs_after (s s' : state T) effs reg :
  reg ≠ NRF52_NVMC_CONFIG_ADDR →
  programs_after s s' effs →
  erase_triggers reg (trace s') = erase_triggers reg (trace s).
Proof.
  intros Hreg (_ & _ & _ & He & Hp).
  rewrite !erase_triggers_effects, He, omap_app by done.
  rewrite (programs_no_triggers reg effs) by done. by rewrite app_nil_r.
Qed.

(** One turn of the loop that looks for a buffer area, when the request
    is refused. *)
Lemma ll_flash_write_source_refused fuel (s : state T) wa size r a t' :
  target_alloc_working_area size (target s) = (r, a, t') → r ≠ ERROR_OK →
  nrf52_ll_flash_write_source (S fuel) wa size s =
    if wrap32 (Z.land (size / 2) (Z.lnot 3)) <=? 256 then
      Done (inl ERROR_TARGET_RESOURCE_NOT_AVAILABLE)
        (call (target_free_working_area wa t') (EvFree wa)
           (call t' (EvAlloc size r a) s))
    else
      nrf52_ll_flash_write_source fuel wa (wrap32 (Z.land (size / 2) (Z.lnot 3)))
        (call t' (EvAlloc size r a) s).
Proof.
  intros Halloc Hr%Z.eqb_neq. cbn [nrf52_ll_flash_write_source].
  unfold bind at 1, alloc_working_area. rewrite Halloc. cbn [fst snd].
  rewrite Hr. cbn [negb]. by destruct (_ <=? 256).
Qed.

(** C4, as amended.  When the area for the loader program cannot be had,
    the bulk write is the word-at-a-time loop: it returns what that loop
    returns, and when that is success the whole buffer has been submitted,
    one word per call.  When the loader area is had and loaded, and the
    requests for a buffer area that follow, of 8192, 4096, 2048, 1024 and
    512 bytes, are refused one after the other, the bulk write releases
    the loader area and returns the resource code, and nothing has been
    submitted for programming. *)
Theorem ll_flash_write_allocation_failure (s : state T) offset buffer bytes :
  uint32 bytes → bytes mod 4 = 0 →
  (∀ r wa t1,
     target_alloc_working_area 32 (target s) = (r, wa, t1) → r ≠ ERROR_OK →
     ∃ res s' effs,
       nrf52_ll_flash_write offset buffer bytes s = Done res s' ∧
       nrf52_ll_flash_write_slow (S (Z.to_nat (bytes / 4))) offset buffer bytes
         (call t1 (EvAlloc 32 r wa) s) = Done res s' ∧
       programs_after s s' effs ∧
       (res = ERROR_OK → Z.of_nat (length effs) = bytes / 4) ∧
       (res = ERROR_OK → Z.of_nat (length buffer) = bytes →
        flash_data (trace s') = flash_data (trace s) ++ buffer)) ∧
  (∀ wa t1 t2 r1 a1 t3 r2 a2 t4 r3 a3 t5 r4 a4 t6 r5 a5 t7,
     target_alloc_working_area 32 (target s) = (ERROR_OK, wa, t1) →
     target_write_buffer (wa_address wa) 32 nrf52_flash_write_code t1
       = (ERROR_OK, t2) →
     target_alloc_working_area 8192 t2 = (r1, a1, t3) → r1 ≠ ERROR_OK →
     target_alloc_working_area 4096 t3 = (r2, a2, t4) → r2 ≠ ERROR_OK →
     target_alloc_working_area 2048 t4 = (r3, a3, t5) → r3 ≠ ERROR_OK →
     target_alloc_working_area 1024 t5 = (r4, a4, t6) → r4 ≠ ERROR_OK →
     target_alloc_working_area 512 t6 = (r5, a5, t7) → r5 ≠ ERROR_OK →
     ∃ s',
       nrf52_ll_flash_write offset buffer bytes s
         = Done ERROR_TARGET_RESOURCE_NOT_AVAILABLE s' ∧
       effects (trace s') = effects (trace s) ∧
       flash_data (trace s') = flash_data (trace s) ∧
       alloc_requests (trace s') =
         alloc_requests (trace s) ++ [32; 8192; 4096; 2048; 1024; 512] ∧
       head (trace s') = Some (EvFree wa)).
Proof.
  intros Hb Hm. apply Z.eqb_eq in Hm as Hm'. split.
  - intros r wa t1 Halloc Hr%Z.eqb_neq.
    destruct (ll_flash_write_slow_returns (S (Z.to_nat (bytes / 4)))
                (call t1 (EvAlloc 32 r wa) s) offset buffer bytes)
      as (res & s' & effs & Heq & Hp & Hlen & Hd); [done|done|lia|].
    assert (programs_after s s' effs) as Hp'.
    { destruct Hp as (?&?&?&?&?). by frame. }
    exists res, s', effs. split; [|split; [done|split; [done|split; [done|]]]].
    + unfold nrf52_ll_flash_write. rewrite Hm'.
      unfold assert, bind at 1, ret. unfold bind at 1, alloc_working_area.
      change (Z.of_nat (length nrf52_flash_write_code)) with 32.
      rewrite Halloc. cbn [fst snd]. rewrite Hr. exact Heq.
    + intros Hok Hl. rewrite (flash_data_programs_after _ _ _ Hp'). by rewrite Hd.
  - intros wa t1 t2 r1 a1 t3 r2 a2 t4 r3 a3 t5 r4 a4 t6 r5 a5 t7
      Halloc Hwb H1 Hr1 H2 Hr2 H3 Hr3 H4 Hr4 H5 Hr5.
    unfold nrf52_ll_flash_write. rewrite Hm'.
    unfold assert, bind at 1, ret. unfold bind at 1, alloc_working_area.
    change (Z.of_nat (length nrf52_flash_write_code)) with 32.
    rewrite Halloc. cbn [fst snd]. rewrite eqb_ok_refl. cbn [negb].
    unfold bind at 1, write_buffer. cbn [target call].
    rewrite Hwb, eqb_ok_refl. cbn [negb].
    unfold bind at 1.
    erewrite ll_flash_write_source_refused; [|exact H1|exact Hr1].
    change (wrap32 (Z.land (8192 / 2) (Z.lnot 3))) with 4096.
    change (4096 <=? 256) with false. cbv iota.
    erewrite ll_flash_write_source_refused; [|exact H2|exact Hr2].
    change (wrap32 (Z.land (4096 / 2) (Z.lnot 3))) with 2048.
    change (2048 <=? 256) with false. cbv iota.
    erewrite ll_flash_write_source_refused; [|exact H3|exact Hr3].
    change (wrap32 (Z.land (2048 / 2) (Z.lnot 3))) with 1024.
    change (1024 <=? 256) with false. cbv iota.
    erewrite ll_flash_write_source_refused; [|exact H4|exact Hr4].
    change (wrap32 (Z.land (1024 / 2) (Z.lnot 3))) with 512.
    change (512 <=? 256) with false. cbv iota.
    erewrite ll_flash_write_source_refused; [|exact H5|exact Hr5].
    change (wrap32 (Z.land (512 / 2) (Z.lnot 3))) with 256.
    change (256 <=? 256) with true. cbv iota.
    eexists. split; [reflexivity|].
    split; [done|]. split; [done|]. split; [|done].
    cbn. by rewrite <- !app_assoc.
Qed.

(** ** Sectors *)

Lemma set_is_erased_idem sec : set_is_erased 1 (set_is_erased 1 sec) = set_is_erased 1 sec.
Proof. done. Qed.

Lemma marks_erased_refl b : marks_erased b b.
Proof.
  repeat split. apply Forall2_same_length_lookup_2; [done|].
  intros i x y Hx Hy. left. congruence.
Qed.

Lemma marks_erased_trans b1 b2 b3 :
  marks_erased b1 b2 → marks_erased b2 b3 → marks_erased b1 b3.
Proof.
  intros (?&?&?&?&H12) (?&?&?&?&H23). repeat split; try congruence.
  revert H23. generalize (sectors b3). induction H12 as [|x y l k Hxy _ IH];
    intros l3 H23; inversion H23 as [|y' z k' l3' Hyz Hrest]; subst; constructor; auto.
  destruct Hxy as [->| ->], Hyz as [->| ->]; auto.
Qed.

Lemma marks_erased_bank_erased i b : marks_erased b (bank_erased i b).
Proof.
  unfold bank_erased. destruct (sectors b !! i) as [sec|] eqn:Hi;
    [|apply marks_erased_refl].
  repeat split. simpl.
  rewrite <- (list_insert_id (sectors b) i sec) at 1 by done.
  apply Forall2_insert; [|by right].
  apply Forall2_same_length_lookup_2; [done|].
  intros j x y Hx Hy. left. congruence.
Qed.

Lemma marks_erased_typed b b' : marks_erased b b' → bank_typed b → bank_typed b'.
Proof.
  intros (_&_&_&_&H) Ht. unfold bank_typed in *.
  induction H as [|x y l k Hxy _ IH]; [done|].
  inversion Ht; subst. constructor; [|auto].
  by destruct Hxy as [->| ->].
Qed.

Lemma marks_erased_lookup b b' i sec :
  marks_erased b b' → sectors b !! i = Some sec →
  ∃ sec', sectors b' !! i = Some sec' ∧ (sec' = sec ∨ sec' = set_is_erased 1 sec).
Proof.
  intros (_&_&_&_&H) Hi.
  destruct (Forall2_lookup_l _ _ _ _ _ H Hi) as (sec' & ? & ?). eauto.
Qed.

Lemma list_find_index_ext {A} (P : A → Prop) `{∀ x, Decision (P x)}
    (R : A → A → Prop) (l k : list A) :
  (∀ x y, R x y → P x ↔ P y) → Forall2 R l k →
  fst <$> list_find P l = fst <$> list_find P k.
Proof.
  intros HR. induction 1 as [|x y l k Hxy _ IH]; [done|].
  simpl. destruct (HR _ _ Hxy) as [H1 H2].
  repeat case_decide; try done; try tauto.
  rewrite <- !option_fmap_compose.
  destruct (list_find P l) as [[??]|], (list_find P k) as [[??]|];
    simpl in *; congruence.
Qed.

Lemma find_sector_marks_erased b b' c a :
  marks_erased b b' →
  nrf52_find_sector_by_address b' c a = nrf52_find_sector_by_address b c a.
Proof.
  intros (_&_&Hn&_&H). unfold nrf52_find_sector_by_address. rewrite Hn.
  symmetry. eapply list_find_index_ext; [|by apply Forall2_take].
  intros x y [->| ->]; done.
Qed.

Lemma find_sector_Some b c a i :
  nrf52_find_sector_by_address b c a = Some i →
  ∃ sec, sectors b !! i = Some sec ∧ sector_contains (code_page_size c) a sec.
Proof.
  unfold nrf52_find_sector_by_address.
  destruct (list_find _ _) as [[j sec]|] eqn:Hf; [|done].
  intros [= <-]. apply list_find_Some in Hf as (Hl & HP & _).
  apply lookup_take_Some in Hl as [Hl _]. eauto.
Qed.

(** A sector contains at most one address of each residue modulo the page
    size. *)
Lemma sector_contains_near page_size a a' sec :
  0 ≤ offset sec → 0 ≤ page_size →
  sector_contains page_size a sec → sector_contains page_size a' sec →
  a' - a < page_size.
Proof.
  unfold sector_contains, wrap32. intros Ho Hp [H1 H2] [H3 H4].
  pose proof (Z.mod_le (offset sec + page_size) (2 ^ 32)). lia.
Qed.

Lemma mark_erased_done (s : state T) i sec :
  sectors (bank s) !! i = Some sec →
  mark_erased i 1 s =
    Done tt {| chip := chip s; bank := bank_erased i (bank s);
               target := target s; trace := trace s |}.
Proof.
  intros Hi. unfold mark_erased, bind, sector, get_bank, put_bank, bank_erased.
  by rewrite Hi.
Qed.

Lemma bank_erased_idem i b : bank_erased i (bank_erased i b) = bank_erased i b.
Proof.
  unfold bank_erased. destruct (sectors b !! i) as [sec|] eqn:Hi; [|by rewrite Hi].
  simpl. rewrite list_lookup_insert_eq by (by eapply lookup_lt_Some).
  unfold set_sectors. simpl. by rewrite list_insert_insert_eq.
Qed.

Lemma bank_erased_lookup i b sec :
  sectors b !! i = Some sec →
  sectors (bank_erased i b) !! i = Some (set_is_erased 1 sec).
Proof.
  intros Hi. unfold bank_erased. rewrite Hi. simpl.
  apply list_lookup_insert_eq. by eapply lookup_lt_Some.
Qed.

Lemma bank_erased_lookup_ne i j b :
  i ≠ j → sectors (bank_erased i b) !! j = sectors b !! j.
Proof.
  intros Hij. unfold bank_erased. destruct (sectors b !! i); [|done].
  simpl. by apply list_lookup_insert_ne.
Qed.

Lemma erase_register_bank_erased i b : erase_register (bank_erased i b) = erase_register b.
Proof. unfold bank_erased, erase_register. by destruct (sectors b !! i). Qed.

(** A page erase that reports success has issued the erase trigger of the
    sector, marked the sector erased and left the controller in read-only
    mode. *)
Lemma erase_page_ok (s s' : state T) i :
  nrf52_erase_page i s = Done ERROR_OK s' →
  ∃ sec, sectors (bank s) !! i = Some sec ∧
    chip s' = chip s ∧ bank s' = bank_erased i (bank s) ∧
    effects (trace s') = effects (trace s) ++
      [RegWrite (erase_register (bank s)) (erase_value (bank s) sec)] ∧
    nvmc_config (trace s') = Some NRF52_NVMC_CONFIG_REN.
Proof.
  unfold nrf52_erase_page, bind at 1, sector.
  destruct (sectors (bank s) !! i) as [sec|] eqn:Hi; [|done].
  destruct (is_protected sec =? 1).
  { intros [= Hbad _]. by destruct ERROR_FAIL_not_ok. }
  unfold bind at 1, get_bank. unfold bind at 1.
  unfold erase_register, erase_value.
  destruct (base (bank s) =? NRF52_UICR_BASE_ADDR).
  - destruct (nvmc_generic_erase_returns s NRF52_NVMC_ERASEUICR_ADDR 1)
      as (res & s1 & -> & Hc & Hb & _ & Hok); [done|].
    destruct (res =? ERROR_OK) eqn:Hres.
    + apply Z.eqb_eq in Hres. subst res. destruct (Hok eq_refl) as [He Hm].
      unfold bind. rewrite (mark_erased_done s1 i sec) by congruence.
      intros [= <-]. exists sec. simpl. repeat split; congruence.
    + unfold bind, ret. intros [= -> _]. by rewrite eqb_ok_refl in Hres.
  - destruct (nvmc_generic_erase_returns s NRF52_NVMC_ERASEPAGE_ADDR (offset sec))
      as (res & s1 & -> & Hc & Hb & _ & Hok); [done|].
    destruct (res =? ERROR_OK) eqn:Hres.
    + apply Z.eqb_eq in Hres. subst res. destruct (Hok eq_refl) as [He Hm].
      unfold bind. rewrite (mark_erased_done s1 i sec) by congruence.
      intros [= <-]. exists sec. simpl. repeat split; congruence.
    + unfold bind, ret. intros [= -> _]. by rewrite eqb_ok_refl in Hres.
Qed.

(** A page erase never stops for want of fuel. *)
Lemma erase_page_within_fuel (s : state T) i : within_fuel (nrf52_erase_page i s).
Proof.
  unfold nrf52_erase_page, bind at 1, sector.
  destruct (sectors (bank s) !! i) as [sec|] eqn:Hi; [|done].
  destruct (is_protected sec =? 1); [done|].
  unfold bind at 1, get_bank. unfold bind at 1.
  destruct (base (bank s) =? NRF52_UICR_BASE_ADDR).
  - destruct (nvmc_generic_erase_returns s NRF52_NVMC_ERASEUICR_ADDR 1)
      as (res & s1 & -> & Hc & Hb & _); [done|].
    destruct (res =? ERROR_OK); [|done].
    unfold bind. by rewrite (mark_erased_done s1 i sec) by congruence.
  - destruct (nvmc_generic_erase_returns s NRF52_NVMC_ERASEPAGE_ADDR (offset sec))
      as (res & s1 & -> & Hc & Hb & _); [done|].
    destruct (res =? ERROR_OK); [|done].
    unfold bind. by rewrite (mark_erased_done s1 i sec) by congruence.
Qed.

(** ** The erase loop of the page writer *)

Lemma aligned_step o e page_size :
  0 < page_size → o mod page_size = 0 → e mod page_size = 0 → o < e →
  o + page_size ≤ e.
Proof.
  intros Hp Ho He Hlt.
  apply Z.mod_divide in Ho as [a ->]; [|lia].
  apply Z.mod_divide in He as [b ->]; [|lia].
  assert (a < b) by (apply Z.mul_lt_mono_pos_r with page_size; lia).
  assert ((a + 1) * page_size ≤ b * page_size)
    by (apply Z.mul_le_mono_nonneg_r; lia).
  lia.
Qed.

Lemma aligned_next o page_size :
  0 < page_size → o mod page_size = 0 → (o + page_size) mod page_size = 0.
Proof.
  intros Hp Ho. apply Z.mod_divide in Ho as [a ->]; [|lia].
  replace (a * page_size + page_size) with ((a + 1) * page_size) by lia.
  apply Z.mod_mul. lia.
Qed.

Lemma wrap32_small z : 0 ≤ z < 2 ^ 32 → wrap32 z = z.
Proof. apply Z.mod_small. Qed.

Lemma loop_pages_bounds fuel o e page_size p :
  0 < page_size → 0 ≤ o → o mod page_size = 0 → e mod page_size = 0 →
  e < 2 ^ 32 →
  p ∈ loop_pages fuel o e page_size → o ≤ p < e.
Proof.
  intros Hp. revert o. induction fuel as [|fuel IH]; intros o Ho Hm He Hlt; simpl.
  { by intros ?%elem_of_nil. }
  destruct (o <? e) eqn:Hoe; [|by intros ?%elem_of_nil].
  apply Z.ltb_lt in Hoe. pose proof (aligned_step o e page_size Hp Hm He Hoe).
  rewrite wrap32_small by lia.
  intros [->|Hin]%elem_of_cons; [lia|].
  apply IH in Hin; [lia|lia|by apply aligned_next|done|done].
Qed.

(** On aligned bounds the loop visits the pages of the range, in order. *)
Lemma loop_pages_offsets fuel o e page_size :
  0 < page_size → 0 ≤ o → o mod page_size = 0 → e mod page_size = 0 →
  e < 2 ^ 32 → (Z.to_nat ((e - o) / page_size) < fuel)%nat →
  loop_pages fuel o e page_size = page_offsets o e page_size.
Proof.
  intros Hp. unfold page_offsets. revert o.
  induction fuel as [|fuel IH]; intros o Ho Hm He Hlt Hf; [lia|]. simpl.
  destruct (o <? e) eqn:Hoe.
  - apply Z.ltb_lt in Hoe. pose proof (aligned_step o e page_size Hp Hm He Hoe).
    assert ((e - o) / page_size = (e - (o + page_size)) / page_size + 1) as Hq.
    { replace (e - o) with ((e - (o + page_size)) + 1 * page_size) by lia.
      rewrite Z.div_add by lia. done. }
    assert (0 ≤ (e - (o + page_size)) / page_size) by (apply Z.div_pos; lia).
    rewrite wrap32_small by lia.
    rewrite IH; [|lia|by apply aligned_next|done|done|lia].
    rewrite Hq. set (q := (e - (o + page_size)) / page_size) in *.
    rewrite (seqZ_cons 0 (q + 1)) by lia. rewrite fmap_cons. f_equal; [lia|].
    replace (Z.pred (q + 1)) with q by lia.
    rewrite <- (fmap_add_seqZ 1 0). rewrite <- list_fmap_compose.
    apply list_fmap_ext. intros _ k _. simpl. lia.
  - apply Z.ltb_ge in Hoe.
    assert ((e - o) / page_size ≤ 0) as Hq.
    { apply Z.div_le_upper_bound; lia. }
    by rewrite seqZ_nil.
Qed.

Lemma page_sector_bank_erased i b c p :
  nrf52_find_sector_by_address b c p ≠ Some i →
  page_sector (bank_erased i b) c p = page_sector b c p.
Proof.
  intros Hne. unfold page_sector.
  rewrite (find_sector_marks_erased b) by apply marks_erased_bank_erased.
  destruct (nrf52_find_sector_by_address b c p) as [j|]; [|done]. simpl.
  apply bank_erased_lookup_ne. congruence.
Qed.

Lemma erase_value_bank_erased i b sec :
  erase_value (bank_erased i b) sec = erase_value b sec.
Proof. unfold bank_erased, erase_value. by destruct (sectors b !! i). Qed.

Lemma due_erases_cons b c p pages :
  due_erases b c (p :: pages) =
    match page_sector b c p with
    | Some sec => if is_erased sec =? 1 then [] else [erase_value b sec]
    | None => []
    end ++ due_erases b c pages.
Proof.
  unfold due_erases. cbn [omap list_omap].
  destruct (page_sector b c p) as [sec|]; simpl; [|done].
  by destruct (is_erased sec =? 1).
Qed.

Lemma due_erases_bank_erased i b c pages :
  (∀ p, p ∈ pages → nrf52_find_sector_by_address b c p ≠ Some i) →
  due_erases (bank_erased i b) c pages = due_erases b c pages.
Proof.
  intros Hne. induction pages as [|p pages IH]; [done|].
  rewrite !due_erases_cons, page_sector_bank_erased by (apply Hne; left).
  rewrite IH by (intros; apply Hne; by right).
  destruct (page_sector b c p) as [sec|]; [|done].
  by rewrite erase_value_bank_erased.
Qed.

(** One pass of the loop body, from the erase on: when the loop goes on,
    the sector is marked erased, and its erase trigger was issued if and
    only if it was not marked erased before. *)
Lemma erase_if_stale (s s1 : state T) i sec (k : M T loop_exit) :
  sectors (bank s) !! i = Some sec →
  (res <- (if negb (is_erased sec =? 1) then nrf52_erase_page i else ret ERROR_OK) ;;
   if negb (res =? ERROR_OK) then ret (Returned res) else
   mark_erased i 1 ;; k) s = Done Completed s1 →
  ∃ s_mid, k s_mid = Done Completed s1 ∧
    chip s_mid = chip s ∧ bank s_mid = bank_erased i (bank s) ∧
    effects (trace s_mid) = effects (trace s) ++
      (if is_erased sec =? 1 then []
       else [RegWrite (erase_register (bank s)) (erase_value (bank s) sec)]).
Proof.
  intros Hi. unfold bind at 1. destruct (is_erased sec =? 1); cbn [negb].
  - unfold ret at 1. rewrite eqb_ok_refl. cbn [negb].
    unfold bind. rewrite (mark_erased_done s i sec Hi).
    intros Hk. eexists. split; [exact Hk|]. simpl. by rewrite app_nil_r.
  - destruct (nrf52_erase_page i s) as [res s2|] eqn:He; [|done].
    destruct (res =? ERROR_OK) eqn:Hres; cbn [negb]; [|done].
    apply Z.eqb_eq in Hres. subst res.
    apply erase_page_ok in He as (sec' & Hi' & Hc & Hb & He & _).
    assert (sec' = sec) as -> by congruence.
    unfold bind.
    rewrite (mark_erased_done s2 i (set_is_erased 1 sec))
      by (rewrite Hb; by apply bank_erased_lookup).
    intros Hk. eexists. split; [exact Hk|]. simpl.
    rewrite Hb, bank_erased_idem. done.
Qed.

Lemma write_pages_erase_completed fuel (s s1 : state T) o e :
  0 < code_page_size (chip s) → 0 ≤ o →
  o mod code_page_size (chip s) = 0 → e mod code_page_size (chip s) = 0 →
  e < 2 ^ 32 → bank_typed (bank s) →
  nrf52_write_pages_erase fuel o e s = Done Completed s1 →
  chip s1 = chip s ∧ marks_erased (bank s) (bank s1) ∧
  effects (trace s1) = effects (trace s) ++
    (RegWrite (erase_register (bank s)) <$>
       due_erases (bank s) (chip s) (loop_pages fuel o e (code_page_size (chip s)))) ∧
  (∀ p, p ∈ loop_pages fuel o e (code_page_size (chip s)) →
        ∃ sec, page_sector (bank s1) (chip s1) p = Some sec ∧ is_erased sec = 1).
Proof.
  revert s o. induction fuel as [|fuel IH]; intros s o Hp Ho Hm He Hlt Ht; [done|].
  simpl. destruct (o <? e) eqn:Hoe.
  2:{ intros [= <-]. split; [done|]. split; [apply marks_erased_refl|].
      split; [by rewrite app_nil_r|]. by intros p ?%elem_of_nil. }
  apply Z.ltb_lt in Hoe.
  pose proof (aligned_step o e _ Hp Hm He Hoe) as Hstep.
  unfold bind at 1, get_bank. unfold bind at 1, get_chip.
  destruct (nrf52_find_sector_by_address (bank s) (chip s) o) as [i|] eqn:Hf; [|by destruct (sectors_missing (bank s))].
  destruct (find_sector_Some _ _ _ _ Hf) as (sec & Hi & Hcontains).
  unfold bind at 1, sector. rewrite Hi.
  destruct (is_protected sec =? 1); [done|].
  intros Hrun. apply (erase_if_stale _ _ _ _ _ Hi) in Hrun
    as (s_mid & Hk & Hc & Hb & Heff).
  rewrite wrap32_small in Hk |- * by lia.
  assert (marks_erased (bank s) (bank s_mid)) as Hmarks.
  { rewrite Hb. apply marks_erased_bank_erased. }
  pose proof (IH s_mid (o + code_page_size (chip s))) as IH'.
  rewrite Hc in IH'.
  destruct IH' as (Hc1 & Hm1 & He1 & Hp1);
    [lia|lia|by apply aligned_next|done|done|by eapply marks_erased_typed|exact Hk|].
  assert (∀ p, p ∈ loop_pages fuel (o + code_page_size (chip s)) e
                     (code_page_size (chip s)) →
               nrf52_find_sector_by_address (bank s) (chip s) p ≠ Some i) as Hother.
  { intros p Hin Hfp.
    apply loop_pages_bounds in Hin; [|lia|lia|by apply aligned_next|done|done].
    destruct (find_sector_Some _ _ _ _ Hfp) as (sec' & Hi' & Hcontains').
    assert (sec' = sec) as -> by congruence.
    assert (0 ≤ offset sec) as Hsec.
    { unfold bank_typed in Ht. rewrite Forall_lookup in Ht. by eapply Ht. }
    assert (0 ≤ code_page_size (chip s)) as Hps by lia.
    pose proof (sector_contains_near _ _ _ _ Hsec Hps Hcontains Hcontains'). lia. }
  split; [congruence|]. split; [by eapply marks_erased_trans|]. split.
  - rewrite He1, Heff, Hb, erase_register_bank_erased, due_erases_bank_erased by done.
    rewrite <- app_assoc. f_equal.
    rewrite due_erases_cons, fmap_app. f_equal.
    unfold page_sector. rewrite Hf. simpl. rewrite Hi.
    by destruct (is_erased sec =? 1).
  - intros p [->|Hin]%elem_of_cons; [|by apply Hp1].
    unfold page_sector.
    rewrite (find_sector_marks_erased (bank s))
      by (by eapply marks_erased_trans).
    rewrite Hc1, Hf. simpl.
    destruct (marks_erased_lookup _ _ i (set_is_erased 1 sec) Hm1)
      as (sec' & -> & Hsec').
    { rewrite Hb. by apply bank_erased_lookup. }
    exists sec'. split; [done|]. by destruct Hsec' as [->| ->].
Qed.

Lemma within_fuel_bind {A B} (m : M T A) (k : A → M T B) (s : state T) :
  within_fuel (m s) → (∀ a s', m s = Done a s' → within_fuel (k a s')) →
  within_fuel (bind m k s).
Proof.
  unfold bind. destruct (m s) as [a s'|f s']; [|done]. intros _ Hk. by apply Hk.
Qed.

(** The erase loop has enough steps for any aligned range. *)
Lemma write_pages_erase_within_fuel fuel (s : state T) o e :
  0 < code_page_size (chip s) → 0 ≤ o →
  o mod code_page_size (chip s) = 0 → e mod code_page_size (chip s) = 0 →
  e < 2 ^ 32 →
  (Z.to_nat ((e - o) / code_page_size (chip s)) < fuel)%nat →
  within_fuel (nrf52_write_pages_erase fuel o e s).
Proof.
  revert s o. induction fuel as [|fuel IH]; intros s o Hp Ho Hm He Hlt Hf; [lia|].
  simpl. destruct (o <? e) eqn:Hoe; [|done].
  apply Z.ltb_lt in Hoe.
  pose proof (aligned_step o e _ Hp Hm He Hoe) as Hstep.
  unfold bind at 1, get_bank. unfold bind at 1, get_chip.
  destruct (nrf52_find_sector_by_address (bank s) (chip s) o) as [i|] eqn:Hfind; [|by destruct (sectors_missing (bank s))].
  destruct (find_sector_Some _ _ _ _ Hfind) as (sec & Hi & _).
  unfold bind at 1, sector. rewrite Hi.
  destruct (is_protected sec =? 1); [done|].
  assert (∀ s_mid : state T, chip s_mid = chip s →
            within_fuel (nrf52_write_pages_erase fuel
              (wrap32 (o + code_page_size (chip s))) e s_mid)) as Hnext.
  { intros s_mid Hc. rewrite wrap32_small by lia.
    apply IH; rewrite ?Hc; [lia|lia|by apply aligned_next|done|done|].
    replace (e - o) with ((e - (o + code_page_size (chip s)))
                          + 1 * code_page_size (chip s)) in Hf by lia.
    rewrite Z.div_add in Hf by lia.
    assert (0 ≤ (e - (o + code_page_size (chip s))) / code_page_size (chip s))
      by (apply Z.div_pos; lia).
    lia. }
  apply within_fuel_bind.
  { destruct (is_erased sec =? 1); [done|]. apply erase_page_within_fuel. }
  intros res s2 Hres. destruct (res =? ERROR_OK) eqn:Hok; [|done]. cbn [negb].
  apply Z.eqb_eq in Hok. subst res.
  destruct (is_erased sec =? 1); cbn [negb] in Hres.
  - injection Hres as <-. unfold bind. rewrite (mark_erased_done s i sec Hi).
    by apply Hnext.
  - apply erase_page_ok in Hres as (sec' & _ & Hc & Hb & _).
    unfold bind. rewrite (mark_erased_done s2 i (set_is_erased 1 sec)).
    + by apply Hnext.
    + rewrite Hb. by apply bank_erased_lookup.
Qed.

Lemma ll_flash_write_within_fuel (s : state T) offset buffer bytes :
  uint32 bytes → within_fuel (nrf52_ll_flash_write offset buffer bytes s).
Proof.
  intros Hb. destruct (bytes mod 4 =? 0) eqn:Hm.
  - apply Z.eqb_eq in Hm.
    destruct (ll_flash_write_returns s offset buffer bytes Hb Hm)
      as (res & s' & effs & -> & _). done.
  - unfold nrf52_ll_flash_write. by rewrite Hm.
Qed.

(** The page writer has enough steps whenever its bounds are [uint32_t]s. *)
Lemma write_pages_within_fuel (s : state T) start end_ buffer :
  uint32 start → uint32 end_ → uint32 (code_page_size (chip s)) →
  within_fuel (nrf52_write_pages start end_ buffer s).
Proof.
  intros Hs He Hp. unfold nrf52_write_pages.
  unfold bind at 1, get_chip.
  destruct (code_page_size (chip s) =? 0) eqn:Hz; [done|].
  apply Z.eqb_neq in Hz. unfold bind at 1, ret.
  destruct (start mod code_page_size (chip s) =? 0) eqn:Hsm; [|done].
  destruct (end_ mod code_page_size (chip s) =? 0) eqn:Hem; [|done].
  apply Z.eqb_eq in Hsm, Hem. unfold uint32 in *.
  unfold assert, bind at 1, ret. unfold bind at 1.
  apply within_fuel_bind.
  { apply write_pages_erase_within_fuel; try lia.
    assert ((end_ - start) / code_page_size (chip s)
            ≤ end_ / code_page_size (chip s))
      by (apply Z.div_le_mono; lia).
    assert (0 ≤ end_ / code_page_size (chip s)) by (apply Z.div_pos; lia).
    lia. }
  intros [|res] s1 _; [|done].
  destruct (nvmc_write_enable_returns s1) as (r & s2 & Hwe & _).
  unfold bind at 1. rewrite Hwe. destruct (r =? ERROR_OK); [|done]. cbn [negb].
  apply within_fuel_bind.
  { apply ll_flash_write_within_fuel. unfold wrap32. apply Z.mod_pos_bound. lia. }
  intros rw s3 _.
  destruct (nvmc_read_only_returns s3) as (rr & s4 & Hro & _).
  destruct (rw =? ERROR_OK); cbn [negb]; [by rewrite Hro|].
  unfold bind. by rewrite Hro.
Qed.

(** C1, as amended.  Take a page-aligned range and an erase loop that runs
    to its end.  The erase triggers written for the bank during the loop
    are exactly those due for the pages of the range, in page order: one
    for each page whose sector was not marked erased, none for a page
    whose sector was; and every page of the range has its sector marked
    erased afterwards.  Once write mode is enabled and the bulk write has
    returned, with success or with an error, the page writer runs the
    transition to read-only mode and then returns: the error of the bulk
    write if it failed, otherwise what the transition returned.  No
    further erase trigger is written on the way.  When the transition
    reports success the controller is in read-only mode; when it reports
    an error the controller is still in write-enabled mode, and after a
    failed bulk write that error is not what the page writer returns. *)
Theorem write_pages_erases_stale_pages_once_then_read_only
    (s s1 : state T) (start end_ : Z) (buffer : list Z) :
  uint32 start → uint32 end_ →
  0 < code_page_size (chip s) →
  start mod code_page_size (chip s) = 0 →
  end_ mod code_page_size (chip s) = 0 →
  bank_typed (bank s) →
  nrf52_write_pages_erase (S (Z.to_nat (end_ / code_page_size (chip s))))
    start end_ s = Done Completed s1 →
  erase_triggers (erase_register (bank s)) (trace s1) =
    erase_triggers (erase_register (bank s)) (trace s) ++
    due_erases (bank s) (chip s)
      (page_offsets start end_ (code_page_size (chip s))) ∧
  (∀ p, p ∈ page_offsets start end_ (code_page_size (chip s)) →
        ∃ sec, page_sector (bank s1) (chip s1) p = Some sec ∧ is_erased sec = 1) ∧
  (∀ s2 rw s3,
     nrf52_nvmc_write_enable s1 = Done ERROR_OK s2 →
     nrf52_ll_flash_write start buffer (wrap32 (end_ - start)) s2 = Done rw s3 →
     ∃ rr s4,
       nrf52_nvmc_read_only s3 = Done rr s4 ∧
       nrf52_write_pages start end_ buffer s
         = Done (if rw =? ERROR_OK then rr else rw) s4 ∧
       bank s4 = bank s1 ∧
       erase_triggers (erase_register (bank s)) (trace s4) =
         erase_triggers (erase_register (bank s)) (trace s1) ∧
       (rr = ERROR_OK → nvmc_config (trace s4) = Some NRF52_NVMC_CONFIG_REN) ∧
       (rr ≠ ERROR_OK → nvmc_config (trace s4) = Some NRF52_NVMC_CONFIG_WEN)).
Proof.
  intros [Hs0 Hs1] [He0 He1] Hp Hsm Hem Ht Hloop.
  assert ((Z.to_nat ((end_ - start) / code_page_size (chip s))
           < S (Z.to_nat (end_ / code_page_size (chip s))))%nat) as Hfuel.
  { assert ((end_ - start) / code_page_size (chip s)
            ≤ end_ / code_page_size (chip s))
      by (apply Z.div_le_mono; lia).
    assert (0 ≤ end_ / code_page_size (chip s)) by (apply Z.div_pos; lia).
    lia. }
  pose proof (write_pages_erase_completed _ _ _ _ _ Hp Hs0 Hsm Hem He1 Ht Hloop)
    as (Hc1 & Hm1 & Heff & Hmarked).
  rewrite loop_pages_offsets in Heff, Hmarked by done.
  pose proof (config_is_no_erase_register (bank s)) as Hreg.
  split; [|split; [done|]].
  - rewrite !erase_triggers_effects, Heff, omap_app by done. f_equal.
    generalize (due_erases (bank s) (chip s)
                  (page_offsets start end_ (code_page_size (chip s)))).
    intros l. induction l as [|v l IH]; [done|].
    rewrite fmap_cons. cbn [omap list_omap effect_trigger].
    rewrite Z.eqb_refl. by rewrite IH.
  - intros s2 rw s3 Hwe Hll.
    destruct (nvmc_write_enable_returns s1)
      as (r & s2' & Hwe' & (Hc2 & Hb2 & He2) & Hm2 & _).
    rewrite Hwe in Hwe'. injection Hwe' as <- <-.
    destruct (nvmc_read_only_returns s3)
      as (rr & s4 & Hro & (Hc4 & Hb4 & He4) & Hm4 & Hk4).
    exists rr, s4. split; [done|].
    assert (chip s3 = chip s2 ∧ bank s3 = bank s2 ∧
            erase_triggers (erase_register (bank s)) (trace s3) =
            erase_triggers (erase_register (bank s)) (trace s2) ∧
            nvmc_config (trace s3) = nvmc_config (trace s2))
      as (Hc3 & Hb3 & He3 & Hm3).
    { destruct (ll_flash_write_returns s2 start buffer (wrap32 (end_ - start)))
        as (rw' & s3' & effs & Hll' & Hpa & _).
      - unfold wrap32. apply Z.mod_pos_bound. lia.
      - unfold nrf52_ll_flash_write in Hll.
        destruct (wrap32 (end_ - start) mod 4 =? 0) eqn:Hm4'; [|done].
        by apply Z.eqb_eq.
      - rewrite Hll in Hll'. injection Hll' as <- <-.
        destruct Hpa as (? & ? & ? & ? & ?). split; [done|]. split; [done|].
        split; [|done].
        eapply erase_triggers_programs_after; [done|]. by repeat split. }
    split; [|split; [congruence|split; [|split; [done|]]]].
    3:{ intros Hne. rewrite (Hk4 Hne), Hm3. by apply Hm2. }
    + unfold nrf52_write_pages, bind at 1, get_chip.
      assert ((code_page_size (chip s) =? 0) = false) as -> by (apply Z.eqb_neq; lia).
      unfold bind at 1, ret.
      apply Z.eqb_eq in Hsm, Hem. rewrite Hsm, Hem.
      unfold assert, bind at 1, ret. unfold bind at 1. unfold bind at 1.
      rewrite Hloop. unfold bind at 1. rewrite Hwe, eqb_ok_refl. cbn [negb].
      unfold bind at 1. rewrite Hll.
      destruct (rw =? ERROR_OK); cbn [negb]; [done|].
      unfold bind. by rewrite Hro.
    + rewrite (erase_triggers_effects _ (trace s4)), He4 by done.
      rewrite <- erase_triggers_effects, He3 by done.
      rewrite !erase_triggers_effects by done. congruence.
Qed.

(** ** Probing *)

Lemma probe_fill_length page_size (l : list flash_sector) (idx : list nat) :
  length (foldl (probe_fill_sector page_size) l idx) = length l.
Proof.
  revert l. induction idx as [|j idx IH]; intros l; [done|]. simpl. rewrite IH.
  unfold probe_fill_sector. apply length_insert.
Qed.

Lemma probe_fill_lookup page_size (n : nat) (l : list flash_sector) (i : nat) :
  (n ≤ length l)%nat →
  foldl (probe_fill_sector page_size) l (seq 0 n) !! i =
    if decide (i < n)%nat
    then Some {| offset := wrap32 (Z.of_nat i * page_size); size := page_size;
                 is_erased := -1; is_protected := -1 |}
    else l !! i.
Proof.
  induction n as [|n IH]; intros Hn; [done|].
  rewrite seq_S, foldl_app. simpl. unfold probe_fill_sector at 1.
  pose proof (probe_fill_length page_size l (seq 0 n)) as Hlen.
  destruct (decide (i = n)) as [->|Hne].
  - clear IH. rewrite list_lookup_insert_eq by lia. case_decide; [done|lia].
  - rewrite list_lookup_insert_ne by done. rewrite IH by lia.
    repeat case_decide; try done; lia.
Qed.

Lemma sectors_extent_layout b page_size :
  probed_layout b page_size → sectors_extent b = num_sectors b * page_size.
Proof.
  intros [Hn Hl]. rewrite Hn. unfold sectors_extent.
  assert (∀ sec, sec ∈ sectors b → size sec = page_size) as Hsz.
  { intros sec [i Hi]%list_elem_of_lookup. by apply Hl in Hi as (_ & ? & _). }
  clear Hn Hl. induction (sectors b) as [|sec l IH]; [done|].
  simpl length. cbn [foldr]. rewrite IH by (intros; apply Hsz; by right).
  rewrite (Hsz sec) by (by left). lia.
Qed.

(** What a successful probe leaves behind. *)
Lemma probe_ok (s s' : state T) :
  nrf52_probe s = Done ERROR_OK s' →
  probed_layout (bank s') (code_page_size (chip s')) ∧
  base (bank s') = base (bank s) ∧
  0 ≤ code_page_size (chip s') ∧
  0 ≤ num_sectors (bank s') * code_page_size (chip s') ≤ bank_size (bank s') ∧
  bank_size (bank s') < 2 ^ 32 ∧
  (base (bank s') = NRF52_FLASH_BASE_ADDR →
     code_page_size (chip s') ≠ 0 ∧
     num_sectors (bank s') = bank_size (bank s') / code_page_size (chip s')) ∧
  (base (bank s') ≠ NRF52_FLASH_BASE_ADDR →
     num_sectors (bank s') = 1 ∧ bank_size (bank s') = code_page_size (chip s')).
Proof.
  unfold nrf52_probe. unfold bind at 1, read_u32.
  destruct (target_read_u32 _ _) as [[r1 v1] t1]. cbn [fst snd].
  unfold bind at 1, get_chip. unfold bind at 1, put_chip.
  destruct (r1 =? ERROR_OK) eqn:Hr1; cbn [negb].
  2:{ intros [= -> _]. by rewrite eqb_ok_refl in Hr1. }
  unfold bind at 1, read_u32. cbn [target call chip bank trace].
  destruct (target_read_u32 _ _) as [[r2 v2] t2]. cbn [fst snd].
  unfold bind at 1, get_chip. unfold bind at 1, put_chip.
  destruct (r2 =? ERROR_OK) eqn:Hr2; cbn [negb].
  2:{ intros [= -> _]. by rewrite eqb_ok_refl in Hr2. }
  unfold bind at 1, get_chip. unfold bind at 1, put_chip.
  unfold bind at 1, get_bank.
  cbn [target call chip bank trace set_code_page_size set_code_memory_size
       code_page_size code_memory_size].
  set (ps := wrap32 v1). set (sz := wrap32 (wrap32 v2 * ps)).
  assert (0 ≤ ps < 2 ^ 32) as Hps by (apply Z.mod_pos_bound; lia).
  assert (0 ≤ sz < 2 ^ 32) as Hsz by (apply Z.mod_pos_bound; lia).
  destruct (base (bank s) =? NRF52_FLASH_BASE_ADDR) eqn:Hbase.
  - destruct (ps =? 0) eqn:Hz; [done|]. apply Z.eqb_neq in Hz.
    unfold bind at 1, alloc_sectors. cbn [target].
    assert (0 ≤ sz / ps) as Hq by (apply Z.div_pos; lia).
    assert (sz / ps * ps ≤ sz) as Hqs.
    { pose proof (Z.mul_div_le sz ps). lia. }
    unfold to_int. destruct (sz / ps <? 2 ^ 31) eqn:Hint.
    2:{ apply Z.ltb_ge in Hint.
        assert ((sz / ps - 2 ^ 32 <? 0) = true) as -> by (apply Z.ltb_lt; lia).
        unfold bind at 1, put_bank. cbn [negb].
        intros [= Hbad _]. by destruct ERROR_FLASH_BANK_NOT_PROBED_not_ok. }
    apply Z.ltb_lt in Hint.
    assert ((sz / ps <? 0) = false) as -> by (apply Z.ltb_ge; lia).
    destruct (calloc _ _) as [ok t3].
    unfold bind at 1, put_bank. destruct ok; cbn [negb].
    2:{ intros [= Hbad _]. by destruct ERROR_FLASH_BANK_NOT_PROBED_not_ok. }
    unfold bind at 1, put_bank. unfold bind at 1, nrf52_protect_check, ret.
    unfold bind at 1, put_chip. intros [= <-].
    unfold probed_layout. simpl.
    apply Z.eqb_eq in Hbase.
    split; [|repeat split; try done; try lia].
    split.
    + rewrite probe_fill_length, length_replicate. lia.
    + intros i sec. rewrite probe_fill_lookup by (by rewrite length_replicate).
      case_decide as Hi.
      * intros [= <-]. cbn. split; [|done].
        apply wrap32_small.
        assert (Z.of_nat i + 1 ≤ sz / ps) by lia.
        assert ((Z.of_nat i + 1) * ps ≤ sz / ps * ps)
          by (apply Z.mul_le_mono_nonneg_r; lia).
        lia.
      * intros Hl%lookup_lt_Some. rewrite length_replicate in Hl. lia.
  - apply Z.eqb_neq in Hbase.
    unfold bind at 1, alloc_sectors. cbn [target]. change (1 <? 0) with false.
    cbv iota. destruct (calloc _ _) as [ok t3].
    unfold bind at 1, put_bank. destruct ok; cbn [negb].
    2:{ intros [= Hbad _]. by destruct ERROR_FLASH_BANK_NOT_PROBED_not_ok. }
    unfold bind at 1, put_bank. unfold bind at 1, put_chip. intros [= <-].
    unfold probed_layout. simpl.
    split; [|repeat split; try done; try lia].
    split; [done|].
    intros [|i] sec; [|done]. intros [= <-]. cbn. repeat split; lia.
Qed.

Lemma probed_layout_present b ps : probed_layout b ps → sectors_missing b = false.
Proof. intros [Hn _]. unfold sectors_missing. rewrite Hn. apply Z.ltb_irrefl. Qed.

Lemma find_sector_layout b c a :
  probed_layout b (code_page_size c) → 0 ≤ code_page_size c →
  num_sectors b * code_page_size c < 2 ^ 32 → 0 ≤ a →
  is_Some (nrf52_find_sector_by_address b c a) ↔
  a < num_sectors b * code_page_size c.
Proof.
  intros [Hn Hl] Hps Hlt Ha. split.
  - intros [i Hf]. apply find_sector_Some in Hf as (sec & Hi & Ho & Hc).
    pose proof (lookup_lt_Some _ _ _ Hi) as Hlen.
    apply Hl in Hi as (Hoff & _). rewrite Hoff in Hc.
    assert ((Z.of_nat i + 1) * code_page_size c ≤ num_sectors b * code_page_size c)
      by (apply Z.mul_le_mono_nonneg_r; lia).
    rewrite wrap32_small in Hc by lia. lia.
  - intros Hlt'.
    assert (0 < code_page_size c) as Hpos by nia.
    assert (a / code_page_size c < num_sectors b) as Hq
      by (apply Z.div_lt_upper_bound; lia).
    assert (0 ≤ a / code_page_size c) as Hq0 by (apply Z.div_pos; lia).
    destruct (lookup_lt_is_Some_2 (sectors b) (Z.to_nat (a / code_page_size c)))
      as [sec Hi]; [lia|].
    unfold nrf52_find_sector_by_address. rewrite take_ge by lia.
    apply fmap_is_Some. apply (list_find_elem_of _ _ sec).
    + apply list_elem_of_lookup. eauto.
    + apply Hl in Hi as (Hoff & _). unfold sector_contains. rewrite Hoff.
      rewrite Z2Nat.id by done.
      pose proof (Z.mul_div_le a (code_page_size c) Hpos).
      pose proof (Z.mul_succ_div_gt a (code_page_size c) Hpos).
      assert ((a / code_page_size c + 1) * code_page_size c
              ≤ num_sectors b * code_page_size c)
        by (apply Z.mul_le_mono_nonneg_r; lia).
      rewrite wrap32_small by lia. lia.
Qed.

Lemma probe_extent (s s' : state T) :
  nrf52_probe s = Done ERROR_OK s' →
  sectors_extent (bank s') =
    bank_size (bank s') - bank_size (bank s') mod code_page_size (chip s').
Proof.
  intros (Hlay & _ & Hps & Hext & Hsz & Hcode & Huicr)%probe_ok.
  rewrite (sectors_extent_layout _ _ Hlay).
  destruct (decide (base (bank s') = NRF52_FLASH_BASE_ADDR)) as [Hb|Hb].
  - destruct (Hcode Hb) as [Hnz ->]. rewrite Z.mod_eq by done. lia.
  - destruct (Huicr Hb) as [-> ->].
    destruct (decide (code_page_size (chip s') = 0)) as [->|Hnz]; [done|].
    rewrite Z.mod_same by done. lia.
Qed.

Lemma fmap_triggers reg (l : list Z) :
  omap (effect_trigger reg) (RegWrite reg <$> l) = l.
Proof.
  induction l as [|v l IH]; [done|].
  rewrite fmap_cons. cbn [omap list_omap effect_trigger].
  rewrite Z.eqb_refl. by rewrite IH.
Qed.

Lemma fmap_triggers_no_reads reg (l : list Z) :
  omap effect_read (RegWrite reg <$> l) = [].
Proof. by induction l. Qed.

Lemma fmap_triggers_no_data reg (l : list Z) :
  mbind effect_data (RegWrite reg <$> l) = [].
Proof. by induction l. Qed.

(** The sizes a successful probe leaves are those of the two identity
    registers: the page size is the first, the declared size of the code
    region is the 32-bit product of the two, and that of the configuration
    region is the page size. *)
Lemma probe_registers (s s' : state T) :
  nrf52_probe s = Done ERROR_OK s' →
  ∃ v1 t1 v2 t2,
    target_read_u32 NRF52_FICR_CODEPAGESIZE_ADDR (target s) = (ERROR_OK, v1, t1) ∧
    target_read_u32 NRF52_FICR_CODESIZE_ADDR t1 = (ERROR_OK, v2, t2) ∧
    code_page_size (chip s') = wrap32 v1 ∧
    (base (bank s') = NRF52_FLASH_BASE_ADDR →
       bank_size (bank s') = wrap32 (wrap32 v2 * wrap32 v1)) ∧
    (base (bank s') ≠ NRF52_FLASH_BASE_ADDR → bank_size (bank s') = wrap32 v1).
Proof.
  unfold nrf52_probe. unfold bind at 1, read_u32.
  destruct (target_read_u32 _ _) as [[r1 v1] t1]. cbn [fst snd].
  unfold bind at 1, get_chip. unfold bind at 1, put_chip.
  destruct (r1 =? ERROR_OK) eqn:Hr1; cbn [negb].
  2:{ intros [= -> _]. by rewrite eqb_ok_refl in Hr1. }
  apply Z.eqb_eq in Hr1. subst r1.
  unfold bind at 1, read_u32. cbn [target call chip bank trace].
  destruct (target_read_u32 _ _) as [[r2 v2] t2] eqn:Hread2. cbn [fst snd].
  unfold bind at 1, get_chip. unfold bind at 1, put_chip.
  destruct (r2 =? ERROR_OK) eqn:Hr2; cbn [negb].
  2:{ intros [= -> _]. by rewrite eqb_ok_refl in Hr2. }
  apply Z.eqb_eq in Hr2. subst r2.
  unfold bind at 1, get_chip. unfold bind at 1, put_chip.
  unfold bind at 1, get_bank.
  cbn [target call chip bank trace set_code_page_size set_code_memory_size
       code_page_size code_memory_size].
  intros Hrun. exists v1, t1, v2, t2. split; [done|]. split; [done|].
  revert Hrun.
  destruct (base (bank s) =? NRF52_FLASH_BASE_ADDR) eqn:Hbase.
  - destruct (wrap32 v1 =? 0); [done|].
    unfold bind at 1, alloc_sectors. cbn [target].
    destruct (_ <? 0).
    { unfold bind at 1, put_bank. cbn [negb].
      intros [= Hbad _]. by destruct ERROR_FLASH_BANK_NOT_PROBED_not_ok. }
    destruct (calloc _ _) as [ok t3].
    unfold bind at 1, put_bank. destruct ok; cbn [negb].
    2:{ intros [= Hbad _]. by destruct ERROR_FLASH_BANK_NOT_PROBED_not_ok. }
    unfold bind at 1, put_bank. unfold bind at 1, nrf52_protect_check, ret.
    unfold bind at 1, put_chip. intros [= <-]. simpl.
    apply Z.eqb_eq in Hbase. done.
  - apply Z.eqb_neq in Hbase.
    unfold bind at 1, alloc_sectors. cbn [target]. change (1 <? 0) with false.
    cbv iota. destruct (calloc _ _) as [ok t3].
    unfold bind at 1, put_bank. destruct ok; cbn [negb].
    2:{ intros [= Hbad _]. by destruct ERROR_FLASH_BANK_NOT_PROBED_not_ok. }
    unfold bind at 1, put_bank. unfold bind at 1, put_chip. intros [= <-]. simpl.
    done.
Qed.

(** Where the sectors add up to the declared size: in the configuration
    region always, in the code region when the product of the two
    identity registers fits 32 bits. *)
Lemma probe_exact (s s' : state T) :
  nrf52_probe s = Done ERROR_OK s' →
  ∃ v1 t1 v2 t2,
    target_read_u32 NRF52_FICR_CODEPAGESIZE_ADDR (target s) = (ERROR_OK, v1, t1) ∧
    target_read_u32 NRF52_FICR_CODESIZE_ADDR t1 = (ERROR_OK, v2, t2) ∧
    code_page_size (chip s') = wrap32 v1 ∧
    (base (bank s') = NRF52_FLASH_BASE_ADDR →
       bank_size (bank s') = wrap32 (wrap32 v2 * wrap32 v1) ∧
       (wrap32 v2 * wrap32 v1 < 2 ^ 32 →
          bank_size (bank s') = wrap32 v2 * wrap32 v1 ∧
          num_sectors (bank s') = wrap32 v2 ∧
          sectors_extent (bank s') = bank_size (bank s'))) ∧
    (base (bank s') ≠ NRF52_FLASH_BASE_ADDR →
       bank_size (bank s') = wrap32 v1 ∧
       sectors_extent (bank s') = bank_size (bank s')).
Proof.
  intros Hprobe.
  destruct (probe_registers _ _ Hprobe) as (v1 & t1 & v2 & t2 & H1 & H2 & Hps & Hcode & Huicr).
  apply probe_ok in Hprobe as (Hlay & _ & Hps0 & Hext & Hsz & Hcode' & Huicr').
  exists v1, t1, v2, t2. split; [done|]. split; [done|]. split; [done|].
  pose proof (sectors_extent_layout _ _ Hlay) as He.
  assert (0 ≤ wrap32 v2 < 2 ^ 32) as Hv2 by (apply Z.mod_pos_bound; lia).
  split.
  - intros Hb. destruct (Hcode' Hb) as [Hnz Hn]. specialize (Hcode Hb).
    split; [done|]. intros Hfit.
    assert (0 ≤ wrap32 v2 * wrap32 v1) as Hpos
      by (apply Z.mul_nonneg_nonneg; lia).
    rewrite wrap32_small in Hcode by lia.
    assert (num_sectors (bank s') = wrap32 v2) as Hnum.
    { rewrite Hn, Hcode, Hps. apply Z.div_mul. by rewrite <- Hps. }
    split; [done|]. split; [done|]. rewrite He, Hnum, Hcode, Hps. done.
  - intros Hb. destruct (Huicr' Hb) as [Hn Hbs]. split; [by apply Huicr|].
    rewrite He, Hn, Hbs. lia.
Qed.

(** C8, as amended.  After a successful probe the sector array has
    [num_sectors] entries; sector [i] starts at [i] times the page size,
    is one page long, and has its erase status and its protection status
    unknown; the sector count is the region size divided by the page size
    for the code region and one for the configuration region.  The page
    size is the value of the page-size register; the declared size of the
    configuration region is the page size, and that of the code region is
    the 32-bit product of the page-count register and the page-size
    register.  The sectors together cover exactly the declared size in
    the configuration region, and in the code region whenever that
    product fits 32 bits, the sector count then being the page count;
    in every case they cover the declared size rounded down to a whole
    number of pages, hence exactly the declared size whenever the page
    size divides it. *)
Theorem probe_sector_layout (s s' : state T) :
  nrf52_probe s = Done ERROR_OK s' →
  num_sectors (bank s') = Z.of_nat (length (sectors (bank s'))) ∧
  (∀ (i : nat) sec, sectors (bank s') !! i = Some sec →
     offset sec = Z.of_nat i * code_page_size (chip s') ∧
     size sec = code_page_size (chip s') ∧
     is_erased sec = -1 ∧ is_protected sec = -1) ∧
  (base (bank s') = NRF52_FLASH_BASE_ADDR →
     num_sectors (bank s') = bank_size (bank s') / code_page_size (chip s')) ∧
  (base (bank s') ≠ NRF52_FLASH_BASE_ADDR → num_sectors (bank s') = 1) ∧
  sectors_extent (bank s') =
    bank_size (bank s') - bank_size (bank s') mod code_page_size (chip s') ∧
  (bank_size (bank s') mod code_page_size (chip s') = 0 →
     sectors_extent (bank s') = bank_size (bank s')) ∧
  (∃ v1 t1 v2 t2,
     target_read_u32 NRF52_FICR_CODEPAGESIZE_ADDR (target s) = (ERROR_OK, v1, t1) ∧
     target_read_u32 NRF52_FICR_CODESIZE_ADDR t1 = (ERROR_OK, v2, t2) ∧
     code_page_size (chip s') = wrap32 v1 ∧
     (base (bank s') = NRF52_FLASH_BASE_ADDR →
        bank_size (bank s') = wrap32 (wrap32 v2 * wrap32 v1) ∧
        (wrap32 v2 * wrap32 v1 < 2 ^ 32 →
           bank_size (bank s') = wrap32 v2 * wrap32 v1 ∧
           num_sectors (bank s') = wrap32 v2 ∧
           sectors_extent (bank s') = bank_size (bank s'))) ∧
     (base (bank s') ≠ NRF52_FLASH_BASE_ADDR →
        bank_size (bank s') = wrap32 v1 ∧
        sectors_extent (bank s') = bank_size (bank s'))).
Proof.
  intros Hprobe. pose proof (probe_extent _ _ Hprobe) as He.
  pose proof (probe_exact _ _ Hprobe) as Hexact.
  apply probe_ok in Hprobe as ([Hn Hl] & _ & Hps & Hext & Hsz & Hcode & Huicr).
  split; [done|]. split; [done|]. split; [by intros (_ & ?)%Hcode|].
  split; [by intros (? & _)%Huicr|]. split; [done|].
  split; [|exact Hexact].
  intros Hdiv. rewrite He, Hdiv. lia.
Qed.

(** The sector offsets a probe lays out are not negative. *)
Lemma probed_layout_typed b page_size :
  probed_layout b page_size → 0 ≤ page_size → bank_typed b.
Proof.
  intros [_ Hl] Hp. apply list.Forall_forall. intros sec [i Hi]%list_elem_of_lookup.
  apply Hl in Hi as (-> & _). apply Z.mul_nonneg_nonneg; lia.
Qed.

Lemma marks_erased_present b b' :
  marks_erased b b' → sectors_missing b' = sectors_missing b.
Proof.
  intros (_ & _ & Hn & _ & Hall). unfold sectors_missing.
  by rewrite Hn, (Forall2_length Hall).
Qed.

(** The erase loop gives the same result with any number of steps that
    is enough for it. *)
Lemma write_pages_erase_fuel fuel fuel' (s s1 : state T) o e x :
  nrf52_write_pages_erase fuel o e s = Done x s1 →
  within_fuel (nrf52_write_pages_erase fuel' o e s) →
  nrf52_write_pages_erase fuel' o e s = Done x s1.
Proof.
  revert fuel' s o. induction fuel as [|fuel IH]; intros fuel' s o; [done|].
  destruct fuel' as [|fuel']; [done|].
  cbn [nrf52_write_pages_erase]. destruct (o <? e); [|done].
  unfold bind, get_bank, get_chip.
  destruct (nrf52_find_sector_by_address _ _ _) as [i|]; [|done].
  destruct (sector i s) as [sec s0|]; [|done].
  destruct (is_protected sec =? 1); [done|].
  destruct ((if negb (is_erased sec =? 1) then nrf52_erase_page i else ret ERROR_OK) s0)
    as [r s2|]; [|done].
  destruct (negb (r =? ERROR_OK)); [done|].
  destruct (mark_erased i 1 s2) as [[] s3|]; [|done]. apply IH.
Qed.

(** One turn of the erase loop that goes on to the next page: the state
    in which the next turn starts is the same whatever follows. *)
Lemma erase_if_stale_then (s s1 : state T) i sec (k : M T loop_exit) :
  sectors (bank s) !! i = Some sec →
  (res <- (if negb (is_erased sec =? 1) then nrf52_erase_page i else ret ERROR_OK) ;;
   if negb (res =? ERROR_OK) then ret (Returned res) else
   mark_erased i 1 ;; k) s = Done Completed s1 →
  ∃ s_mid, k s_mid = Done Completed s1 ∧ chip s_mid = chip s ∧
    ∀ k' : M T loop_exit,
      (res <- (if negb (is_erased sec =? 1) then nrf52_erase_page i else ret ERROR_OK) ;;
       if negb (res =? ERROR_OK) then ret (Returned res) else
       mark_erased i 1 ;; k') s = k' s_mid.
Proof.
  intros Hi. unfold bind at 1. destruct (is_erased sec =? 1); cbn [negb].
  - unfold ret at 1. rewrite eqb_ok_refl. cbn [negb].
    unfold bind. rewrite (mark_erased_done s i sec Hi).
    intros Hk. eexists. split; [exact Hk|]. split; [done|].
    intros k'. unfold ret. rewrite eqb_ok_refl. cbn [negb].
    by rewrite (mark_erased_done s i sec Hi).
  - destruct (nrf52_erase_page i s) as [res s2|] eqn:He; [|done].
    destruct (res =? ERROR_OK) eqn:Hres; cbn [negb]; [|done].
    apply Z.eqb_eq in Hres. subst res.
    apply erase_page_ok in He as He'. destruct He' as (sec' & Hi' & Hc & Hb & _).
    assert (sec' = sec) as -> by congruence.
    assert (sectors (bank s2) !! i = Some (set_is_erased 1 sec)) as Hi2
      by (rewrite Hb; by apply bank_erased_lookup).
    unfold bind. rewrite (mark_erased_done s2 i _ Hi2).
    intros Hk. eexists. split; [exact Hk|]. split; [done|].
    intros k'. rewrite He, eqb_ok_refl. cbn [negb].
    by rewrite (mark_erased_done s2 i _ Hi2).
Qed.

(** When the erase loop gets through the pages before [mid] and no sector
    is found for the page at [mid], the loop over a range that goes beyond
    [mid] returns the invalid-sector code there. *)
Lemma write_pages_erase_not_found fuel (s s1 : state T) o mid e :
  0 < code_page_size (chip s) → 0 ≤ o ≤ mid →
  o mod code_page_size (chip s) = 0 → mid mod code_page_size (chip s) = 0 →
  mid < 2 ^ 32 → mid < e →
  nrf52_write_pages_erase fuel o mid s = Done Completed s1 →
  nrf52_find_sector_by_address (bank s1) (chip s1) mid = None →
  sectors_missing (bank s1) = false →
  nrf52_write_pages_erase fuel o e s = Done (Returned ERROR_FLASH_SECTOR_INVALID) s1.
Proof.
  revert s o. induction fuel as [|fuel IH]; intros s o Hp Ho Hom Hmm Hlt Hme; [done|].
  cbn [nrf52_write_pages_erase]. destruct (o <? mid) eqn:Hlo.
  - apply Z.ltb_lt in Hlo.
    assert ((o <? e) = true) as -> by (apply Z.ltb_lt; lia).
    pose proof (aligned_step o mid _ Hp Hom Hmm Hlo) as Hstep.
    intros Hrun Hnone Hpresent.
    unfold bind at 1, get_bank in Hrun. unfold bind at 1, get_chip in Hrun.
    unfold bind at 1, get_bank. unfold bind at 1, get_chip.
    revert Hrun.
    destruct (nrf52_find_sector_by_address (bank s) (chip s) o) as [i|] eqn:Hf;
      [|by destruct (sectors_missing (bank s))].
    destruct (find_sector_Some _ _ _ _ Hf) as (sec & Hi & _).
    intros Hrun. unfold bind at 1, sector in Hrun. unfold bind at 1, sector.
    rewrite Hi in Hrun |- *. revert Hrun.
    destruct (is_protected sec =? 1); [done|].
    intros Hrun.
    apply (erase_if_stale_then _ _ _ _ _ Hi) in Hrun as (s_mid & Hk & Hc & Hany).
    rewrite Hany. rewrite wrap32_small in Hk |- * by lia.
    apply IH; try done; rewrite ?Hc; try lia.
    by apply aligned_next.
  - apply Z.ltb_ge in Hlo. assert (o = mid) as -> by lia.
    intros [= <-] Hnone Hpresent.
    assert ((mid <? e) = true) as -> by (apply Z.ltb_lt; lia).
    unfold bind at 1, get_bank. unfold bind at 1, get_chip.
    by rewrite Hnone, Hpresent.
Qed.

(** Where the sector array holds fewer than [num_sectors] entries and no
    entry it holds contains the page, the search of the erase loop leaves
    the array, and the page writer stops there. *)
Lemma write_pages_array_missing (s : state T) start end_ buffer :
  code_page_size (chip s) ≠ 0 →
  start mod code_page_size (chip s) = 0 → end_ mod code_page_size (chip s) = 0 →
  start < end_ →
  nrf52_find_sector_by_address (bank s) (chip s) start = None →
  sectors_missing (bank s) = true →
  nrf52_write_pages start end_ buffer s = Fault UndefinedBehaviour s.
Proof.
  intros Hnz%Z.eqb_neq Hsm%Z.eqb_eq Hem%Z.eqb_eq Hlt%Z.ltb_lt Hnone Hmiss.
  unfold nrf52_write_pages, bind at 1, get_chip. rewrite Hnz.
  unfold bind at 1, ret. rewrite Hsm, Hem.
  unfold assert, bind at 1, ret. unfold bind at 1. unfold bind at 1.
  cbn [nrf52_write_pages_erase]. rewrite Hlt.
  unfold bind at 1, get_bank. unfold bind at 1, get_chip.
  by rewrite Hnone, Hmiss.
Qed.

(** C7, as amended.  After a successful probe, and for every 32-bit
    address, a sector is found if and only if the address, taken as an
    offset from the start of the region, is below the extent of the
    sectors, which is the declared size of the region rounded down to a
    whole number of pages.  In the code region, whose base is 0, and when
    the product of the two identity registers fits 32 bits, that is: if
    and only if the address lies in [base, base + size); in the
    configuration region: if and only if the offset is below the size.
    In the code region no sector is found for an address at or beyond
    base + size, whatever the registers hold.
    When the erase loop of the page writer comes to a page for which no
    sector is found, having got through the pages before it, the page
    writer returns the invalid-sector code at that point: the pages
    before it have been dealt with and nothing has been written. *)
Theorem find_sector_iff_offset_within_extent (s s' : state T) (address : Z) :
  nrf52_probe s = Done ERROR_OK s' → uint32 address →
  (is_Some (nrf52_find_sector_by_address (bank s') (chip s') address) ↔
   address < sectors_extent (bank s')) ∧
  sectors_extent (bank s') =
    bank_size (bank s') - bank_size (bank s') mod code_page_size (chip s') ∧
  (∃ v1 t1 v2 t2,
     target_read_u32 NRF52_FICR_CODEPAGESIZE_ADDR (target s) = (ERROR_OK, v1, t1) ∧
     target_read_u32 NRF52_FICR_CODESIZE_ADDR t1 = (ERROR_OK, v2, t2) ∧
     (base (bank s') = NRF52_FLASH_BASE_ADDR → wrap32 v2 * wrap32 v1 < 2 ^ 32 →
      (is_Some (nrf52_find_sector_by_address (bank s') (chip s') address) ↔
       base (bank s') ≤ address < base (bank s') + bank_size (bank s')))) ∧
  (base (bank s') ≠ NRF52_FLASH_BASE_ADDR →
   (is_Some (nrf52_find_sector_by_address (bank s') (chip s') address) ↔
    address < bank_size (bank s'))) ∧
  (base (bank s') = NRF52_FLASH_BASE_ADDR →
   base (bank s') + bank_size (bank s') ≤ address →
   nrf52_find_sector_by_address (bank s') (chip s') address = None) ∧
  (nrf52_find_sector_by_address (bank s') (chip s') address = None →
   ∀ end_ buffer,
     address < end_ → code_page_size (chip s') ≠ 0 →
     address mod code_page_size (chip s') = 0 →
     end_ mod code_page_size (chip s') = 0 →
     nrf52_write_pages address end_ buffer s' =
       Done ERROR_FLASH_SECTOR_INVALID s') ∧
  (nrf52_find_sector_by_address (bank s') (chip s') address = None →
   ∀ fuel start end_ buffer s1,
     uint32 end_ → 0 ≤ start ≤ address → address < end_ →
     code_page_size (chip s') ≠ 0 →
     start mod code_page_size (chip s') = 0 →
     address mod code_page_size (chip s') = 0 →
     end_ mod code_page_size (chip s') = 0 →
     nrf52_write_pages_erase fuel start address s' = Done Completed s1 →
     nrf52_write_pages start end_ buffer s' =
       Done ERROR_FLASH_SECTOR_INVALID s1 ∧
     erase_triggers (erase_register (bank s')) (trace s1) =
       erase_triggers (erase_register (bank s')) (trace s') ++
       due_erases (bank s') (chip s')
         (page_offsets start address (code_page_size (chip s'))) ∧
     flash_data (trace s1) = flash_data (trace s')).
Proof.
  intros Hprobe [Ha0 Ha1].
  pose proof (probe_extent _ _ Hprobe) as Hext.
  pose proof (probe_exact _ _ Hprobe) as Hexact.
  apply probe_ok in Hprobe as (Hlay & _ & Hps & Hn & Hsz & _).
  assert (is_Some (nrf52_find_sector_by_address (bank s') (chip s') address) ↔
          address < sectors_extent (bank s')) as Hiff.
  { rewrite (sectors_extent_layout _ _ Hlay).
    apply find_sector_layout; try done; lia. }
  split; [done|]. split; [done|]. split; [|split; [|split; [|split]]].
  - destruct Hexact as (v1 & t1 & v2 & t2 & H1 & H2 & _ & Hcode & _).
    exists v1, t1, v2, t2. split; [done|]. split; [done|].
    intros Hb Hfit. destruct (Hcode Hb) as (_ & Hx). destruct (Hx Hfit) as (_ & _ & <-).
    rewrite Hiff, Hb. unfold NRF52_FLASH_BASE_ADDR. lia.
  - intros Hb. destruct Hexact as (v1 & t1 & v2 & t2 & _ & _ & _ & _ & Huicr).
    destruct (Huicr Hb) as (_ & <-). done.
  - intros Hb Hout. rewrite Hb in Hout. unfold NRF52_FLASH_BASE_ADDR in Hout.
    apply eq_None_not_Some. rewrite Hiff, (sectors_extent_layout _ _ Hlay). lia.
  - intros Hnone end_ buffer Hlt Hnz Hsm Hem.
    unfold nrf52_write_pages, bind at 1, get_chip.
    apply Z.eqb_neq in Hnz. rewrite Hnz. unfold bind at 1, ret.
    apply Z.eqb_eq in Hsm, Hem. rewrite Hsm, Hem.
    unfold assert, bind at 1, ret. unfold bind at 1. unfold bind at 1.
    cbn [nrf52_write_pages_erase].
    apply Z.ltb_lt in Hlt. rewrite Hlt.
    unfold bind at 1, get_bank. unfold bind at 1, get_chip.
    by rewrite Hnone, (probed_layout_present _ _ Hlay).
  - intros Hnone fuel start end_ buffer s1 [He0 He1] Hs Hlt Hnz Hsm Ham Hem Hloop.
    assert (0 < code_page_size (chip s')) as Hp by lia.
    pose proof (probed_layout_typed _ _ Hlay Hps) as Ht.
    assert (nrf52_write_pages_erase
              (S (Z.to_nat ((address - start) / code_page_size (chip s'))))
              start address s' = Done Completed s1) as Hloop'.
    { apply (write_pages_erase_fuel fuel); [done|].
      apply write_pages_erase_within_fuel; try done; lia. }
    pose proof (write_pages_erase_completed _ _ _ _ _ Hp (proj1 Hs) Hsm Ham Ha1 Ht Hloop')
      as (Hc1 & Hm1 & Heff & _).
    rewrite loop_pages_offsets in Heff by (try done; lia).
    assert (nrf52_write_pages_erase
              (S (Z.to_nat (end_ / code_page_size (chip s')))) start end_ s' =
            Done (Returned ERROR_FLASH_SECTOR_INVALID) s1) as Hret.
    { apply (write_pages_erase_fuel fuel).
      - apply (write_pages_erase_not_found _ _ _ _ address); try done.
        + by rewrite Hc1, (find_sector_marks_erased _ _ _ _ Hm1).
        + by rewrite (marks_erased_present _ _ Hm1), (probed_layout_present _ _ Hlay).
      - apply write_pages_erase_within_fuel; try done; try lia.
        assert ((end_ - start) / code_page_size (chip s')
                ≤ end_ / code_page_size (chip s'))
          by (apply Z.div_le_mono; lia).
        assert (0 ≤ end_ / code_page_size (chip s')) by (apply Z.div_pos; lia).
        lia. }
    pose proof (config_is_no_erase_register (bank s')) as Hreg.
    split; [|split].
    + unfold nrf52_write_pages, bind at 1, get_chip.
      apply Z.eqb_neq in Hnz. rewrite Hnz. unfold bind at 1, ret.
      apply Z.eqb_eq in Hsm, Hem. rewrite Hsm, Hem.
      unfold assert, bind at 1, ret. unfold bind at 1. unfold bind at 1.
      by rewrite Hret.
    + rewrite !erase_triggers_effects, Heff, omap_app by done. f_equal.
      apply fmap_triggers.
    + rewrite !flash_data_effects, Heff, bind_app, fmap_triggers_no_data.
      by rewrite app_nil_r.
Qed.

(** ** The page writer, on success *)

(** A return from inside the erase loop carries an error. *)
Lemma write_pages_erase_returned fuel (s s1 : state T) o e res :
  nrf52_write_pages_erase fuel o e s = Done (Returned res) s1 → res ≠ ERROR_OK.
Proof.
  revert s o. induction fuel as [|fuel IH]; intros s o; [done|].
  simpl. destruct (o <? e); [|done].
  unfold bind at 1, get_bank. unfold bind at 1, get_chip.
  destruct (nrf52_find_sector_by_address _ _ _) as [i|].
  2:{ destruct (sectors_missing _); [done|].
      intros [= <- _]. apply ERROR_FLASH_SECTOR_INVALID_not_ok. }
  unfold bind at 1. destruct (sector i s) as [sec s0|]; [|done].
  destruct (is_protected sec =? 1).
  { intros [= <- _]. apply ERROR_FAIL_not_ok. }
  unfold bind at 1.
  destruct ((if negb (is_erased sec =? 1) then nrf52_erase_page i else ret ERROR_OK) s0)
    as [r s2|]; [|done].
  destruct (r =? ERROR_OK) eqn:Hr; cbn [negb].
  - unfold bind at 1. destruct (mark_erased i 1 s2) as [[] s3|]; [|done]. apply IH.
  - intros [= <- _]. by apply Z.eqb_neq.
Qed.

Lemma programs_only_data effs reg :
  Forall is_program effs →
  omap (effect_trigger reg) effs = [] ∧ omap effect_read effs = [].
Proof. intros H. split; [by apply programs_no_triggers|by apply programs_no_reads]. Qed.

Lemma ll_flash_write_misaligned (s : state T) offset buffer bytes :
  bytes mod 4 ≠ 0 →
  nrf52_ll_flash_write offset buffer bytes s = Fault AssertionFailed s.
Proof.
  intros Hm%Z.eqb_neq. unfold nrf52_ll_flash_write. by rewrite Hm.
Qed.

(** When the page writer reports success, it has issued the erase
    triggers due for the pages of the range, then submitted the whole
    buffer, and has left the controller in read-only mode. *)
Lemma write_pages_ok (s s' : state T) start end_ buffer :
  uint32 start → uint32 end_ → start ≤ end_ →
  uint32 (code_page_size (chip s)) → bank_typed (bank s) →
  Z.of_nat (length buffer) = end_ - start →
  nrf52_write_pages start end_ buffer s = Done ERROR_OK s' →
  ∃ effs,
    effects (trace s') = effects (trace s) ++
      (RegWrite (erase_register (bank s)) <$>
         due_erases (bank s) (chip s)
           (page_offsets start end_ (code_page_size (chip s)))) ++ effs ∧
    Forall is_program effs ∧ mbind effect_data effs = buffer ∧
    nvmc_config (trace s') = Some NRF52_NVMC_CONFIG_REN.
Proof.
  intros [Hs0 Hs1] [He0 He1] Hle [Hp0 Hp1] Ht Hlen.
  unfold nrf52_write_pages, bind at 1, get_chip.
  destruct (code_page_size (chip s) =? 0) eqn:Hz; [done|].
  apply Z.eqb_neq in Hz. unfold bind at 1, ret.
  destruct (start mod code_page_size (chip s) =? 0) eqn:Hsm; [|done].
  destruct (end_ mod code_page_size (chip s) =? 0) eqn:Hem; [|done].
  apply Z.eqb_eq in Hsm, Hem.
  unfold assert, bind at 1, ret. unfold bind at 1. unfold bind at 1.
  destruct (nrf52_write_pages_erase _ _ _ _) as [[|res] s1|] eqn:Hloop; [| |done].
  2:{ intros [= -> _]. by apply write_pages_erase_returned in Hloop. }
  assert (0 < code_page_size (chip s)) as Hp by lia.
  assert ((Z.to_nat ((end_ - start) / code_page_size (chip s))
           < S (Z.to_nat (end_ / code_page_size (chip s))))%nat) as Hfuel.
  { assert ((end_ - start) / code_page_size (chip s)
            ≤ end_ / code_page_size (chip s))
      by (apply Z.div_le_mono; lia).
    assert (0 ≤ end_ / code_page_size (chip s)) by (apply Z.div_pos; lia).
    lia. }
  pose proof (write_pages_erase_completed _ _ _ _ _ Hp Hs0 Hsm Hem He1 Ht Hloop)
    as (Hc1 & Hm1 & Heff & _).
  rewrite loop_pages_offsets in Heff by done.
  destruct (nvmc_write_enable_returns s1) as (r & s2 & Hwe & (Hc2 & Hb2 & He2) & _).
  unfold bind at 1. rewrite Hwe.
  destruct (r =? ERROR_OK) eqn:Hr; cbn [negb].
  2:{ intros [= -> _]. by rewrite eqb_ok_refl in Hr. }
  rewrite wrap32_small by lia.
  destruct (decide ((end_ - start) mod 4 = 0)) as [Hm4|Hm4].
  2:{ unfold bind at 1. by rewrite ll_flash_write_misaligned. }
  destruct (ll_flash_write_returns s2 start buffer (end_ - start))
    as (rw & s3 & effs & Hll & (Hc3 & Hb3 & _ & He3 & Hprog) & Hdata);
    [lia|done|].
  unfold bind at 1. rewrite Hll.
  destruct (rw =? ERROR_OK) eqn:Hrw; cbn [negb].
  2:{ unfold bind. destruct (nrf52_nvmc_read_only s3); [|done].
      intros [= -> _]. by rewrite eqb_ok_refl in Hrw. }
  apply Z.eqb_eq in Hrw.
  destruct (nvmc_read_only_returns s3) as (rr & s4 & -> & (Hc4 & Hb4 & He4) & Hmode & _).
  intros [= -> <-]. exists effs. split; [|split; [done|split; [auto|auto]]].
  rewrite He4, He3, He2, Heff. by rewrite <- app_assoc.
Qed.

(** ** The code region driver *)

Lemma blit_inside dst pos src n :
  0 ≤ pos → pos + n ≤ Z.of_nat (length dst) → Z.of_nat (length src) = n →
  blit dst pos src n =
    Some (take (Z.to_nat pos) dst ++ src ++ drop (Z.to_nat (pos + n)) dst).
Proof.
  intros Hp Hd Hs. unfold blit.
  assert ((pos + n <=? Z.of_nat (length dst)) = true) as -> by (apply Z.leb_le; lia).
  assert ((n <=? Z.of_nat (length src)) = true) as -> by (apply Z.leb_le; lia).
  simpl. by rewrite (take_ge src) by lia.
Qed.

(** The page bounds the driver computes for a request that stays below
    the end of the address space. *)
Lemma page_bounds offset count page_size :
  0 < page_size → 0 ≤ offset → 0 ≤ count → offset + count + page_size ≤ 2 ^ 32 →
  let first := offset / page_size * page_size in
  let last := (offset + count + page_size - 1) / page_size * page_size in
  0 ≤ first ≤ offset ∧ offset - first < page_size ∧
  offset + count ≤ last ∧ last < offset + count + page_size ∧
  0 ≤ offset / page_size ≤ (offset + count + page_size - 1) / page_size ∧
  (offset + count + page_size - 1) / page_size < 2 ^ 32.
Proof.
  intros Hp Ho Hc Hlt first last.
  pose proof (Z.mul_div_le offset page_size Hp) as H1.
  pose proof (Z.mul_succ_div_gt offset page_size Hp) as H2.
  pose proof (Z.mul_div_le (offset + count + page_size - 1) page_size Hp) as H3.
  pose proof (Z.mul_succ_div_gt (offset + count + page_size - 1) page_size Hp) as H4.
  assert (0 ≤ offset / page_size) as H5 by (apply Z.div_pos; lia).
  assert (offset / page_size ≤ (offset + count + page_size - 1) / page_size) as H6
    by (apply Z.div_le_mono; lia).
  assert ((offset + count + page_size - 1) / page_size
          ≤ offset + count + page_size - 1) as H7.
  { apply Z.div_le_upper_bound; [lia|]. nia. }
  subst first last. repeat split; lia.
Qed.

(** What a successful write to the code region has done: read the gap
    before the data and the gap after it where there is one, issued the
    erase triggers due for the pages touched, and submitted the gaps with
    the data in between. *)
Lemma code_flash_write_ok (s s' : state T) buffer offset count :
  0 < code_page_size (chip s) → 0 ≤ offset → 0 ≤ count →
  offset + count + code_page_size (chip s) < 2 ^ 32 →
  Z.of_nat (length buffer) = count → bank_typed (bank s) →
  nrf52_code_flash_write buffer offset count s = Done ERROR_OK s' →
  let page_size := code_page_size (chip s) in
  let first := offset / page_size * page_size in
  let last := (offset + count + page_size - 1) / page_size * page_size in
  let pre := offset - first in
  let post := last - (offset + count) in
  ∃ pre_data post_data effs,
    Z.of_nat (length pre_data) = pre ∧ Z.of_nat (length post_data) = post ∧
    effects (trace s') = effects (trace s) ++
      (if pre >? 0 then [MemRead first 1 pre] else []) ++
      (if post >? 0 then [MemRead (offset + count) 1 post] else []) ++
      (RegWrite (erase_register (bank s)) <$>
         due_erases (bank s) (chip s) (page_offsets first last page_size)) ++
      effs ∧
    Forall is_program effs ∧
    mbind effect_data effs = pre_data ++ buffer ++ post_data ∧
    nvmc_config (trace s') = Some NRF52_NVMC_CONFIG_REN.
Proof.
  intros Hp Ho Hc Hlt Hlen Ht Hrun page_size first last pre post.
  pose proof (page_bounds offset count page_size Hp Ho Hc ltac:(lia))
    as (Hf & Hpre & Hl0 & Hl1 & Hpages & Hlp).
  fold first last in Hf, Hpre, Hl0, Hl1.
  revert Hrun. unfold nrf52_code_flash_write, bind at 1, get_chip.
  fold page_size.
  assert ((page_size =? 0) = false) as -> by (apply Z.eqb_neq; lia).
  unfold bind at 1. unfold ret at 1.
  rewrite (wrap32_small (offset + count)) by lia.
  unfold DIV_ROUND_UP. rewrite (wrap32_small (offset + count + page_size - 1)) by lia.
  fold first last.
  rewrite (wrap32_small first), (wrap32_small last) by lia.
  rewrite (wrap32_small (_ - _ / _)) by lia.
  replace ((offset + count + page_size - 1) / page_size - offset / page_size)
    with ((last - first) / page_size).
  2:{ subst first last. rewrite <- Z.mul_sub_distr_r, Z.div_mul by lia. done. }
  replace ((last - first) / page_size * page_size) with (last - first).
  2:{ subst first last. rewrite <- Z.mul_sub_distr_r, Z.div_mul by lia. done. }
  rewrite (wrap32_small (last - first)) by lia.
  fold pre. rewrite (wrap32_small pre) by (subst pre; lia).
  fold post. rewrite (wrap32_small post) by (subst post; lia).
  set (b0 := replicate (Z.to_nat (last - first)) 0).
  assert (Z.of_nat (length b0) = pre + count + post) as Hb0.
  { subst b0 pre post. rewrite length_replicate. lia. }
  (* the gap before the data *)
  unfold bind at 1.
  assert (∃ (s1 : state T) pre_data r1,
    (if pre >? 0
     then r <- read_memory first 1 pre;;
          match blit b0 0 r.2 pre with
          | Some a => ret (r.1, a)
          | None => fail UndefinedBehaviour
          end
     else ret (ERROR_OK, b0)) s =
      Done (r1, pre_data ++ drop (Z.to_nat pre) b0) s1 ∧
    Z.of_nat (length pre_data) = pre ∧
    chip s1 = chip s ∧ bank s1 = bank s ∧
    effects (trace s1) = effects (trace s) ++
      (if pre >? 0 then [MemRead first 1 pre] else []))
    as (s1 & pre_data & r1 & -> & Hpd & Hc1 & Hb1 & He1).
  { destruct (pre >? 0) eqn:Hpos.
    - unfold bind, read_memory.
      destruct (target_read_memory _ _ _ _) as [[r d] t']. cbn [fst snd].
      rewrite blit_inside; [|lia|lia|rewrite length_resize; lia].
      eexists _, _, _. split; [reflexivity|].
      rewrite length_resize. repeat split. lia.
    - exists s, [], ERROR_OK. rewrite Z.gtb_ltb in Hpos. apply Z.ltb_ge in Hpos.
      assert (pre = 0) as Hz by (subst pre; lia). rewrite Hz.
      split; [done|]. by rewrite app_nil_r. }
  cbn [fst snd].
  destruct (r1 =? ERROR_OK) eqn:Hr1; cbn [negb].
  2:{ intros [= Hbad _]. rewrite Hbad in Hr1. by rewrite eqb_ok_refl in Hr1. }
  rewrite blit_inside; [| lia | rewrite length_app, length_drop; lia | done].
  rewrite take_app_length' by lia.
  rewrite drop_app_ge, drop_drop by lia.
  (* the gap after the data *)
  set (tail := drop _ b0).
  assert (Z.of_nat (length tail) = post) as Htail.
  { subst tail. rewrite length_drop. lia. }
  unfold bind at 1.
  assert (∃ (s2 : state T) post_data r2,
    (if post >? 0
     then r <- read_memory (offset + count) 1 post;;
          match blit (pre_data ++ buffer ++ tail) (pre + count) r.2 post with
          | Some a => ret (r.1, a)
          | None => fail UndefinedBehaviour
          end
     else ret (ERROR_OK, pre_data ++ buffer ++ tail)) s1 =
      Done (r2, pre_data ++ buffer ++ post_data) s2 ∧
    Z.of_nat (length post_data) = post ∧
    chip s2 = chip s1 ∧ bank s2 = bank s1 ∧
    effects (trace s2) = effects (trace s1) ++
      (if post >? 0 then [MemRead (offset + count) 1 post] else []))
    as (s2 & post_data & r2 & -> & Hqd & Hc2 & Hb2 & He2).
  { destruct (post >? 0) eqn:Hpos.
    - unfold bind, read_memory.
      destruct (target_read_memory (offset + count) 1 post (target s1))
        as [[r d] t']. cbn [fst snd].
      rewrite blit_inside;
        [|lia|rewrite !length_app; lia|rewrite length_resize; lia].
      eexists _, _, _. split.
      + rewrite (app_assoc pre_data buffer tail).
        rewrite take_app_length' by (rewrite length_app; lia).
        rewrite drop_ge by (rewrite !length_app; lia).
        rewrite app_nil_r, <- app_assoc. reflexivity.
      + rewrite length_resize. repeat split. lia.
    - exists s1, [], ERROR_OK. rewrite Z.gtb_ltb in Hpos. apply Z.ltb_ge in Hpos.
      assert (length tail = 0%nat) as ->%nil_length_inv by lia.
      split; [done|]. split; [simpl; lia|]. by rewrite app_nil_r. }
  cbn [fst snd].
  destruct (r2 =? ERROR_OK) eqn:Hr2; cbn [negb].
  2:{ intros [= Hbad _]. rewrite Hbad in Hr2. by rewrite eqb_ok_refl in Hr2. }
  intros Hwp. apply write_pages_ok in Hwp as (effs & Heff & Hprog & Hdata & Hmode).
  - exists pre_data, post_data, effs. split; [done|]. split; [done|].
    split; [|done].
    rewrite Heff, He2, He1, Hc2, Hc1, Hb2, Hb1. fold page_size.
    by rewrite <- !app_assoc.
  - unfold uint32. lia.
  - unfold uint32. lia.
  - lia.
  - rewrite Hc2, Hc1. fold page_size. unfold uint32. lia.
  - by rewrite Hb2, Hb1.
  - rewrite !length_app. lia.
Qed.

(** C3, as amended.  With pages of 4096 bytes and a code region of two
    pages, freshly probed, a successful write of 10 bytes at offset 4090
    issues one erase trigger for page 0 and one for page 1, in that
    order; reads the 4090 bytes before the data from offset 0 and the 4092
    bytes after the data from offset 4100; submits 8192 bytes for
    programming, the data between the two gaps; and leaves the controller
    in read-only mode. *)
Theorem code_flash_write_across_two_pages (s s' : state T) (buffer : list Z) :
  code_page_size (chip s) = 4096 →
  base (bank s) = NRF52_FLASH_BASE_ADDR →
  num_sectors (bank s) = 2 →
  probed_layout (bank s) 4096 →
  Z.of_nat (length buffer) = 10 →
  nrf52_code_flash_write buffer 4090 10 s = Done ERROR_OK s' →
  erase_triggers NRF52_NVMC_ERASEPAGE_ADDR (trace s') =
    erase_triggers NRF52_NVMC_ERASEPAGE_ADDR (trace s) ++ [0; 4096] ∧
  memory_reads (trace s') =
    memory_reads (trace s) ++ [(0, 1, 4090); (4100, 1, 4092)] ∧
  (∃ pre_data post_data,
     Z.of_nat (length pre_data) = 4090 ∧ Z.of_nat (length post_data) = 4092 ∧
     flash_data (trace s') =
       flash_data (trace s) ++ pre_data ++ buffer ++ post_data) ∧
  Z.of_nat (length (flash_data (trace s'))) =
    Z.of_nat (length (flash_data (trace s))) + 8192 ∧
  nvmc_config (trace s') = Some NRF52_NVMC_CONFIG_REN.
Proof.
  intros Hps Hbase Hn [Hlen Hlay] Hbuf Hrun.
  rewrite Hn in Hlen.
  destruct (sectors (bank s)) as [|sec0 [|sec1 [|]]] eqn:Hsecs; try (simpl in Hlen; lia).
  destruct (Hlay 0%nat sec0 eq_refl) as (Ho0 & _ & He0 & _).
  destruct (Hlay 1%nat sec1 eq_refl) as (Ho1 & _ & He1 & _).
  change (Z.of_nat 0 * 4096) with 0 in Ho0. change (Z.of_nat 1 * 4096) with 4096 in Ho1.
  assert (bank_typed (bank s)) as Ht.
  { unfold bank_typed. rewrite Hsecs. repeat constructor; lia. }
  apply code_flash_write_ok in Hrun; [|rewrite ?Hps; try done; lia ..].
  rewrite Hps in Hrun. cbv zeta in Hrun.
  change (4090 / 4096 * 4096) with 0 in Hrun.
  change ((4090 + 10 + 4096 - 1) / 4096 * 4096) with 8192 in Hrun.
  change (4090 - 0) with 4090 in Hrun. change (8192 - (4090 + 10)) with 4092 in Hrun.
  change (4090 + 10) with 4100 in Hrun.
  change (4090 >? 0) with true in Hrun. change (4092 >? 0) with true in Hrun.
  cbv iota in Hrun.
  assert (erase_register (bank s) = NRF52_NVMC_ERASEPAGE_ADDR) as Hreg.
  { unfold erase_register. by rewrite Hbase. }
  assert (due_erases (bank s) (chip s) (page_offsets 0 8192 4096) = [0; 4096]) as Hdue.
  { change (page_offsets 0 8192 4096) with [0; 4096].
    unfold due_erases, page_sector, nrf52_find_sector_by_address.
    rewrite Hps, Hn, Hsecs. change (Z.to_nat 2) with 2%nat.
    cbn [take omap list_omap list_find].
    assert (sector_contains 4096 0 sec0) by (unfold sector_contains; rewrite Ho0; done).
    assert (¬ sector_contains 4096 4096 sec0)
      by (unfold sector_contains; rewrite Ho0; intros [_ ?]; done).
    assert (sector_contains 4096 4096 sec1)
      by (unfold sector_contains; rewrite Ho1; done).
    repeat case_decide; try done. simpl.
    unfold erase_value. rewrite Hbase, He0, He1, Ho0, Ho1. done. }
  rewrite Hreg, Hdue in Hrun.
  destruct Hrun as (pre_data & post_data & effs & Hpre & Hpost & Heff & Hprog & Hdata & Hmode).
  destruct (programs_only_data effs NRF52_NVMC_ERASEPAGE_ADDR Hprog) as [Htr Hrd].
  assert (flash_data (trace s') =
          flash_data (trace s) ++ pre_data ++ buffer ++ post_data) as Hflash.
  { rewrite !flash_data_effects, Heff, !bind_app, Hdata.
    rewrite fmap_triggers_no_data. simpl. by rewrite ?app_nil_r. }
  split; [|split; [|split; [|split; [|done]]]].
  - rewrite !erase_triggers_effects, Heff, !omap_app, Htr by done.
    rewrite fmap_triggers. simpl. by rewrite ?app_nil_r.
  - rewrite !memory_reads_effects, Heff, !omap_app, Hrd.
    rewrite fmap_triggers_no_reads. simpl. by rewrite ?app_nil_r.
  - exists pre_data, post_data. split; [lia|]. split; [lia|done].
  - rewrite Hflash, !length_app. lia.
Qed.

(** ** The configuration region driver *)

(** A page erase of a sector that exists returns, and reads no target
    memory. *)
Lemma erase_page_returns (s : state T) i sec :
  sectors (bank s) !! i = Some sec →
  ∃ res s', nrf52_erase_page i s = Done res s' ∧
            memory_reads (trace s') = memory_reads (trace s).
Proof.
  intros Hi. unfold nrf52_erase_page, bind at 1, sector. rewrite Hi.
  destruct (is_protected sec =? 1); [by eexists _, _|].
  unfold bind at 1, get_bank. unfold bind at 1.
  assert (∀ reg val, reg ≠ NRF52_NVMC_CONFIG_ADDR →
    ∃ res s',
      (res <- nrf52_nvmc_generic_erase reg val ;;
       (if res =? ERROR_OK then mark_erased i 1 else ret tt) ;; ret res) s
        = Done res s' ∧
      memory_reads (trace s') = memory_reads (trace s)) as Hgen.
  { intros reg val Hreg.
    destruct (nvmc_generic_erase_returns s reg val Hreg)
      as (res & s1 & Hge & Hc & Hb & He & _).
    unfold bind at 1. rewrite Hge.
    assert (memory_reads (trace s1) = memory_reads (trace s)) as Hrd.
    { rewrite !memory_reads_effects.
      destruct He as [-> | ->]; [done|]. rewrite omap_app. simpl.
      by rewrite app_nil_r. }
    destruct (res =? ERROR_OK).
    - unfold bind. rewrite (mark_erased_done s1 i sec) by congruence.
      by eexists _, _.
    - by eexists _, _. }
  destruct (base (bank s) =? NRF52_UICR_BASE_ADDR); by apply Hgen.
Qed.

(** A request whose 32-bit sum of offset and count exceeds the page size
    is refused before anything is done. *)
Lemma uicr_flash_write_rejects (s : state T) buffer offset count :
  code_page_size (chip s) < wrap32 (offset + count) →
  nrf52_uicr_flash_write buffer offset count s = Done ERROR_FAIL s.
Proof.
  intros Hgt. unfold nrf52_uicr_flash_write, bind at 1, get_chip.
  rewrite Z.gtb_ltb. apply Z.ltb_lt in Hgt. by rewrite Hgt.
Qed.

(** What a successful write to the configuration region has done: read
    the whole region, issued the erase trigger of its sector unless the
    sector was marked erased, and submitted the region with the data
    copied in. *)
Lemma uicr_flash_write_ok (s s' : state T) buffer offset count :
  uint32 (code_page_size (chip s)) → 0 ≤ offset → 0 ≤ count →
  offset + count ≤ code_page_size (chip s) →
  Z.of_nat (length buffer) = count →
  nrf52_uicr_flash_write buffer offset count s = Done ERROR_OK s' →
  ∃ sec old effs,
    sectors (bank s) !! 0%nat = Some sec ∧
    Z.of_nat (length old) = code_page_size (chip s) ∧
    effects (trace s') = effects (trace s) ++
      [MemRead NRF52_UICR_BASE_ADDR 1 (code_page_size (chip s))] ++
      (if is_erased sec =? 1 then []
       else [RegWrite (erase_register (bank s)) (erase_value (bank s) sec)]) ++
      effs ∧
    Forall is_program effs ∧
    mbind effect_data effs =
      take (Z.to_nat offset) old ++ buffer ++ drop (Z.to_nat (offset + count)) old ∧
    nvmc_config (trace s') = Some NRF52_NVMC_CONFIG_REN.
Proof.
  intros [Hp0 Hp1] Ho Hc Hle Hlen.
  unfold nrf52_uicr_flash_write, bind at 1, get_chip.
  rewrite wrap32_small by lia.
  assert ((offset + count >? code_page_size (chip s)) = false) as ->.
  { rewrite Z.gtb_ltb. apply Z.ltb_ge. lia. }
  unfold bind at 1, read_memory.
  destruct (target_read_memory _ _ _ _) as [[r data] t1]. cbn [fst snd].
  set (old := resize _ 0 data).
  assert (Z.of_nat (length old) = code_page_size (chip s)) as Hold.
  { subst old. rewrite length_resize. lia. }
  destruct (r =? ERROR_OK) eqn:Hr; cbn [negb].
  2:{ intros [= -> _]. by rewrite eqb_ok_refl in Hr. }
  set (s1 := call t1 _ s).
  unfold bind at 1, sector.
  destruct (sectors (bank s1) !! 0%nat) as [sec|] eqn:Hsec; [|done].
  unfold bind at 1.
  destruct ((if negb (is_erased sec =? 1) then nrf52_erase_page 0 else ret ERROR_OK) s1)
    as [res s2|] eqn:Herase; [|done].
  destruct (res =? ERROR_OK) eqn:Hres; cbn [negb].
  2:{ intros [= -> _]. by rewrite eqb_ok_refl in Hres. }
  apply Z.eqb_eq in Hres. subst res.
  assert (chip s2 = chip s ∧
          effects (trace s2) = effects (trace s1) ++
            (if is_erased sec =? 1 then []
             else [RegWrite (erase_register (bank s)) (erase_value (bank s) sec)]))
    as [Hc2 He2].
  { destruct (is_erased sec =? 1); cbn [negb] in Herase.
    - injection Herase as <-. by rewrite app_nil_r.
    - apply erase_page_ok in Herase as (sec' & Hsec' & Hc' & _ & He' & _).
      assert (sec' = sec) as -> by congruence. done. }
  rewrite blit_inside by lia.
  set (new := take _ old ++ buffer ++ drop _ old).
  assert (Z.of_nat (length new) = code_page_size (chip s)) as Hnew.
  { subst new. rewrite !length_app, length_take, length_drop. lia. }
  destruct (nvmc_write_enable_returns s2) as (rwe & s3 & Hwe & (Hc3 & Hb3 & He3) & _).
  unfold bind at 1. rewrite Hwe.
  destruct (rwe =? ERROR_OK) eqn:Hrwe; cbn [negb].
  2:{ intros [= -> _]. by rewrite eqb_ok_refl in Hrwe. }
  destruct (decide (code_page_size (chip s) mod 4 = 0)) as [Hm4|Hm4].
  2:{ unfold bind at 1. by rewrite ll_flash_write_misaligned. }
  destruct (ll_flash_write_returns s3 NRF52_UICR_BASE_ADDR new (code_page_size (chip s)))
    as (rw & s4 & effs & Hll & (Hc4 & Hb4 & _ & He4 & Hprog) & Hdata);
    [lia|done|].
  unfold bind at 1. rewrite Hll.
  destruct (rw =? ERROR_OK) eqn:Hrw; cbn [negb].
  2:{ unfold bind. destruct (nrf52_nvmc_read_only s4); [|done].
      intros [= -> _]. by rewrite eqb_ok_refl in Hrw. }
  apply Z.eqb_eq in Hrw.
  destruct (nvmc_read_only_returns s4) as (rr & s5 & -> & (Hc5 & Hb5 & He5) & Hmode & _).
  intros [= -> <-]. exists sec, old, effs.
  split; [done|]. split; [done|]. split; [|auto].
  rewrite He5, He4, He3, He2. subst s1. simpl. by rewrite <- !app_assoc.
Qed.

(** C5, as amended.  A successful write of a whole page at offset 0 of the
    configuration region reads the region once, in full, and nothing else
    of the target memory; issues the erase trigger of the region once
    when the sector is not marked erased and not at all when it is;
    submits one page for programming, which is the caller's buffer; and
    leaves the controller in read-only mode. *)
Theorem uicr_full_overwrite (s s' : state T) (buffer : list Z) :
  uint32 (code_page_size (chip s)) →
  Z.of_nat (length buffer) = code_page_size (chip s) →
  base (bank s) = NRF52_UICR_BASE_ADDR →
  nrf52_uicr_flash_write buffer 0 (code_page_size (chip s)) s = Done ERROR_OK s' →
  ∃ sec, sectors (bank s) !! 0%nat = Some sec ∧
    memory_reads (trace s') =
      memory_reads (trace s) ++
      [(NRF52_UICR_BASE_ADDR, 1, code_page_size (chip s))] ∧
    erase_triggers NRF52_NVMC_ERASEUICR_ADDR (trace s') =
      erase_triggers NRF52_NVMC_ERASEUICR_ADDR (trace s) ++
      (if is_erased sec =? 1 then [] else [1]) ∧
    flash_data (trace s') = flash_data (trace s) ++ buffer ∧
    nvmc_config (trace s') = Some NRF52_NVMC_CONFIG_REN.
Proof.
  intros Hps Hlen Hbase Hrun.
  apply uicr_flash_write_ok in Hrun
    as (sec & old & effs & Hsec & Hold & Heff & Hprog & Hdata & Hmode);
    [|done|lia|unfold uint32 in Hps; lia|lia|done].
  assert (erase_register (bank s) = NRF52_NVMC_ERASEUICR_ADDR) as Hreg.
  { unfold erase_register. by rewrite Hbase. }
  assert (erase_value (bank s) sec = 1) as Hval.
  { unfold erase_value. by rewrite Hbase. }
  rewrite Hreg, Hval in Heff.
  destruct (programs_only_data effs NRF52_NVMC_ERASEUICR_ADDR Hprog) as [Htr Hrd].
  rewrite take_0, drop_ge, app_nil_r in Hdata by lia. simpl in Hdata.
  exists sec. split; [done|]. split; [|split; [|split; [|done]]].
  - rewrite !memory_reads_effects, Heff, !omap_app, Hrd.
    destruct (is_erased sec =? 1); simpl; by rewrite ?app_nil_r.
  - rewrite !erase_triggers_effects, Heff, !omap_app, Htr by done.
    destruct (is_erased sec =? 1); simpl; by rewrite ?app_nil_r.
  - rewrite !flash_data_effects, Heff, !bind_app, Hdata.
    destruct (is_erased sec =? 1); simpl; by rewrite ?app_nil_r.
Qed.

(** C10. The bounds check of the configuration region driver adds offset
    and count in 32-bit arithmetic.  When the sum is 2^32 or more and
    what is left after the wrap-around does not exceed the page size, the
    request is not refused: the driver goes on and reads the region from
    the target. *)
Theorem uicr_bounds_check_wraps (s : state T) (buffer : list Z) (offset count : Z) :
  uint32 offset → uint32 count → uint32 (code_page_size (chip s)) →
  2 ^ 32 ≤ offset + count →
  offset + count - 2 ^ 32 ≤ code_page_size (chip s) →
  wrap32 (offset + count) = offset + count - 2 ^ 32 ∧
  nrf52_uicr_flash_write buffer offset count s ≠ Done ERROR_FAIL s ∧
  memory_reads (trace (final (nrf52_uicr_flash_write buffer offset count s))) =
    memory_reads (trace s) ++
    [(NRF52_UICR_BASE_ADDR, 1, code_page_size (chip s))].
Proof.
  intros [Ho0 Ho1] [Hc0 Hc1] [Hp0 Hp1] Hsum Hle.
  assert (wrap32 (offset + count) = offset + count - 2 ^ 32) as Hwrap.
  { unfold wrap32. symmetry. apply (Z.mod_unique _ _ 1); lia. }
  split; [done|].
  assert (memory_reads (trace (final (nrf52_uicr_flash_write buffer offset count s))) =
          memory_reads (trace s) ++
          [(NRF52_UICR_BASE_ADDR, 1, code_page_size (chip s))]) as Hreads.
  { unfold nrf52_uicr_flash_write, bind at 1, get_chip.
    rewrite Hwrap.
    assert ((offset + count - 2 ^ 32 >? code_page_size (chip s)) = false) as ->.
    { rewrite Z.gtb_ltb. apply Z.ltb_ge. lia. }
    unfold bind at 1, read_memory.
    destruct (target_read_memory _ _ _ _) as [[r data] t1]. cbn [fst snd].
    set (old := resize _ 0 data).
    destruct (r =? ERROR_OK); cbn [negb]; [|done].
    set (s1 := call t1 _ s).
    unfold bind at 1, sector.
    destruct (sectors (bank s1) !! 0%nat) as [sec|] eqn:Hsec; [|done].
    unfold bind at 1.
    assert (∃ res s2,
      (if negb (is_erased sec =? 1) then nrf52_erase_page 0 else ret ERROR_OK) s1
        = Done res s2 ∧
      memory_reads (trace s2) = memory_reads (trace s1)) as (res & s2 & -> & Hrd).
    { destruct (is_erased sec =? 1); cbn [negb]; [by eexists _, _|].
      by eapply erase_page_returns. }
    destruct (res =? ERROR_OK); cbn [negb];
      [|unfold ret; cbn [final]; by rewrite Hrd].
    assert (blit old offset buffer count = None) as ->;
      [|unfold fail; cbn [final]; by rewrite Hrd].
    unfold blit.
    assert ((offset + count <=? Z.of_nat (length old)) = false) as ->; [|done].
    apply Z.leb_gt. subst old. rewrite length_resize. lia. }
  split; [|done].
  intros Hrej. rewrite Hrej in Hreads. simpl in Hreads.
  apply (f_equal length) in Hreads. rewrite length_app in Hreads. simpl in Hreads. lia.
Qed.

End Properties.


(** * Concrete runs on the simulated target *)

(** C6. On a target whose ready flag reads busy at every poll, the wait
    reads the flag 101 times, sleeps 101 times, and returns the busy
    code: one poll more than the retry budget of 100 the counter is
    initialised with. *)
Theorem wait_for_nvmc_polls_101_times :
  ∃ s', nrf52_wait_for_nvmc (sim_start sim_stuck_busy 0) = Done ERROR_FLASH_BUSY s' ∧
        count_reads NRF52_NVMC_READY_ADDR (trace s') = 101%nat ∧
        count_sleeps (trace s') = 101%nat.
Proof. eexists. split; [vm_compute; reflexivity|]. vm_compute. repeat split. Qed.

(** C9. A request at offset 16 for 2^32 - 8 bytes, whose offset plus count
    exceeds the page size of 4096 by far, is not refused: the driver
    reads the region and issues the erase trigger of the configuration
    region before the copy into its page buffer leaves the buffer. *)
Theorem uicr_flash_write_wrapped_sum_not_rejected (buffer : list Z) :
  4096 < 16 + (2 ^ 32 - 8) ∧
  ∃ s', nrf52_uicr_flash_write buffer 16 (2 ^ 32 - 8) config_region
          = Fault UndefinedBehaviour s' ∧
        memory_reads (trace s') = [(NRF52_UICR_BASE_ADDR, 1, 4096)] ∧
        erase_triggers NRF52_NVMC_ERASEUICR_ADDR (trace s') = [1].
Proof.
  split; [done|]. eexists. split; [vm_compute; reflexivity|].
  vm_compute. repeat split.
Qed.

(** Counterexample to C3 as stated: the gap read after the data is 4092
    bytes long, from offset 4100; no read of 4086 bytes takes place. *)
Lemma code_flash_write_post_gap_counterexample :
  ∃ s', nrf52_code_flash_write (payload 10) 4090 10 two_pages = Done ERROR_OK s' ∧
        memory_reads (trace s') = [(0, 1, 4090); (4100, 1, 4092)] ∧
        ¬ ∃ a sz, (a, sz, 4086) ∈ memory_reads (trace s').
Proof.
  eexists. split; [vm_compute; reflexivity|]. split; [vm_compute; reflexivity|].
  intros (a & sz & Hin). vm_compute in Hin.
  apply elem_of_cons in Hin as [[=]|Hin].
  apply elem_of_cons in Hin as [[=]|Hin].
  by apply elem_of_nil in Hin.
Qed.

(** Counterexample to C4 as stated: with room for the loader program but
    for no buffer, the bulk write returns the resource code to its caller
    and submits nothing. *)
Lemma ll_flash_write_buffer_area_exhausted :
  ∃ s', nrf52_ll_flash_write 0 (payload 16) 16 (sim_start sim_low_ram 0)
          = Done ERROR_TARGET_RESOURCE_NOT_AVAILABLE s' ∧
        ERROR_TARGET_RESOURCE_NOT_AVAILABLE ≠ ERROR_OK ∧
        flash_data (trace s') = [].
Proof.
  eexists. split; [vm_compute; reflexivity|]. vm_compute. repeat split. done.
Qed.

(** Counterexample to C5 as stated: the full overwrite does read the
    existing contents of the region, all 4096 bytes of it. *)
Lemma uicr_full_overwrite_reads_region :
  ∃ s', nrf52_uicr_flash_write (payload 4096) 0 4096 config_region
          = Done ERROR_OK s' ∧
        memory_reads (trace s') = [(NRF52_UICR_BASE_ADDR, 1, 4096)] ∧
        memory_reads (trace s') ≠ [].
Proof.
  eexists. split; [vm_compute; reflexivity|]. vm_compute. repeat split. done.
Qed.

(** Counterexample to C7 as stated: in the code region of a chip whose
    identity registers hold a page size of 3 and a page count of
    0x55555557, the probe declares a region of 5 bytes at base 0 and lays
    out one sector of 3 bytes.  The address 3 lies within [base, base +
    size) and no sector is found for it; a write of the two bytes at
    offsets 3 and 4, which the driver rounds to the page at 3, is refused
    with the invalid-sector code. *)
Lemma find_sector_within_region_not_found :
  nrf52_probe (sim_start sim_odd_chip NRF52_FLASH_BASE_ADDR)
    = Done ERROR_OK odd_pages_probe ∧
  base (bank odd_pages_probe) = NRF52_FLASH_BASE_ADDR ∧
  bank_size (bank odd_pages_probe) = 5 ∧
  base (bank odd_pages_probe) ≤ 3 <
    base (bank odd_pages_probe) + bank_size (bank odd_pages_probe) ∧
  nrf52_find_sector_by_address (bank odd_pages_probe) (chip odd_pages_probe) 3 = None ∧
  ¬ (is_Some (nrf52_find_sector_by_address
                (bank odd_pages_probe) (chip odd_pages_probe) 3) ↔
     base (bank odd_pages_probe) ≤ 3 <
       base (bank odd_pages_probe) + bank_size (bank odd_pages_probe)) ∧
  (∃ s1, nrf52_write_pages 3 6 [1; 2; 0xFF] odd_pages_probe
           = Done ERROR_FLASH_SECTOR_INVALID s1) ∧
  (∃ s1, nrf52_code_flash_write [1; 2] 3 2 odd_pages_probe
           = Done ERROR_FLASH_SECTOR_INVALID s1).
Proof.
  split; [vm_compute; reflexivity|]. split; [vm_compute; reflexivity|].
  split; [vm_compute; reflexivity|].
  split; [vm_compute; split; [discriminate|reflexivity]|].
  split; [vm_compute; reflexivity|]. split.
  - intros [_ Hfound]. destruct Hfound as [i Hi].
    + vm_compute. split; [discriminate|reflexivity].
    + vm_compute in Hi. discriminate.
  - split; eexists; vm_compute; reflexivity.
Qed.

(** Addresses are offsets into the region: in the probed configuration
    region, no sector is found for the address of the region's base,
    which lies within [base, base + size), while a sector is found for
    address 0, which lies outside. *)
Lemma find_sector_region_base_counterexample :
  ∃ s', nrf52_probe (sim_start (sim_chip 4096 2) NRF52_UICR_BASE_ADDR)
          = Done ERROR_OK s' ∧
        (base (bank s') ≤ 0x10001000 < base (bank s') + bank_size (bank s') ∧
         nrf52_find_sector_by_address (bank s') (chip s') 0x10001000 = None) ∧
        (¬ base (bank s') ≤ 0 ∧
         nrf52_find_sector_by_address (bank s') (chip s') 0 = Some 0%nat).
Proof.
  eexists. split; [vm_compute; reflexivity|]. vm_compute. repeat split; done.
Qed.

(** Counterexample to C8 as stated: with a page size of 3 and a page count
    of 0x55555557 in the identity registers, the probe succeeds, declares
    a region of 5 bytes and lays out one sector of 3 bytes. *)
Lemma probe_extent_counterexample :
  ∃ s', nrf52_probe (sim_start sim_odd_chip NRF52_FLASH_BASE_ADDR) = Done ERROR_OK s' ∧
        bank_size (bank s') = 5 ∧ sectors_extent (bank s') = 3 ∧
        sectors_extent (bank s') ≠ bank_size (bank s').
Proof.
  eexists. split; [vm_compute; reflexivity|]. vm_compute. repeat split. done.
Qed.

(** There the product of the two registers is 2^32 + 5. *)
Example probe_extent_product_wraps :
  sim_code_size sim_odd_chip * sim_page_size sim_odd_chip = 2 ^ 32 + 5 ∧
  bank_size (bank odd_pages_probe) = 5 ∧ num_sectors (bank odd_pages_probe) = 1.
Proof. vm_compute. repeat split. Qed.

(** ** The theorems at concrete inputs *)

(** C1 on a code region of two pages whose page 0 is already marked
    erased, on a chip whose loader program fails; and on the first two
    pages of the small code region, over a link that drops once write
    mode is enabled. *)
Lemma write_pages_erases_stale_pages_once_then_read_only_witness :
  (erase_triggers (erase_register (bank half_erased))
       (trace (final (nrf52_write_pages_erase 3 0 8192 half_erased))) =
     erase_triggers (erase_register (bank half_erased)) (trace half_erased) ++
     due_erases (bank half_erased) (chip half_erased)
       (page_offsets 0 8192 (code_page_size (chip half_erased))) ∧
   (∀ p, p ∈ page_offsets 0 8192 (code_page_size (chip half_erased)) →
         ∃ sec,
           page_sector (bank (final (nrf52_write_pages_erase 3 0 8192 half_erased)))
             (chip (final (nrf52_write_pages_erase 3 0 8192 half_erased))) p
             = Some sec ∧ is_erased sec = 1) ∧
   (∀ s2 rw s3,
      nrf52_nvmc_write_enable (final (nrf52_write_pages_erase 3 0 8192 half_erased))
        = Done ERROR_OK s2 →
      nrf52_ll_flash_write 0 (payload 8192) (wrap32 (8192 - 0)) s2 = Done rw s3 →
      ∃ rr s4,
        nrf52_nvmc_read_only s3 = Done rr s4 ∧
        nrf52_write_pages 0 8192 (payload 8192) half_erased
          = Done (if rw =? ERROR_OK then rr else rw) s4 ∧
        bank s4 = bank (final (nrf52_write_pages_erase 3 0 8192 half_erased)) ∧
        erase_triggers (erase_register (bank half_erased)) (trace s4) =
          erase_triggers (erase_register (bank half_erased))
            (trace (final (nrf52_write_pages_erase 3 0 8192 half_erased))) ∧
        (rr = ERROR_OK → nvmc_config (trace s4) = Some NRF52_NVMC_CONFIG_REN) ∧
        (rr ≠ ERROR_OK → nvmc_config (trace s4) = Some NRF52_NVMC_CONFIG_WEN))) ∧
  (∃ rr s4,
     nrf52_nvmc_read_only
       (final (nrf52_ll_flash_write 0 (payload 32) 32
                 (final (nrf52_nvmc_write_enable
                           (final (nrf52_write_pages_erase 3 0 32 (link_pages 12)))))))
       = Done rr s4 ∧
     nrf52_write_pages 0 32 (payload 32) (link_pages 12)
       = Done (if ERROR_FAIL =? ERROR_OK then rr else ERROR_FAIL) s4 ∧
     bank s4 = bank (final (nrf52_write_pages_erase 3 0 32 (link_pages 12))) ∧
     erase_triggers (erase_register (bank (link_pages 12))) (trace s4) =
       erase_triggers (erase_register (bank (link_pages 12)))
         (trace (final (nrf52_write_pages_erase 3 0 32 (link_pages 12)))) ∧
     (rr = ERROR_OK → nvmc_config (trace s4) = Some NRF52_NVMC_CONFIG_REN) ∧
     (rr ≠ ERROR_OK → nvmc_config (trace s4) = Some NRF52_NVMC_CONFIG_WEN)).
Proof.
  split.
  - apply (write_pages_erases_stale_pages_once_then_read_only
             half_erased (final (nrf52_write_pages_erase 3 0 8192 half_erased))
             0 8192 (payload 8192)).
    + unfold uint32. lia.
    + unfold uint32. lia.
    + vm_compute. reflexivity.
    + vm_compute. reflexivity.
    + vm_compute. reflexivity.
    + vm_compute. repeat constructor; discriminate.
    + vm_compute. reflexivity.
  - destruct (write_pages_erases_stale_pages_once_then_read_only
                (link_pages 12) (final (nrf52_write_pages_erase 3 0 32 (link_pages 12)))
                0 32 (payload 32)) as (_ & _ & Hwrite).
    + unfold uint32. lia.
    + unfold uint32. lia.
    + vm_compute. reflexivity.
    + vm_compute. reflexivity.
    + vm_compute. reflexivity.
    + vm_compute. repeat constructor; discriminate.
    + vm_compute. reflexivity.
    + apply (Hwrite (final (nrf52_nvmc_write_enable
                              (final (nrf52_write_pages_erase 3 0 32 (link_pages 12)))))
               ERROR_FAIL).
      * vm_compute. reflexivity.
      * vm_compute. reflexivity.
Defined.

(** What that run comes to: one erase trigger, for page 1; the error of
    the loader program returned; the controller back in read-only mode. *)
Example write_pages_half_erased_run :
  ∃ s', nrf52_write_pages 0 8192 (payload 8192) half_erased = Done ERROR_FAIL s' ∧
        erase_triggers NRF52_NVMC_ERASEPAGE_ADDR (trace s') = [4096] ∧
        nvmc_config (trace s') = Some NRF52_NVMC_CONFIG_REN.
Proof. eexists. split; [vm_compute; reflexivity|]. vm_compute. repeat split. Qed.

(** Counterexample to C1 as stated: on a link that drops once write mode
    is enabled, the erase loop over two pages runs to its end and write
    mode is enabled; the bulk write then fails, the wait that opens the
    transition to read-only mode fails too, and the page writer returns
    the error with the controller still in write-enabled mode. *)
Lemma write_pages_left_write_enabled :
  ∃ s1 s2 s3 s',
    nrf52_write_pages_erase 3 0 32 (link_pages 12) = Done Completed s1 ∧
    nrf52_nvmc_write_enable s1 = Done ERROR_OK s2 ∧
    nrf52_ll_flash_write 0 (payload 32) 32 s2 = Done ERROR_FAIL s3 ∧
    nrf52_write_pages 0 32 (payload 32) (link_pages 12) = Done ERROR_FAIL s' ∧
    ERROR_FAIL ≠ ERROR_OK ∧
    erase_triggers NRF52_NVMC_ERASEPAGE_ADDR (trace s') = [0; 16] ∧
    nvmc_config (trace s') = Some NRF52_NVMC_CONFIG_WEN ∧
    nvmc_config (trace s') ≠ Some NRF52_NVMC_CONFIG_REN.
Proof.
  eexists _, _, _, _. split; [vm_compute; reflexivity|].
  split; [vm_compute; reflexivity|]. split; [vm_compute; reflexivity|].
  split; [vm_compute; reflexivity|]. split; [done|].
  split; [vm_compute; reflexivity|]. split; [vm_compute; reflexivity|].
  vm_compute. discriminate.
Qed.

(** The same after a bulk write that succeeded: the link drops right
    after the loader program has run, the transition to read-only mode
    fails at its wait, and its error is what the page writer returns,
    with all the data submitted and the controller in write-enabled
    mode. *)
Example write_pages_written_left_write_enabled :
  ∃ s', nrf52_write_pages 0 32 (payload 32) (link_pages 14) = Done ERROR_FAIL s' ∧
        flash_data (trace s') = payload 32 ∧
        nvmc_config (trace s') = Some NRF52_NVMC_CONFIG_WEN.
Proof. eexists. split; [vm_compute; reflexivity|]. vm_compute. repeat split. Qed.

(** C2 on a chip that refuses the write of the erase trigger. *)
Lemma generic_erase_returns_to_read_only_witness :
  nrf52_nvmc_generic_erase NRF52_NVMC_ERASEPAGE_ADDR 4096 (sim_start sim_trigger_fails 0) =
    nrf52_nvmc_read_only trigger_refused ∧
  (NRF52_NVMC_ERASEPAGE_ADDR ≠ NRF52_NVMC_CONFIG_ADDR →
   nvmc_config (trace trigger_refused) = Some NRF52_NVMC_CONFIG_EEN) ∧
  (∃ w sw, nrf52_wait_for_nvmc trigger_refused = Done w sw ∧
     (count_reads NRF52_NVMC_READY_ADDR (trace trigger_refused) <
      count_reads NRF52_NVMC_READY_ADDR (trace sw))%nat ∧
     nvmc_config (trace sw) = nvmc_config (trace trigger_refused) ∧
     if w =? ERROR_OK then
       ∃ rr t',
         target_write_u32 NRF52_NVMC_CONFIG_ADDR NRF52_NVMC_CONFIG_REN (target sw)
           = (rr, t') ∧
         nrf52_nvmc_read_only trigger_refused =
           Done rr (call t' (EvWriteU32 NRF52_NVMC_CONFIG_ADDR NRF52_NVMC_CONFIG_REN rr) sw)
     else nrf52_nvmc_read_only trigger_refused = Done w sw) ∧
  ∃ res s',
    nrf52_nvmc_read_only trigger_refused = Done res s' ∧
    (count_reads NRF52_NVMC_READY_ADDR (trace trigger_refused)
     < count_reads NRF52_NVMC_READY_ADDR (trace s'))%nat ∧
    (res = ERROR_OK → nvmc_config (trace s') = Some NRF52_NVMC_CONFIG_REN) ∧
    (res ≠ ERROR_OK → nvmc_config (trace s') = nvmc_config (trace trigger_refused)).
Proof.
  apply (generic_erase_returns_to_read_only
           (sim_start sim_trigger_fails 0)
           (final (nrf52_nvmc_erase_enable (sim_start sim_trigger_fails 0)))
           trigger_refused NRF52_NVMC_ERASEPAGE_ADDR 4096 ERROR_FAIL).
  - vm_compute. reflexivity.
  - vm_compute. reflexivity.
Defined.

(** What that run comes to: the trigger write refused, the transition to
    read-only mode run all the same, and acknowledged. *)
Example generic_erase_trigger_refused_run :
  ∃ s', nrf52_nvmc_generic_erase NRF52_NVMC_ERASEPAGE_ADDR 4096
          (sim_start sim_trigger_fails 0) = Done ERROR_OK s' ∧
        head (trace s') =
          Some (EvWriteU32 NRF52_NVMC_CONFIG_ADDR NRF52_NVMC_CONFIG_REN ERROR_OK) ∧
        nvmc_config (trace trigger_refused) = Some NRF52_NVMC_CONFIG_EEN ∧
        nvmc_config (trace s') = Some NRF52_NVMC_CONFIG_REN.
Proof. eexists. split; [vm_compute; reflexivity|]. vm_compute. repeat split. Qed.

(** Counterexample to C2 as stated: on a link that drops once erase mode
    is enabled, the trigger write fails, the wait that opens the
    transition to read-only mode fails too, and the generic erase returns
    with the controller still in erase-enabled mode: the mode register
    was last written, and acknowledged, with the erase-enable value. *)
Lemma generic_erase_left_erase_enabled :
  ∃ s1 s2 s',
    nrf52_nvmc_erase_enable (link_pages 2) = Done ERROR_OK s1 ∧
    write_u32 NRF52_NVMC_ERASEPAGE_ADDR 16 s1 = Done ERROR_FAIL s2 ∧
    nrf52_nvmc_generic_erase NRF52_NVMC_ERASEPAGE_ADDR 16 (link_pages 2)
      = Done ERROR_FAIL s' ∧
    ERROR_FAIL ≠ ERROR_OK ∧
    nvmc_config (trace s') = Some NRF52_NVMC_CONFIG_EEN ∧
    nvmc_config (trace s') ≠ Some NRF52_NVMC_CONFIG_REN ∧
    (∀ v r, EvWriteU32 NRF52_NVMC_CONFIG_ADDR v r ∈ trace s' →
            v = NRF52_NVMC_CONFIG_EEN).
Proof.
  eexists _, _, _. split; [vm_compute; reflexivity|].
  split; [vm_compute; reflexivity|]. split; [vm_compute; reflexivity|].
  split; [done|]. split; [vm_compute; reflexivity|].
  split; [vm_compute; discriminate|].
  intros v r Hin. vm_compute in Hin.
  repeat (apply elem_of_cons in Hin as [[=]|Hin]; try done).
  by apply elem_of_nil in Hin.
Qed.

(** C3 on the freshly probed code region of the two-page chip. *)
Lemma code_flash_write_across_two_pages_witness :
  erase_triggers NRF52_NVMC_ERASEPAGE_ADDR
      (trace (final (nrf52_code_flash_write (payload 10) 4090 10 two_pages))) =
    erase_triggers NRF52_NVMC_ERASEPAGE_ADDR (trace two_pages) ++ [0; 4096] ∧
  memory_reads
      (trace (final (nrf52_code_flash_write (payload 10) 4090 10 two_pages))) =
    memory_reads (trace two_pages) ++ [(0, 1, 4090); (4100, 1, 4092)] ∧
  (∃ pre_data post_data,
     Z.of_nat (length pre_data) = 4090 ∧ Z.of_nat (length post_data) = 4092 ∧
     flash_data
       (trace (final (nrf52_code_flash_write (payload 10) 4090 10 two_pages))) =
       flash_data (trace two_pages) ++ pre_data ++ payload 10 ++ post_data) ∧
  Z.of_nat (length (flash_data
       (trace (final (nrf52_code_flash_write (payload 10) 4090 10 two_pages))))) =
    Z.of_nat (length (flash_data (trace two_pages))) + 8192 ∧
  nvmc_config
      (trace (final (nrf52_code_flash_write (payload 10) 4090 10 two_pages))) =
    Some NRF52_NVMC_CONFIG_REN.
Proof.
  apply (code_flash_write_across_two_pages two_pages
           (final (nrf52_code_flash_write (payload 10) 4090 10 two_pages))
           (payload 10)).
  - vm_compute. reflexivity.
  - vm_compute. reflexivity.
  - vm_compute. reflexivity.
  - split; [vm_compute; reflexivity|].
    intros [|[|i]] sec; vm_compute; intros [= <-]; repeat split.
  - vm_compute. reflexivity.
  - vm_compute. reflexivity.
Defined.

(** C4, writing four words: on a chip without any working area, where the
    request for the loader area is refused, and on a chip with room for
    the loader program only, where that request is granted and the five
    requests for a buffer area are refused. *)
Lemma ll_flash_write_allocation_failure_witness :
  (∃ res s' effs,
     nrf52_ll_flash_write 0 (payload 16) 16 (sim_start sim_no_ram 0) = Done res s' ∧
     nrf52_ll_flash_write_slow (S (Z.to_nat (16 / 4))) 0 (payload 16) 16
       (call sim_no_ram
          (EvAlloc 32 ERROR_TARGET_RESOURCE_NOT_AVAILABLE
             {| wa_address := 0; wa_size := 0 |})
          (sim_start sim_no_ram 0)) = Done res s' ∧
     programs_after (sim_start sim_no_ram 0) s' effs ∧
     (res = ERROR_OK → Z.of_nat (length effs) = 16 / 4) ∧
     (res = ERROR_OK → Z.of_nat (length (payload 16)) = 16 →
      flash_data (trace s') =
        flash_data (trace (sim_start sim_no_ram 0)) ++ payload 16)) ∧
  (∃ s',
     nrf52_ll_flash_write 0 (payload 16) 16 (sim_start sim_low_ram 0)
       = Done ERROR_TARGET_RESOURCE_NOT_AVAILABLE s' ∧
     effects (trace s') = effects (trace (sim_start sim_low_ram 0)) ∧
     flash_data (trace s') = flash_data (trace (sim_start sim_low_ram 0)) ∧
     alloc_requests (trace s') =
       alloc_requests (trace (sim_start sim_low_ram 0)) ++
       [32; 8192; 4096; 2048; 1024; 512] ∧
     head (trace s') = Some (EvFree {| wa_address := 0x20000000; wa_size := 32 |})).
Proof.
  split.
  - apply (proj1 (ll_flash_write_allocation_failure
                    (sim_start sim_no_ram 0) 0 (payload 16) 16
                    ltac:(unfold uint32; lia) ltac:(reflexivity))).
    + vm_compute. reflexivity.
    + vm_compute. discriminate.
  - apply (proj2 (ll_flash_write_allocation_failure
                    (sim_start sim_low_ram 0) 0 (payload 16) 16
                    ltac:(unfold uint32; lia) ltac:(reflexivity))
             {| wa_address := 0x20000000; wa_size := 32 |} sim_low_ram sim_low_ram
             ERROR_TARGET_RESOURCE_NOT_AVAILABLE {| wa_address := 0; wa_size := 0 |}
             sim_low_ram
             ERROR_TARGET_RESOURCE_NOT_AVAILABLE {| wa_address := 0; wa_size := 0 |}
             sim_low_ram
             ERROR_TARGET_RESOURCE_NOT_AVAILABLE {| wa_address := 0; wa_size := 0 |}
             sim_low_ram
             ERROR_TARGET_RESOURCE_NOT_AVAILABLE {| wa_address := 0; wa_size := 0 |}
             sim_low_ram
             ERROR_TARGET_RESOURCE_NOT_AVAILABLE {| wa_address := 0; wa_size := 0 |}
             sim_low_ram);
      first [vm_compute; reflexivity | vm_compute; discriminate].
Defined.

(** What that run comes to: no error, and the sixteen bytes submitted. *)
Example ll_flash_write_without_ram_run :
  ∃ s', nrf52_ll_flash_write 0 (payload 16) 16 (sim_start sim_no_ram 0)
          = Done ERROR_OK s' ∧
        flash_data (trace s') = payload 16 ∧ count_runs (trace s') = 0%nat.
Proof. eexists. split; [vm_compute; reflexivity|]. vm_compute. repeat split. Qed.

(** C5 on the freshly probed configuration region of the two-page chip. *)
Lemma uicr_full_overwrite_witness :
  ∃ sec, sectors (bank config_region) !! 0%nat = Some sec ∧
    memory_reads
      (trace (final (nrf52_uicr_flash_write (payload 4096) 0
                       (code_page_size (chip config_region)) config_region))) =
      memory_reads (trace config_region) ++
      [(NRF52_UICR_BASE_ADDR, 1, code_page_size (chip config_region))] ∧
    erase_triggers NRF52_NVMC_ERASEUICR_ADDR
      (trace (final (nrf52_uicr_flash_write (payload 4096) 0
                       (code_page_size (chip config_region)) config_region))) =
      erase_triggers NRF52_NVMC_ERASEUICR_ADDR (trace config_region) ++
      (if is_erased sec =? 1 then [] else [1]) ∧
    flash_data
      (trace (final (nrf52_uicr_flash_write (payload 4096) 0
                       (code_page_size (chip config_region)) config_region))) =
      flash_data (trace config_region) ++ payload 4096 ∧
    nvmc_config
      (trace (final (nrf52_uicr_flash_write (payload 4096) 0
                       (code_page_size (chip config_region)) config_region))) =
      Some NRF52_NVMC_CONFIG_REN.
Proof.
  apply (uicr_full_overwrite config_region
           (final (nrf52_uicr_flash_write (payload 4096) 0
                     (code_page_size (chip config_region)) config_region))
           (payload 4096)).
  - vm_compute. split; [discriminate|reflexivity].
  - vm_compute. reflexivity.
  - vm_compute. reflexivity.
  - vm_compute. reflexivity.
Defined.

(** C7 on the code region of the two-page chip, at the address 8192, the
    first beyond the region: no sector is found for it; it lies outside
    [base, base + size); a write of the page at 8192 is refused at once,
    and a write of three pages from 0 is refused once pages 0 and 4096
    have been erased. *)
Lemma find_sector_iff_offset_within_extent_witness :
  (is_Some (nrf52_find_sector_by_address
              (bank two_pages_probe) (chip two_pages_probe) 8192) ↔
   8192 < sectors_extent (bank two_pages_probe)) ∧
  (is_Some (nrf52_find_sector_by_address
              (bank two_pages_probe) (chip two_pages_probe) 8192) ↔
   base (bank two_pages_probe) ≤ 8192 <
     base (bank two_pages_probe) + bank_size (bank two_pages_probe)) ∧
  nrf52_find_sector_by_address (bank two_pages_probe) (chip two_pages_probe) 8192
    = None ∧
  nrf52_write_pages 8192 12288 (payload 4096) two_pages_probe =
    Done ERROR_FLASH_SECTOR_INVALID two_pages_probe ∧
  nrf52_write_pages 0 12288 (payload 12288) two_pages_probe =
    Done ERROR_FLASH_SECTOR_INVALID
      (final (nrf52_write_pages_erase 3 0 8192 two_pages_probe)) ∧
  erase_triggers (erase_register (bank two_pages_probe))
      (trace (final (nrf52_write_pages_erase 3 0 8192 two_pages_probe))) =
    erase_triggers (erase_register (bank two_pages_probe)) (trace two_pages_probe) ++
    due_erases (bank two_pages_probe) (chip two_pages_probe)
      (page_offsets 0 8192 (code_page_size (chip two_pages_probe))) ∧
  flash_data (trace (final (nrf52_write_pages_erase 3 0 8192 two_pages_probe))) =
    flash_data (trace two_pages_probe).
Proof.
  destruct (find_sector_iff_offset_within_extent
              (sim_start (sim_chip 4096 2) NRF52_FLASH_BASE_ADDR) two_pages_probe 8192)
    as (Hiff & _ & (v1 & t1 & v2 & t2 & Hr1 & Hr2 & Hcode) & _ & Hout & Hfirst & Hlater).
  - vm_compute. reflexivity.
  - unfold uint32. lia.
  - split; [exact Hiff|]. split; [|split; [|split]].
    2:{ apply Hout; vm_compute; [reflexivity|discriminate]. }
    + vm_compute in Hr1. injection Hr1 as <- <-.
      vm_compute in Hr2. injection Hr2 as <- <-.
      apply Hcode; vm_compute; reflexivity.
    + apply Hfirst.
      * vm_compute. reflexivity.
      * lia.
      * vm_compute. discriminate.
      * vm_compute. reflexivity.
      * vm_compute. reflexivity.
    + apply (Hlater ltac:(vm_compute; reflexivity) 3%nat 0 12288 (payload 12288)).
      * unfold uint32. lia.
      * lia.
      * lia.
      * vm_compute. discriminate.
      * vm_compute. reflexivity.
      * vm_compute. reflexivity.
      * vm_compute. reflexivity.
      * vm_compute. reflexivity.
Defined.

(** What those runs come to. *)
Example write_pages_beyond_region_run :
  nrf52_find_sector_by_address (bank two_pages_probe) (chip two_pages_probe) 8192 = None ∧
  ∃ s1, nrf52_write_pages 0 12288 (payload 12288) two_pages_probe
          = Done ERROR_FLASH_SECTOR_INVALID s1 ∧
        erase_triggers NRF52_NVMC_ERASEPAGE_ADDR (trace s1) = [0; 4096] ∧
        flash_data (trace s1) = [].
Proof.
  split; [vm_compute; reflexivity|].
  eexists. split; [vm_compute; reflexivity|]. vm_compute. repeat split.
Qed.

(** Without the sector array the search has nothing to stop at: the page
    writer ends in undefined behaviour, with nothing erased. *)
Example write_pages_no_array_run :
  sectors_missing (bank small_pages_no_array) = true ∧
  nrf52_write_pages 0 16 (payload 16) small_pages_no_array
    = Fault UndefinedBehaviour small_pages_no_array.
Proof. split; vm_compute; reflexivity. Qed.

(** C8 on the code region of the two-page chip. *)
Lemma probe_sector_layout_witness :
  num_sectors (bank two_pages_probe) =
    Z.of_nat (length (sectors (bank two_pages_probe))) ∧
  (∀ (i : nat) sec,
     sectors (bank two_pages_probe) !! i = Some sec →
     offset sec = Z.of_nat i * code_page_size (chip two_pages_probe) ∧
     size sec = code_page_size (chip two_pages_probe) ∧
     is_erased sec = -1 ∧ is_protected sec = -1) ∧
  (base (bank two_pages_probe) = NRF52_FLASH_BASE_ADDR →
     num_sectors (bank two_pages_probe) =
       bank_size (bank two_pages_probe) / code_page_size (chip two_pages_probe)) ∧
  (base (bank two_pages_probe) ≠ NRF52_FLASH_BASE_ADDR →
     num_sectors (bank two_pages_probe) = 1) ∧
  sectors_extent (bank two_pages_probe) =
    bank_size (bank two_pages_probe)
    - bank_size (bank two_pages_probe) mod code_page_size (chip two_pages_probe) ∧
  (bank_size (bank two_pages_probe) mod code_page_size (chip two_pages_probe) = 0 →
   sectors_extent (bank two_pages_probe) = bank_size (bank two_pages_probe)) ∧
  (∃ v1 t1 v2 t2,
     target_read_u32 NRF52_FICR_CODEPAGESIZE_ADDR
       (target (sim_start (sim_chip 4096 2) NRF52_FLASH_BASE_ADDR)) = (ERROR_OK, v1, t1) ∧
     target_read_u32 NRF52_FICR_CODESIZE_ADDR t1 = (ERROR_OK, v2, t2) ∧
     code_page_size (chip two_pages_probe) = wrap32 v1 ∧
     (base (bank two_pages_probe) = NRF52_FLASH_BASE_ADDR →
        bank_size (bank two_pages_probe) = wrap32 (wrap32 v2 * wrap32 v1) ∧
        (wrap32 v2 * wrap32 v1 < 2 ^ 32 →
           bank_size (bank two_pages_probe) = wrap32 v2 * wrap32 v1 ∧
           num_sectors (bank two_pages_probe) = wrap32 v2 ∧
           sectors_extent (bank two_pages_probe) = bank_size (bank two_pages_probe))) ∧
     (base (bank two_pages_probe) ≠ NRF52_FLASH_BASE_ADDR →
        bank_size (bank two_pages_probe) = wrap32 v1 ∧
        sectors_extent (bank two_pages_probe) = bank_size (bank two_pages_probe))).
Proof.
  apply (probe_sector_layout (sim_start (sim_chip 4096 2) NRF52_FLASH_BASE_ADDR)
           two_pages_probe).
  vm_compute. reflexivity.
Defined.

(** What that probe comes to: the registers hold 4096 and 2, the region is
    declared with 8192 bytes, and its two sectors add up to that. *)
Example probe_two_pages_run :
  target_read_u32 NRF52_FICR_CODEPAGESIZE_ADDR (sim_chip 4096 2)
    = (ERROR_OK, 4096, sim_chip 4096 2) ∧
  target_read_u32 NRF52_FICR_CODESIZE_ADDR (sim_chip 4096 2)
    = (ERROR_OK, 2, sim_chip 4096 2) ∧
  nrf52_probe (sim_start (sim_chip 4096 2) NRF52_FLASH_BASE_ADDR)
    = Done ERROR_OK two_pages_probe ∧
  bank_size (bank two_pages_probe) = 8192 ∧
  num_sectors (bank two_pages_probe) = 2 ∧
  sectors_extent (bank two_pages_probe) = 8192.
Proof. vm_compute. repeat split. Qed.

(** C10 at offset 16 and count 2^32 - 8, on the configuration region of
    the two-page chip. *)
Lemma uicr_bounds_check_wraps_witness :
  wrap32 (16 + (2 ^ 32 - 8)) = 16 + (2 ^ 32 - 8) - 2 ^ 32 ∧
  nrf52_uicr_flash_write [] 16 (2 ^ 32 - 8) config_region ≠ Done ERROR_FAIL config_region ∧
  memory_reads
    (trace (final (nrf52_uicr_flash_write [] 16 (2 ^ 32 - 8) config_region))) =
    memory_reads (trace config_region) ++
    [(NRF52_UICR_BASE_ADDR, 1, code_page_size (chip config_region))].
Proof.
  apply (uicr_bounds_check_wraps config_region [] 16 (2 ^ 32 - 8)).
  - unfold uint32. lia.
  - unfold uint32. lia.
  - vm_compute. split; [discriminate|reflexivity].
  - lia.
  - vm_compute. discriminate.
Defined.


(** * Coverage: the rest of the driver *)

Section Coverage.

Context `{EC : ErrorCodes}.
Context {T : Type} `{TG : Target T}.

(** ** Rules for triples *)

Lemma hoare_ret {A} (P : state T → Prop) (Q : A → state T → Prop) F (a : A) :
  (∀ s, P s → Q a s) → hoare P (ret a) Q F.
Proof. intros H s Hs. by apply H. Qed.

Lemma hoare_bind {A B} (P : state T → Prop) (R : A → state T → Prop)
    (Q : B → state T → Prop) F (m : M T A) (k : A → M T B) :
  hoare P m R F → (∀ a, hoare (R a) (k a) Q F) → hoare P (bind m k) Q F.
Proof.
  intros Hm Hk s Hs. unfold bind. specialize (Hm s Hs).
  destruct (m s) as [a s'|f s']; [|done]. by apply Hk.
Qed.

Lemma hoare_weaken {A} (P P' : state T → Prop) (Q Q' : A → state T → Prop) F
    (m : M T A) :
  hoare P' m Q' F → (∀ s, P s → P' s) → (∀ a s, Q' a s → Q a s) → hoare P m Q F.
Proof.
  intros Hm HP HQ s Hs. specialize (Hm s (HP s Hs)).
  destruct (m s); [by apply HQ|done].
Qed.

Lemma hoare_fail {A} (P : state T → Prop) (Q : A → state T → Prop)
    (F : state T → Prop) f :
  (∀ s, P s → F s) → hoare P (fail f) Q F.
Proof. intros H s Hs. by apply H. Qed.

Lemma hoare_assert (P : state T → Prop) (F : state T → Prop) b :
  (∀ s, P s → F s) → hoare P (assert b) (fun _ s => P s ∧ b = true) F.
Proof. intros H s Hs. destruct b; simpl; [done|by apply H]. Qed.


(** ** What the erase and write operations keep *)

Section Kept.

Variable tr0 : list event.
Variable ok : effect → Prop.
Variable c0 : nrf52_info.
Variable b0 : flash_bank.

(** The erase trigger of every sector of [b0] that is not protected is
    allowed, and so are reading target memory and programming. *)
Hypothesis ok_sector : ∀ e, unprotected_trigger b0 e → ok e.
Hypothesis ok_read : ∀ a sz n, ok (MemRead a sz n).
Hypothesis ok_program : ∀ data, ok (Program data).

Local Abbreviation K := (kept tr0 ok c0 b0).
Local Abbreviation Kc cfg := (fun s : state T => kept tr0 ok c0 b0 s ∧ nvmc_config (trace s) = cfg).

Lemma kept_call_quiet (s : state T) t' e :
  quiet_event e → K s →
  K (call t' e s) ∧ nvmc_config (trace (call t' e s)) = nvmc_config (trace s).
Proof.
  intros Hq (Hm & Ht & Hc & Hb). unfold kept. simpl.
  split; [|by destruct e].
  split; [|split; [|done]].
  - intros H0%Hm. destruct e; simpl in *; try done; by rewrite H0.
  - by destruct e.
Qed.

(** One more flash-relevant call that is allowed. *)
Lemma kept_added (effs : list effect) e :
  (∃ added, effs = effects tr0 ++ added ∧ Forall ok added) → ok e →
  ∃ added, effs ++ [e] = effects tr0 ++ added ∧ Forall ok added.
Proof.
  intros (added & -> & Hall) He. exists (added ++ [e]).
  split; [by rewrite app_assoc|]. apply Forall_app. split; [done|]. by repeat constructor.
Qed.

Lemma kept_call_config (s : state T) t' v r :
  K s →
  K (call t' (EvWriteU32 NRF52_NVMC_CONFIG_ADDR v r) s) ∧
  (r = ERROR_OK →
   nvmc_config (trace (call t' (EvWriteU32 NRF52_NVMC_CONFIG_ADDR v r) s)) = Some v) ∧
  (r ≠ ERROR_OK →
   nvmc_config (trace (call t' (EvWriteU32 NRF52_NVMC_CONFIG_ADDR v r) s))
     = nvmc_config (trace s)).
Proof.
  intros (Hm & Ht & Hc & Hb). unfold kept. simpl.
  split; [split; [|done]|split].
  - intros H0%Hm. by rewrite H0.
  - intros ->. by rewrite Z.eqb_refl.
  - intros Hr%Z.eqb_neq. by rewrite Hr.
Qed.

Lemma kept_call_trigger (s : state T) t' a v r :
  K s → nvmc_config (trace s) = Some NRF52_NVMC_CONFIG_EEN →
  a ≠ NRF52_NVMC_CONFIG_ADDR → ok (RegWrite a v) →
  K (call t' (EvWriteU32 a v r) s).
Proof.
  intros (Hm & Ht & Hc & Hb) Hcfg Ha%Z.eqb_neq Hok. unfold kept. simpl.
  split; [|split; [|done]].
  - intros H0%Hm. rewrite H0. unfold config_is. rewrite Hcfg.
    by destruct (is_erase_trigger a).
  - rewrite Ha. by apply kept_added.
Qed.

Lemma kept_call_read_memory (s : state T) t' a sz n r :
  K s →
  K (call t' (EvReadMemory a sz n r) s) ∧
  nvmc_config (trace (call t' (EvReadMemory a sz n r) s)) = nvmc_config (trace s).
Proof.
  intros (Hm & Ht & Hc & Hb). unfold kept. simpl.
  split; [|done]. split; [|split; [|done]].
  - intros H0%Hm. by rewrite H0.
  - by apply kept_added.
Qed.

Lemma kept_call_write_memory (s : state T) t' a sz n data r :
  K s → nvmc_config (trace s) = Some NRF52_NVMC_CONFIG_WEN →
  K (call t' (EvWriteMemory a sz n data r) s).
Proof.
  intros (Hm & Ht & Hc & Hb) Hcfg. unfold kept. simpl.
  split; [|split; [|done]].
  - intros H0%Hm. rewrite H0. unfold config_is. by rewrite Hcfg.
  - by apply kept_added.
Qed.

Lemma kept_call_run (s : state T) t' buffer n bs regs a1 a2 a3 r :
  K s → nvmc_config (trace s) = Some NRF52_NVMC_CONFIG_WEN →
  K (call t' (EvRunAlgorithm buffer n bs regs a1 a2 a3 r) s).
Proof.
  intros (Hm & Ht & Hc & Hb) Hcfg. unfold kept. simpl.
  split; [|split; [|done]].
  - intros H0%Hm. rewrite H0. unfold config_is. by rewrite Hcfg.
  - by apply kept_added.
Qed.

(** The calls, as triples. *)

Lemma kept_read_u32 cfg a :
  hoare (Kc cfg) (read_u32 a) (fun _ => Kc cfg) K.
Proof.
  intros s [Hk Hcfg]. unfold read_u32.
  destruct (target_read_u32 _ _) as [[r v] t'].
  destruct (kept_call_quiet s t' (EvReadU32 a r (wrap32 v)) I Hk) as [? ?].
  split; [done|congruence].
Qed.

Lemma kept_sleep cfg ms : hoare (Kc cfg) (sleep ms) (fun _ => Kc cfg) K.
Proof.
  intros s [Hk Hcfg]. unfold sleep.
  destruct (kept_call_quiet s (alive_sleep ms (target s)) (EvSleep ms) I Hk) as [? ?].
  split; [done|congruence].
Qed.

Lemma kept_read_memory cfg a sz n :
  hoare (Kc cfg) (read_memory a sz n) (fun _ => Kc cfg) K.
Proof.
  intros s [Hk Hcfg]. unfold read_memory.
  destruct (target_read_memory _ _ _ _) as [[r d] t'].
  destruct (kept_call_read_memory s t' a sz n r Hk) as [? ?].
  split; [done|congruence].
Qed.

Lemma kept_alloc cfg size :
  hoare (Kc cfg) (alloc_working_area size) (fun _ => Kc cfg) K.
Proof.
  intros s [Hk Hcfg]. unfold alloc_working_area.
  destruct (target_alloc_working_area _ _) as [[r area] t'].
  destruct (kept_call_quiet s t' (EvAlloc size r area) I Hk) as [? ?].
  split; [done|congruence].
Qed.

Lemma kept_free cfg area :
  hoare (Kc cfg) (free_working_area area) (fun _ => Kc cfg) K.
Proof.
  intros s [Hk Hcfg]. unfold free_working_area.
  destruct (kept_call_quiet s (target_free_working_area area (target s))
              (EvFree area) I Hk) as [? ?].
  split; [done|congruence].
Qed.

Lemma kept_write_buffer cfg a sz data :
  hoare (Kc cfg) (write_buffer a sz data) (fun _ => Kc cfg) K.
Proof.
  intros s [Hk Hcfg]. unfold write_buffer.
  destruct (target_write_buffer _ _ _ _) as [r t'].
  destruct (kept_call_quiet s t' (EvWriteBuffer a sz data r) I Hk) as [? ?].
  split; [done|congruence].
Qed.

Lemma kept_write_memory a sz n data :
  hoare (Kc (Some NRF52_NVMC_CONFIG_WEN)) (write_memory a sz n data)
        (fun _ => Kc (Some NRF52_NVMC_CONFIG_WEN)) K.
Proof.
  intros s [Hk Hcfg]. unfold write_memory.
  destruct (target_write_memory _ _ _ _ _) as [r t'].
  split; [by apply kept_call_write_memory|done].
Qed.

Lemma kept_run buffer n bs regs a1 a2 a3 :
  hoare (Kc (Some NRF52_NVMC_CONFIG_WEN))
        (run_flash_async_algorithm buffer n bs regs a1 a2 a3)
        (fun _ => Kc (Some NRF52_NVMC_CONFIG_WEN)) K.
Proof.
  intros s [Hk Hcfg]. unfold run_flash_async_algorithm.
  destruct (target_run_flash_async_algorithm _ _ _ _ _ _ _ _) as [r t'].
  split; [by apply kept_call_run|done].
Qed.

Lemma kept_write_config cfg v :
  hoare (Kc cfg) (write_u32 NRF52_NVMC_CONFIG_ADDR v)
        (fun r s => K s ∧ (r = ERROR_OK → nvmc_config (trace s) = Some v) ∧
                    (r ≠ ERROR_OK → nvmc_config (trace s) = cfg)) K.
Proof.
  intros s [Hk Hcfg]. unfold write_u32.
  destruct (target_write_u32 _ _ _) as [r t'].
  destruct (kept_call_config s t' v r Hk) as (? & ? & ?).
  split; [done|]. split; [done|]. intros ?. rewrite <- Hcfg. auto.
Qed.

(** The ready-wait and the mode transitions. *)

Lemma kept_wait_loop cfg n :
  hoare (Kc cfg) (nrf52_wait_for_nvmc_loop n) (fun _ => Kc cfg) K.
Proof.
  induction n as [|n IH]; simpl;
    (eapply hoare_bind; [apply kept_read_u32|]); intros r;
    (destruct (negb (r.1 =? ERROR_OK)); [by apply hoare_ret|]);
    (destruct (r.2 =? NRF52_NVMC_READY); [by apply hoare_ret|]);
    (eapply hoare_bind; [apply kept_sleep|]); intros ?;
    [by apply hoare_ret|apply IH].
Qed.

Lemma kept_wait cfg : hoare (Kc cfg) nrf52_wait_for_nvmc (fun _ => Kc cfg) K.
Proof. apply kept_wait_loop. Qed.

Ltac kept_mode_transition :=
  eapply hoare_bind; [apply kept_wait|]; intros res;
  destruct (negb (res =? ERROR_OK)) eqn:Hres;
  [ apply hoare_ret; intros s [Hk Hcfg]; split; [done|]; split; [|done];
    intros Heq; by rewrite Heq, Z.eqb_refl in Hres
  | apply kept_write_config ].

Lemma kept_erase_enable cfg :
  hoare (Kc cfg) nrf52_nvmc_erase_enable
        (fun r s => K s ∧
           (r = ERROR_OK → nvmc_config (trace s) = Some NRF52_NVMC_CONFIG_EEN) ∧
           (r ≠ ERROR_OK → nvmc_config (trace s) = cfg)) K.
Proof. unfold nrf52_nvmc_erase_enable. kept_mode_transition. Qed.

Lemma kept_write_enable cfg :
  hoare (Kc cfg) nrf52_nvmc_write_enable
        (fun r s => K s ∧
           (r = ERROR_OK → nvmc_config (trace s) = Some NRF52_NVMC_CONFIG_WEN) ∧
           (r ≠ ERROR_OK → nvmc_config (trace s) = cfg)) K.
Proof. unfold nrf52_nvmc_write_enable. kept_mode_transition. Qed.

Lemma kept_read_only cfg :
  hoare (Kc cfg) nrf52_nvmc_read_only
        (fun r s => K s ∧
           (r = ERROR_OK → nvmc_config (trace s) = Some NRF52_NVMC_CONFIG_REN) ∧
           (r ≠ ERROR_OK → nvmc_config (trace s) = cfg)) K.
Proof. unfold nrf52_nvmc_read_only. kept_mode_transition. Qed.

(** A triple whose precondition does not fix the mode. *)
Lemma hoare_any_mode {A} (m : M T A) (Q : A → state T → Prop) :
  (∀ cfg, hoare (Kc cfg) m Q K) → hoare K m Q K.
Proof. intros H s Hs. by apply (H (nvmc_config (trace s))). Qed.

Lemma kept_generic_erase reg val :
  reg ≠ NRF52_NVMC_CONFIG_ADDR → ok (RegWrite reg val) →
  hoare K (nrf52_nvmc_generic_erase reg val) (fun _ => K) K.
Proof.
  intros Hreg Hok. apply hoare_any_mode. intros cfg.
  unfold nrf52_nvmc_generic_erase.
  eapply hoare_bind; [apply kept_erase_enable|]. intros res.
  destruct (negb (res =? ERROR_OK)) eqn:Hres.
  { apply hoare_ret. by intros s [Hk _]. }
  apply negb_false_iff, Z.eqb_eq in Hres. subst res.
  eapply hoare_bind with (R := fun _ => K).
  - intros s (Hk & Hcfg & _). unfold write_u32.
    destruct (target_write_u32 _ _ _) as [r t'].
    apply (kept_call_trigger s t' reg val r Hk (Hcfg eq_refl) Hreg Hok).
  - intros ?. apply hoare_any_mode. intros cfg'.
    eapply hoare_weaken; [apply (kept_read_only cfg')|by intros ? ?|].
    by intros r s [Hk _].
Qed.


(** Reading and updating the driver's own records. *)

Lemma hoare_get_bank (P : state T → Prop) F :
  hoare P get_bank (fun b s => P s ∧ b = bank s) F.
Proof. by intros s Hs. Qed.

Lemma hoare_get_chip (P : state T → Prop) F :
  hoare P get_chip (fun c s => P s ∧ c = chip s) F.
Proof. by intros s Hs. Qed.

Lemma hoare_sector (P F : state T → Prop) i :
  (∀ s, P s → F s) →
  hoare P (sector i) (fun sec s => P s ∧ sectors (bank s) !! i = Some sec) F.
Proof.
  intros HF s Hs. unfold sector.
  destruct (sectors (bank s) !! i) eqn:E; [done|by apply HF].
Qed.

Lemma kept_mark_erased cfg i :
  hoare (Kc cfg) (mark_erased i 1) (fun _ => Kc cfg) K.
Proof.
  intros s [(Hm & Ht & Hc & Hb) Hcfg].
  destruct (sectors (bank s) !! i) as [sec|] eqn:Hsec.
  - rewrite (mark_erased_done s i sec Hsec). simpl.
    split; [|done]. split; [done|]. split; [done|]. split; [done|].
    eapply marks_erased_trans; [done|apply marks_erased_bank_erased].
  - unfold mark_erased, bind, sector. by rewrite Hsec.
Qed.

(** The sector of the bank at hand and its counterpart in [b0] agree on
    everything but the erased mark. *)
Lemma kept_sector_allowed (s : state T) i sec :
  K s → sectors (bank s) !! i = Some sec → is_protected sec ≠ 1 →
  ok (RegWrite (erase_register (bank s)) (erase_value (bank s) sec)).
Proof.
  intros (_ & _ & _ & Hb) Hsec Hprot.
  destruct Hb as (Hbase & _ & _ & _ & Hall).
  destruct (Forall2_lookup_r _ _ _ _ _ Hall Hsec) as (sec0 & Hsec0 & Hrel).
  assert (offset sec = offset sec0 ∧ is_protected sec = is_protected sec0) as [Ho Hp].
  { by destruct Hrel as [->| ->]. }
  apply ok_sector. exists i, sec0. split; [done|]. split; [by rewrite <- Hp|].
  unfold erase_register, erase_value. by rewrite Hbase, Ho.
Qed.

Lemma kept_erase_page i : hoare K (nrf52_erase_page i) (fun _ => K) K.
Proof.
  unfold nrf52_erase_page.
  eapply hoare_bind; [by apply hoare_sector|]. intros sec.
  destruct (is_protected sec =? 1) eqn:Hprot.
  { apply hoare_ret. by intros s [? _]. }
  apply Z.eqb_neq in Hprot.
  eapply hoare_bind; [apply hoare_get_bank|]. intros b.
  eapply hoare_bind with (R := fun _ => K).
  - intros s [[Hk Hsec] ->].
    pose proof (kept_sector_allowed s i sec Hk Hsec Hprot) as Hok.
    unfold erase_register, erase_value in Hok.
    destruct (base (bank s) =? NRF52_UICR_BASE_ADDR);
      by apply kept_generic_erase.
  - intros res. eapply hoare_bind with (R := fun _ => K).
    + destruct (res =? ERROR_OK); [|by apply hoare_ret].
      apply hoare_any_mode. intros cfg.
      eapply hoare_weaken; [apply (kept_mark_erased cfg)|by intros ? ?|].
      by intros ? ? [? _].
    + intros ?. by apply hoare_ret.
Qed.

(** Programming: the word-by-word loop, the search for a buffer, and
    [nrf52_ll_flash_write], all in write mode. *)

Local Abbreviation Kw := (Kc (Some NRF52_NVMC_CONFIG_WEN)).

Lemma kept_ll_flash_write_slow fuel offset buffer bytes :
  hoare Kw (nrf52_ll_flash_write_slow fuel offset buffer bytes) (fun _ => Kw) K.
Proof.
  revert offset buffer bytes.
  induction fuel as [|fuel IH]; intros offset buffer bytes; simpl.
  { apply hoare_fail. by intros s [? _]. }
  destruct (bytes >? 0); [|by apply hoare_ret].
  eapply hoare_bind; [apply kept_write_memory|]. intros retval.
  destruct (negb (retval =? ERROR_OK)); [by apply hoare_ret|].
  eapply hoare_bind; [apply kept_wait|]. intros retval'.
  destruct (negb (retval' =? ERROR_OK)); [by apply hoare_ret|].
  apply IH.
Qed.

Lemma kept_ll_flash_write_source cfg fuel wa size :
  hoare (Kc cfg) (nrf52_ll_flash_write_source fuel wa size) (fun _ => Kc cfg) K.
Proof.
  revert size. induction fuel as [|fuel IH]; intros size; simpl.
  { apply hoare_fail. by intros s [? _]. }
  eapply hoare_bind; [apply kept_alloc|]. intros r.
  destruct (negb (r.1 =? ERROR_OK)); [|by apply hoare_ret].
  destruct (_ <=? 256); [|apply IH].
  eapply hoare_bind; [apply kept_free|]. intros ?. by apply hoare_ret.
Qed.

Lemma kept_ll_flash_write offset buffer bytes :
  hoare Kw (nrf52_ll_flash_write offset buffer bytes) (fun _ => Kw) K.
Proof.
  unfold nrf52_ll_flash_write.
  eapply hoare_bind; [apply hoare_assert; by intros s [? _]|]. intros ?.
  eapply hoare_bind with (R := fun _ => Kw).
  { eapply hoare_weaken; [apply kept_alloc|by intros ? [? _]|by intros ? ?]. }
  intros r. destruct (negb (r.1 =? ERROR_OK)); [apply kept_ll_flash_write_slow|].
  eapply hoare_bind; [apply kept_write_buffer|]. intros retval.
  destruct (negb (retval =? ERROR_OK)); [by apply hoare_ret|].
  eapply hoare_bind; [apply kept_ll_flash_write_source|]. intros [retval'|source].
  { by apply hoare_ret. }
  eapply hoare_bind; [apply kept_run|]. intros retval'.
  eapply hoare_bind; [apply kept_free|]. intros ?.
  eapply hoare_bind; [apply kept_free|]. intros ?.
  by apply hoare_ret.
Qed.

Lemma kept_read_only_any : hoare K nrf52_nvmc_read_only (fun _ => K) K.
Proof.
  apply hoare_any_mode. intros cfg.
  eapply hoare_weaken; [apply (kept_read_only cfg)|by intros ? ?|by intros ? ? [? _]].
Qed.

(** The tail shared by the two write strategies. *)
Lemma kept_program offset buffer bytes :
  hoare K
    (res <- nrf52_nvmc_write_enable ;;
     if negb (res =? ERROR_OK) then ret res else
     res <- nrf52_ll_flash_write offset buffer bytes ;;
     if negb (res =? ERROR_OK) then nrf52_nvmc_read_only ;; ret res
     else nrf52_nvmc_read_only)
    (fun _ => K) K.
Proof.
  apply hoare_any_mode. intros cfg.
  eapply hoare_bind; [apply kept_write_enable|]. intros res.
  destruct (negb (res =? ERROR_OK)) eqn:Hres.
  { apply hoare_ret. by intros s [? _]. }
  apply negb_false_iff, Z.eqb_eq in Hres.
  eapply hoare_bind with (R := fun _ => Kw).
  { eapply hoare_weaken; [apply kept_ll_flash_write| |by intros ? ?].
    intros s (Hk & Hcfg & _). split; [done|by apply Hcfg]. }
  intros res'. destruct (negb (res' =? ERROR_OK)).
  - eapply hoare_bind with (R := fun _ => K).
    + eapply hoare_weaken; [apply kept_read_only_any|by intros ? [? _]|done].
    + intros ?. by apply hoare_ret.
  - eapply hoare_weaken; [apply kept_read_only_any|by intros ? [? _]|done].
Qed.

Lemma kept_write_pages_erase fuel offset end_ :
  hoare K (nrf52_write_pages_erase fuel offset end_) (fun _ => K) K.
Proof.
  revert offset. induction fuel as [|fuel IH]; intros offset; simpl.
  { by apply hoare_fail. }
  destruct (offset <? end_); [|by apply hoare_ret].
  eapply hoare_bind; [apply hoare_get_bank|]. intros b.
  eapply hoare_bind; [apply hoare_get_chip|]. intros c.
  destruct (nrf52_find_sector_by_address b c offset) as [i|].
  2:{ destruct (sectors_missing b);
        [apply hoare_fail|apply hoare_ret]; by intros s [[? _] _]. }
  eapply hoare_bind with (R := fun _ => K).
  { eapply hoare_weaken;
      [apply (hoare_sector K K i); by intros ? ?|by intros s [[? _] _]|by intros ? ? [? _]]. }
  intros sec. destruct (is_protected sec =? 1); [by apply hoare_ret|].
  eapply hoare_bind with (R := fun _ => K).
  { destruct (negb (is_erased sec =? 1)); [apply kept_erase_page|by apply hoare_ret]. }
  intros res. destruct (negb (res =? ERROR_OK)); [by apply hoare_ret|].
  eapply hoare_bind with (R := fun _ => K); [|intros ?; apply IH].
  apply hoare_any_mode. intros cfg.
  eapply hoare_weaken; [apply (kept_mark_erased cfg)|by intros ? ?|by intros ? ? [? _]].
Qed.

Lemma kept_write_pages start end_ buffer :
  hoare K (nrf52_write_pages start end_ buffer) (fun _ => K) K.
Proof.
  unfold nrf52_write_pages.
  eapply hoare_bind; [apply hoare_get_chip|]. intros c.
  eapply hoare_bind with (R := fun _ => K).
  { destruct (code_page_size c =? 0);
      [apply hoare_fail; by intros s [? _]|apply hoare_ret; by intros s [? _]]. }
  intros ?.
  eapply hoare_bind; [by apply hoare_assert|]. intros ?.
  eapply hoare_bind; [apply hoare_assert; by intros s [? _]|]. intros ?.
  eapply hoare_bind with (R := fun _ => K).
  { eapply hoare_weaken; [apply kept_write_pages_erase|by intros s [[? _] _]|done]. }
  intros [|res]; [apply kept_program|by apply hoare_ret].
Qed.

Lemma kept_read_memory_any a sz n :
  hoare K (read_memory a sz n) (fun _ => K) K.
Proof.
  apply hoare_any_mode. intros cfg.
  eapply hoare_weaken; [apply (kept_read_memory cfg)|by intros ? ?|by intros ? ? [? _]].
Qed.

Lemma kept_code_flash_write buffer offset count :
  hoare K (nrf52_code_flash_write buffer offset count) (fun _ => K) K.
Proof.
  unfold nrf52_code_flash_write.
  eapply hoare_bind; [apply hoare_get_chip|]. intros c.
  eapply hoare_bind with (R := fun _ => K).
  { destruct (code_page_size c =? 0);
      [apply hoare_fail; by intros s [? _]|apply hoare_ret; by intros s [? _]]. }
  intros ?.
  eapply hoare_bind with (R := fun _ => K).
  { destruct (_ >? 0); [|by apply hoare_ret].
    eapply hoare_bind; [apply kept_read_memory_any|]. intros r.
    destruct (blit _ _ _ _); [by apply hoare_ret|by apply hoare_fail]. }
  intros filled. destruct (negb (filled.1 =? ERROR_OK)); [by apply hoare_ret|].
  destruct (blit _ _ _ _) as [buffer_to_flash|]; [|by apply hoare_fail].
  eapply hoare_bind with (R := fun _ => K).
  { destruct (_ >? 0); [|by apply hoare_ret].
    eapply hoare_bind; [apply kept_read_memory_any|]. intros r.
    destruct (blit _ _ _ _); [by apply hoare_ret|by apply hoare_fail]. }
  intros filled'. destruct (negb (filled'.1 =? ERROR_OK)); [by apply hoare_ret|].
  apply kept_write_pages.
Qed.

Lemma kept_uicr_flash_write buffer offset count :
  hoare K (nrf52_uicr_flash_write buffer offset count) (fun _ => K) K.
Proof.
  unfold nrf52_uicr_flash_write.
  eapply hoare_bind; [apply hoare_get_chip|]. intros c.
  destruct (_ >? _). { apply hoare_ret. by intros s [? _]. }
  eapply hoare_bind with (R := fun _ => K).
  { eapply hoare_weaken; [apply kept_read_memory_any|by intros s [? _]|done]. }
  intros r. destruct (negb (r.1 =? ERROR_OK)); [by apply hoare_ret|].
  eapply hoare_bind with (R := fun _ => K).
  { eapply hoare_weaken;
      [apply (hoare_sector K K 0); by intros ? ?|done|by intros ? ? [? _]]. }
  intros sec.
  eapply hoare_bind with (R := fun _ => K).
  { destruct (negb (is_erased sec =? 1)); [apply kept_erase_page|by apply hoare_ret]. }
  intros res. destruct (negb (res =? ERROR_OK)); [by apply hoare_ret|].
  destruct (blit _ _ _ _) as [uicr|]; [|by apply hoare_fail].
  apply kept_program.
Qed.

Lemma kept_write buffer offset count :
  hoare K (nrf52_write buffer offset count) (fun _ => K) K.
Proof.
  unfold nrf52_write.
  eapply hoare_bind; [apply hoare_get_bank|]. intros b.
  destruct (bank_number b =? 0);
    (eapply hoare_weaken;
       [first [apply kept_code_flash_write|apply kept_uicr_flash_write]
       |by intros s [? _]|done]).
Qed.

Lemma kept_erase_loop indices res :
  hoare K (nrf52_erase_loop indices res) (fun _ => K) K.
Proof.
  revert res. induction indices as [|i rest IH]; intros res; simpl.
  { by apply hoare_ret. }
  destruct (res =? ERROR_OK); [|by apply hoare_ret].
  eapply hoare_bind with (R := fun _ => K).
  { destruct (i <? 0); [by apply hoare_fail|by apply hoare_ret]. }
  intros ?. eapply hoare_bind; [apply kept_erase_page|]. intros res'. apply IH.
Qed.

Lemma kept_erase first last :
  hoare K (nrf52_erase first last) (fun _ => K) K.
Proof. apply kept_erase_loop. Qed.

End Kept.

(** ** Probing *)

(** A probe reads the two identity registers and allocates the sector
    array; see [nrf52_probe]. *)
Lemma probe_quiet (s : state T) :
  mode_respected (trace (final (nrf52_probe s))) = mode_respected (trace s) ∧
  effects (trace (final (nrf52_probe s))) = effects (trace s) ∧
  nvmc_config (trace (final (nrf52_probe s))) = nvmc_config (trace s) ∧
  base (bank (final (nrf52_probe s))) = base (bank s) ∧
  bank_number (bank (final (nrf52_probe s))) = bank_number (bank s).
Proof.
  unfold nrf52_probe, bind, read_u32, get_chip, put_chip, get_bank, put_bank,
    alloc_sectors, nrf52_protect_check, ret, fail; simpl.
  destruct (target_read_u32 NRF52_FICR_CODEPAGESIZE_ADDR (target s))
    as [[r1 v1] t1]; simpl.
  destruct (r1 =? ERROR_OK); simpl; [|by rewrite andb_true_r].
  destruct (target_read_u32 NRF52_FICR_CODESIZE_ADDR t1) as [[r2 v2] t2]; simpl.
  destruct (r2 =? ERROR_OK); simpl; [|by rewrite !andb_true_r].
  destruct (base (bank s) =? NRF52_FLASH_BASE_ADDR); simpl.
  - destruct (wrap32 v1 =? 0); simpl; [by rewrite !andb_true_r|].
    destruct (_ <? 0); simpl; [by rewrite !andb_true_r|].
    destruct (calloc _ t2) as [[|] t3]; simpl; by rewrite !andb_true_r.
  - destruct (calloc 1 t2) as [[|] t3]; simpl; by rewrite !andb_true_r.
Qed.

Lemma auto_probe_quiet (s : state T) :
  mode_respected (trace (final (nrf52_auto_probe s))) = mode_respected (trace s) ∧
  effects (trace (final (nrf52_auto_probe s))) = effects (trace s) ∧
  nvmc_config (trace (final (nrf52_auto_probe s))) = nvmc_config (trace s) ∧
  base (bank (final (nrf52_auto_probe s))) = base (bank s) ∧
  bank_number (bank (final (nrf52_auto_probe s))) = bank_number (bank s).
Proof.
  unfold nrf52_auto_probe, nrf52_bank_is_probed, bind, get_bank, get_chip, ret.
  destruct (negb _); [apply probe_quiet|done].
Qed.

(** ** What every operation keeps *)

Lemma hoare_final {A} (P Q : state T → Prop) (m : M T A) (s : state T) :
  hoare P m (fun _ => Q) Q → P s → Q (final (m s)).
Proof. intros H Hs. specialize (H s Hs). by destruct (m s). Qed.

Lemma kept_start (s : state T) ok : kept (trace s) ok (chip s) (bank s) s.
Proof.
  split; [done|]. split; [|split; [done|apply marks_erased_refl]].
  exists []. by rewrite app_nil_r.
Qed.

Lemma kept_erase_all tr0 ok c0 b0 :
  ok (RegWrite NRF52_NVMC_ERASEALL_ADDR 1) →
  hoare (kept tr0 ok c0 b0) nrf52_erase_all (fun _ => kept tr0 ok c0 b0)
        (kept tr0 ok c0 b0).
Proof. intros Hok. unfold nrf52_erase_all. by apply kept_generic_erase. Qed.

(** X1. Whatever the target answers, every operation listed in
    [driver_entry] respects the controller's modes: if up to now each erase
    trigger was written with erasing enabled and each submission of data
    was made with writing enabled, as last acknowledged by the controller,
    this still holds when the operation ends, whether it succeeds, fails or
    stops. *)
Theorem entries_respect_modes (e : driver_entry) (s : state T) :
  mode_respected (trace s) = true →
  mode_respected (trace (final (run_entry e s))) = true.
Proof.
  intros Hm.
  assert (∀ m : M T Z,
    hoare (kept (trace s) (fun _ => True) (chip s) (bank s)) m
          (fun _ => kept (trace s) (fun _ => True) (chip s) (bank s))
          (kept (trace s) (fun _ => True) (chip s) (bank s)) →
    mode_respected (trace (final (m s))) = true) as Hkept.
  { intros m H. by apply (hoare_final _ _ m s H (kept_start s _)). }
  destruct e as [first last|set first last|buffer offset count| | | |]; simpl.
  - by apply Hkept, kept_erase.
  - done.
  - by apply Hkept, kept_write.
  - by rewrite (proj1 (probe_quiet s)).
  - by rewrite (proj1 (auto_probe_quiet s)).
  - done.
  - by apply Hkept, kept_erase_all.
Qed.

(** X2. Erasing and writing never change the chip descriptor, nor the
    base, size, number or sector count of the bank; in the sector array
    they change nothing but erased marks, which they only ever set: every
    sector keeps its offset, size and protection state.  This holds
    however the operation ends. *)
Theorem erase_and_write_keep_bookkeeping (s : state T) :
  (∀ first last,
     chip (final (nrf52_erase first last s)) = chip s ∧
     marks_erased (bank s) (bank (final (nrf52_erase first last s)))) ∧
  (∀ buffer offset count,
     chip (final (nrf52_write buffer offset count s)) = chip s ∧
     marks_erased (bank s) (bank (final (nrf52_write buffer offset count s)))).
Proof.
  split.
  - intros first last.
    apply (hoare_final _ _ _ s
             (kept_erase (trace s) (fun _ => True) (chip s) (bank s)
                (fun _ _ => I) first last) (kept_start s _)).
  - intros buffer offset count.
    apply (hoare_final _ _ _ s
             (kept_write (trace s) (fun _ => True) (chip s) (bank s)
                (fun _ _ => I) (fun _ _ _ => I) (fun _ => I) buffer offset count)
             (kept_start s _)).
Qed.

(** X3. However it ends, [nrf52_erase] makes no flash-relevant call but
    writes of the erase trigger of sectors of its bank whose protection
    state is not 1: it never triggers the erasure of a protected sector,
    never reads target memory and never submits data for programming. *)
Theorem erase_only_triggers_unprotected (s : state T) (first last : Z) :
  ∃ added,
    effects (trace (final (nrf52_erase first last s))) = effects (trace s) ++ added ∧
    Forall (unprotected_trigger (bank s)) added.
Proof.
  apply (hoare_final _ _ _ s
           (kept_erase (trace s) (unprotected_trigger (bank s)) (chip s) (bank s)
              (fun _ H => H) first last) (kept_start s (unprotected_trigger (bank s)))).
Qed.

(** X4. However it ends, [nrf52_write] writes no register other than the
    mode register and the erase trigger of sectors of its bank whose
    protection state is not 1: a write never triggers the erasure of a
    protected sector, nor a mass erase. *)
Theorem write_only_triggers_unprotected (s : state T) (buffer : list Z)
    (offset count : Z) :
  ∃ added,
    effects (trace (final (nrf52_write buffer offset count s)))
      = effects (trace s) ++ added ∧
    Forall (fun e => match e with
                     | RegWrite _ _ => unprotected_trigger (bank s) e
                     | _ => True
                     end) added.
Proof.
  pose (ok := fun e => match e with
                      | RegWrite _ _ => unprotected_trigger (bank s) e
                      | _ => True
                      end).
  assert (∀ e, unprotected_trigger (bank s) e → ok e) as Hok.
  { intros e He. pose proof He as (i & sec & _ & _ & ->). exact He. }
  apply (hoare_final _ _ _ s
           (kept_write (trace s) ok (chip s) (bank s) Hok
              (fun _ _ _ => I) (fun _ => I) buffer offset count)
           (kept_start s _)).
Qed.

(** ** The ready-wait *)

Lemma wait_for_nvmc_loop_bounded n (s : state T) :
  ∃ res s' (polls sleeps : nat),
    nrf52_wait_for_nvmc_loop n s = Done res s' ∧
    count_reads NRF52_NVMC_READY_ADDR (trace s') =
      (count_reads NRF52_NVMC_READY_ADDR (trace s) + polls)%nat ∧
    count_sleeps (trace s') = (count_sleeps (trace s) + sleeps)%nat ∧
    (1 ≤ polls ≤ S n)%nat ∧
    (S sleeps = polls ∨ sleeps = polls ∧ polls = S n ∧ res = ERROR_FLASH_BUSY).
Proof.
  revert s. induction n as [|n IH]; intros s; simpl;
    unfold bind, read_u32;
    destruct (target_read_u32 _ _) as [[res v] t'];
    simpl; destruct (res =? ERROR_OK); simpl;
    try destruct (wrap32 v =? NRF52_NVMC_READY); simpl;
    try (eexists _, _, 1%nat, 0%nat; split; [reflexivity|]; simpl;
         rewrite ?Z.eqb_refl; repeat split; lia).
  - eexists _, _, 1%nat, 1%nat. split; [reflexivity|]. simpl.
    rewrite ?Z.eqb_refl. split; [lia|]. split; [lia|]. split; [lia|]. by right.
  - edestruct IH as (r & s' & polls & sleeps & -> & Hr & Hs & Hb & Hcase).
    eexists _, _, (S polls), (S sleeps). split; [reflexivity|].
    rewrite Hr, Hs. simpl. rewrite ?Z.eqb_refl.
    split; [lia|]. split; [lia|]. split; [lia|].
    destruct Hcase as [?|(?&?&?)]; [left; lia|right; repeat split; [lia..|done]].
Qed.

(** X5. Whatever the target answers, the wait for the controller returns
    after at least one and at most 101 reads of the ready register, with a
    sleep after every read except possibly the last; it sleeps after the
    last read only when all 101 reads found the controller busy, and the
    result is then the busy code.  It changes neither the driver's records
    nor the mode, and makes no other flash-relevant call. *)
Theorem wait_for_nvmc_bounded (s : state T) :
  ∃ res s' (polls sleeps : nat),
    nrf52_wait_for_nvmc s = Done res s' ∧
    count_reads NRF52_NVMC_READY_ADDR (trace s') =
      (count_reads NRF52_NVMC_READY_ADDR (trace s) + polls)%nat ∧
    count_sleeps (trace s') = (count_sleeps (trace s) + sleeps)%nat ∧
    (1 ≤ polls ≤ 101)%nat ∧
    (S sleeps = polls ∨ sleeps = polls ∧ polls = 101%nat ∧ res = ERROR_FLASH_BUSY) ∧
    (res = ERROR_OK → S sleeps = polls) ∧
    unchanged s s' ∧ nvmc_config (trace s') = nvmc_config (trace s).
Proof.
  destruct (wait_for_nvmc_loop_bounded 100 s)
    as (res & s' & polls & sleeps & Hrun & Hr & Hs & Hb & Hcase).
  destruct (wait_for_nvmc_returns s) as (res' & s'' & Hrun' & Hu & Hc).
  unfold nrf52_wait_for_nvmc in *. rewrite Hrun in Hrun'.
  injection Hrun' as <- <-.
  exists res, s', polls, sleeps. repeat (split; [done|]). split; [|done].
  intros ->. destruct Hcase as [?|(_ & _ & Hbad)]; [done|].
  by destruct ERROR_FLASH_BUSY_not_ok.
Qed.

(** ** Sectors on the page grid *)

Lemma probed_layout_grid b page_size : probed_layout b page_size → sector_grid b page_size.
Proof. intros [Hn Hl]. split; [done|]. intros i sec Hi. by apply Hl in Hi as [? _]. Qed.

Lemma sector_grid_marks_erased b b' page_size :
  marks_erased b b' → sector_grid b page_size → sector_grid b' page_size.
Proof.
  intros (_ & _ & Hn & _ & Hall) [Hlen Hoff]. split.
  - rewrite Hn, Hlen. by rewrite (Forall2_length Hall).
  - intros i sec' Hi.
    destruct (Forall2_lookup_r _ _ _ _ _ Hall Hi) as (sec & Hsec & Hrel).
    rewrite <- (Hoff i sec Hsec). by destruct Hrel as [->| ->].
Qed.

Lemma grid_sector_bounds b page_size (i : nat) :
  sector_grid b page_size → 0 < page_size → num_sectors b * page_size < 2 ^ 32 →
  (i < length (sectors b))%nat →
  0 ≤ Z.of_nat i * page_size ∧
  wrap32 (Z.of_nat i * page_size + page_size) = (Z.of_nat i + 1) * page_size ∧
  (Z.of_nat i + 1) * page_size ≤ num_sectors b * page_size.
Proof.
  intros [Hn _] Hp Hlt Hi.
  assert ((Z.of_nat i + 1) * page_size ≤ num_sectors b * page_size)
    by (apply Z.mul_le_mono_nonneg_r; lia).
  assert (0 ≤ Z.of_nat i * page_size) by (apply Z.mul_nonneg_nonneg; lia).
  split; [done|]. split; [|done]. rewrite wrap32_small; lia.
Qed.

Lemma find_sector_grid b c a :
  sector_grid b (code_page_size c) → 0 < code_page_size c →
  num_sectors b * code_page_size c < 2 ^ 32 →
  0 ≤ a < num_sectors b * code_page_size c →
  nrf52_find_sector_by_address b c a = Some (Z.to_nat (a / code_page_size c)).
Proof.
  intros Hgrid Hp Hlt [Ha0 Ha1]. pose proof Hgrid as [Hn Hoff].
  assert (0 ≤ a / code_page_size c) as Hq0 by (apply Z.div_pos; lia).
  assert (a / code_page_size c < num_sectors b) as Hq
    by (apply Z.div_lt_upper_bound; lia).
  destruct (lookup_lt_is_Some_2 (sectors b) (Z.to_nat (a / code_page_size c)))
    as [sec Hi]; [lia|].
  unfold nrf52_find_sector_by_address. rewrite take_ge by lia.
  assert (list_find (sector_contains (code_page_size c) a) (sectors b)
          = Some (Z.to_nat (a / code_page_size c), sec)) as ->; [|done].
  apply list_find_Some. split; [done|].
  pose proof (Z.mul_div_le a (code_page_size c) Hp).
  pose proof (Z.mul_succ_div_gt a (code_page_size c) Hp).
  split.
  - unfold sector_contains. rewrite (Hoff _ _ Hi).
    destruct (grid_sector_bounds b (code_page_size c)
                (Z.to_nat (a / code_page_size c)) Hgrid Hp Hlt) as (_ & -> & _);
      [lia|].
    rewrite Z2Nat.id by done. lia.
  - intros j sec' Hj Hlt' [_ Hc]. rewrite (Hoff _ _ Hj) in Hc.
    destruct (grid_sector_bounds b (code_page_size c) j Hgrid Hp Hlt) as (_ & Hw & _).
    { by apply lookup_lt_Some in Hj. }
    rewrite Hw in Hc.
    assert ((Z.of_nat j + 1) * code_page_size c
            ≤ a / code_page_size c * code_page_size c)
      by (apply Z.mul_le_mono_nonneg_r; lia).
    lia.
Qed.

Lemma find_sector_grid_none b c a :
  sector_grid b (code_page_size c) → 0 < code_page_size c →
  num_sectors b * code_page_size c < 2 ^ 32 →
  num_sectors b * code_page_size c ≤ a →
  nrf52_find_sector_by_address b c a = None.
Proof.
  intros Hgrid Hp Hlt Ha. pose proof Hgrid as [Hn Hoff].
  unfold nrf52_find_sector_by_address.
  assert (list_find (sector_contains (code_page_size c) a)
            (take (Z.to_nat (num_sectors b)) (sectors b)) = None) as ->; [|done].
  apply list_find_None, list.Forall_forall. intros sec Hin [_ Hc].
  apply elem_of_take in Hin as (j & Hj & _).
  rewrite (Hoff _ _ Hj) in Hc.
  destruct (grid_sector_bounds b (code_page_size c) j Hgrid Hp Hlt) as (_ & Hw & ?).
  { by apply lookup_lt_Some in Hj. }
  rewrite Hw in Hc. lia.
Qed.

(** X6. In a bank whose sectors lie on the page grid (sector [i] at offset
    [i] times the page size, as a probe lays them out) and end below 2^32,
    the sector found for an address is the one numbered by the quotient of
    the address by the page size, and none is found from the end of the
    last sector on. *)
Theorem find_sector_by_address_index (b : flash_bank) (c : nrf52_info) (a : Z) :
  sector_grid b (code_page_size c) → 0 < code_page_size c →
  num_sectors b * code_page_size c < 2 ^ 32 → 0 ≤ a →
  nrf52_find_sector_by_address b c a =
    if decide (a < num_sectors b * code_page_size c)
    then Some (Z.to_nat (a / code_page_size c)) else None.
Proof.
  intros Hgrid Hp Hlt Ha. case_decide.
  - by apply find_sector_grid.
  - apply find_sector_grid_none; [done..|lia].
Qed.

(** ** nrf52_erase *)

Lemma erase_page_protected (s : state T) i sec :
  sectors (bank s) !! i = Some sec → is_protected sec = 1 →
  nrf52_erase_page i s = Done ERROR_FAIL s.
Proof.
  intros Hi Hp. unfold nrf52_erase_page, bind, sector. by rewrite Hi, Hp.
Qed.

Lemma erase_loop_stops indices res (s : state T) :
  res ≠ ERROR_OK → nrf52_erase_loop indices res s = Done res s.
Proof. intros Hr%Z.eqb_neq. destruct indices; simpl; [done|]. by rewrite Hr. Qed.

Lemma sector_trigger_bank_erased k b i :
  sector_trigger (bank_erased k b) i = sector_trigger b i.
Proof.
  unfold sector_trigger.
  rewrite erase_register_bank_erased.
  destruct (decide (k = Z.to_nat i)) as [->|Hne].
  - destruct (sectors b !! Z.to_nat i) as [sec|] eqn:Hi.
    + rewrite (bank_erased_lookup _ _ _ Hi). simpl.
      by rewrite erase_value_bank_erased.
    + unfold bank_erased. by rewrite Hi, Hi.
  - rewrite bank_erased_lookup_ne by done.
    destruct (sectors b !! Z.to_nat i); simpl; [|done].
    by rewrite erase_value_bank_erased.
Qed.

Lemma omap_pointwise {A B} (f g : A → option B) (l : list A) :
  (∀ x, f x = g x) → omap f l = omap g l.
Proof. intros H. induction l as [|x l IH]; csimpl; [done|]. by rewrite H, IH. Qed.

Lemma erase_loop_ok indices (s s' : state T) :
  Forall (fun i => 0 ≤ i) indices →
  nrf52_erase_loop indices ERROR_OK s = Done ERROR_OK s' →
  chip s' = chip s ∧ marks_erased (bank s) (bank s') ∧
  effects (trace s') = effects (trace s) ++ omap (sector_trigger (bank s)) indices ∧
  (∀ i, i ∈ indices →
     ∃ sec, sectors (bank s) !! Z.to_nat i = Some sec ∧ is_protected sec ≠ 1 ∧
            sectors (bank s') !! Z.to_nat i = Some (set_is_erased 1 sec)) ∧
  (∀ j : nat, Z.of_nat j ∉ indices → sectors (bank s') !! j = sectors (bank s) !! j) ∧
  (indices ≠ [] → nvmc_config (trace s') = Some NRF52_NVMC_CONFIG_REN).
Proof.
  intros Hpos. revert s. induction Hpos as [|i rest Hi Hrest IH]; intros s; simpl.
  { intros [= <-]. split; [done|]. split; [apply marks_erased_refl|].
    split; [by rewrite app_nil_r|]. split; [by intros i ?%elem_of_nil|done]. }
  rewrite eqb_ok_refl.
  destruct (i <? 0) eqn:Hneg; [apply Z.ltb_lt in Hneg; lia|].
  unfold bind at 1, ret. unfold bind at 1.
  destruct (nrf52_erase_page (Z.to_nat i) s) as [res s1|] eqn:Hep; [|done].
  destruct (decide (res = ERROR_OK)) as [->|Hres].
  2:{ rewrite erase_loop_stops by done. by intros [= ? _]. }
  intros Hloop.
  destruct (erase_page_ok _ _ _ Hep) as (sec & Hsec & Hc1 & Hb1 & He1 & Hm1).
  assert (is_protected sec ≠ 1) as Hprot.
  { intros Hp. rewrite (erase_page_protected s _ sec Hsec Hp) in Hep.
    injection Hep as Hbad _. by destruct ERROR_FAIL_not_ok. }
  destruct (IH s1 Hloop) as (Hc & Hb & He & Hin & Hout & Hm).
  split; [congruence|].
  assert (marks_erased (bank s) (bank s1)) as Hb01.
  { rewrite Hb1. apply marks_erased_bank_erased. }
  split; [by eapply marks_erased_trans|].
  split.
  { rewrite He, He1, <- app_assoc. f_equal. simpl.
    unfold sector_trigger at 2. rewrite Hsec. simpl. f_equal.
    apply omap_pointwise. intros j. rewrite Hb1. apply sector_trigger_bank_erased. }
  assert (sectors (bank s1) !! Z.to_nat i = Some (set_is_erased 1 sec)) as Hsec1.
  { rewrite Hb1. by apply bank_erased_lookup. }
  split; [|split].
  - intros j [->|Hj]%elem_of_cons.
    + exists sec. split; [done|]. split; [done|].
      destruct (marks_erased_lookup _ _ _ _ Hb Hsec1) as (sec' & -> & [->| ->]); done.
    + destruct (Hin j Hj) as (sec1 & Hj1 & Hp1 & Hj').
      destruct (decide (Z.to_nat i = Z.to_nat j)) as [Heq|Hne].
      * rewrite <- Heq in *. exists sec.
        assert (sec1 = set_is_erased 1 sec) as -> by congruence.
        by rewrite Hj'.
      * exists sec1. rewrite Hb1, bank_erased_lookup_ne in Hj1 by done. done.
  - intros j Hj%not_elem_of_cons. destruct Hj as [Hji Hj].
    rewrite (Hout j Hj), Hb1. apply bank_erased_lookup_ne. lia.
  - intros _. destruct rest as [|i' rest]; [|by apply Hm].
    simpl in Hloop. injection Hloop as <-. done.
Qed.

Lemma sector_triggers_range b first (n : nat) :
  0 ≤ first →
  (∀ i, i ∈ seqZ first (Z.of_nat n) → is_Some (sectors b !! Z.to_nat i)) →
  omap (sector_trigger b) (seqZ first (Z.of_nat n)) =
    RegWrite (erase_register b) <$>
      (erase_value b <$> take n (drop (Z.to_nat first) (sectors b))).
Proof.
  revert first. induction n as [|n IH]; intros first Hf Hall.
  { by rewrite take_0. }
  rewrite Nat2Z.inj_succ, seqZ_cons by lia. simpl.
  destruct (Hall first) as [sec Hsec].
  { apply elem_of_seqZ. lia. }
  unfold sector_trigger at 1. rewrite Hsec. simpl.
  rewrite (drop_S _ _ _ Hsec). simpl. f_equal.
  replace (Z.pred (Z.succ (Z.of_nat n))) with (Z.of_nat n) by lia.
  rewrite IH.
  - by replace (Z.to_nat (Z.succ first)) with (S (Z.to_nat first)) by lia.
  - lia.
  - intros i Hi. apply Hall. apply elem_of_seqZ in Hi. apply elem_of_seqZ. lia.
Qed.

(** X7. When [nrf52_erase] reports success for sectors [first] to [last],
    it has written the erase trigger of each of these sectors once, in
    order of the sectors and whatever their erased marks said (a sector
    already marked erased is erased again), has submitted no data for
    programming and read no target memory; for a non-empty range the mode
    last acknowledged is read-only, and for an empty one ([last] below
    [first]) nothing was done at all. *)
Theorem erase_range_ok (s s' : state T) (first last : Z) :
  0 ≤ first →
  nrf52_erase first last s = Done ERROR_OK s' →
  erase_triggers (erase_register (bank s)) (trace s') =
    erase_triggers (erase_register (bank s)) (trace s) ++
    (erase_value (bank s) <$>
       take (Z.to_nat (last - first + 1)) (drop (Z.to_nat first) (sectors (bank s)))) ∧
  Z.of_nat (length (take (Z.to_nat (last - first + 1))
                      (drop (Z.to_nat first) (sectors (bank s)))))
    = Z.max 0 (last - first + 1) ∧
  flash_data (trace s') = flash_data (trace s) ∧
  memory_reads (trace s') = memory_reads (trace s) ∧
  (first ≤ last → nvmc_config (trace s') = Some NRF52_NVMC_CONFIG_REN) ∧
  (last < first → s' = s).
Proof.
  intros Hf Hrun. unfold nrf52_erase in Hrun.
  assert (Forall (fun i => 0 ≤ i) (seqZ first (last - first + 1))) as Hpos.
  { apply list.Forall_forall. intros i Hi%elem_of_seqZ. lia. }
  destruct (erase_loop_ok _ _ _ Hpos Hrun) as (Hc & Hb & He & Hin & _ & Hm).
  assert (omap (sector_trigger (bank s)) (seqZ first (last - first + 1)) =
          RegWrite (erase_register (bank s)) <$>
            (erase_value (bank s) <$>
               take (Z.to_nat (last - first + 1))
                    (drop (Z.to_nat first) (sectors (bank s))))) as Htrig.
  { destruct (decide (0 ≤ last - first + 1)) as [Hn|Hn].
    - rewrite <- (Z2Nat.id (last - first + 1)) at 1 by done.
      apply sector_triggers_range; [done|].
      rewrite Z2Nat.id by done. intros i Hi.
      destruct (Hin i Hi) as (sec & -> & _). by eexists.
    - rewrite seqZ_nil by lia. by replace (Z.to_nat (last - first + 1)) with 0%nat by lia. }
  rewrite Htrig in He.
  pose proof (config_is_no_erase_register (bank s)) as Hreg.
  split; [|split; [|split; [|split; [|split]]]].
  - rewrite !erase_triggers_effects, He, omap_app, fmap_triggers by done. done.
  - rewrite length_take, length_drop.
    destruct (decide (first ≤ last)) as [Hle|Hgt]; [|lia].
    destruct (Hin last) as (sec & Hsec & _); [apply elem_of_seqZ; lia|].
    apply lookup_lt_Some in Hsec. lia.
  - rewrite !flash_data_effects, He, bind_app, fmap_triggers_no_data.
    by rewrite app_nil_r.
  - rewrite !memory_reads_effects, He, omap_app, fmap_triggers_no_reads.
    by rewrite app_nil_r.
  - intros Hle. apply Hm. intros Hnil.
    assert (first ∈ seqZ first (last - first + 1)) as Hin' by (apply elem_of_seqZ; lia).
    rewrite Hnil in Hin'. by apply elem_of_nil in Hin'.
  - intros Hlt. rewrite seqZ_nil in Hrun by lia. simpl in Hrun. by injection Hrun.
Qed.

(** X8. [nrf52_erase] reports success only if every index from [first]
    to [last] is a sector of the bank whose protection state is not 1;
    these sectors are then all marked erased, and every other sector is as
    it was. *)
Theorem erase_range_marks (s s' : state T) (first last : Z) :
  0 ≤ first →
  nrf52_erase first last s = Done ERROR_OK s' →
  (∀ i : nat, first ≤ Z.of_nat i ≤ last →
     ∃ sec, sectors (bank s) !! i = Some sec ∧ is_protected sec ≠ 1 ∧
            sectors (bank s') !! i = Some (set_is_erased 1 sec)) ∧
  (∀ i : nat, ¬ (first ≤ Z.of_nat i ≤ last) →
     sectors (bank s') !! i = sectors (bank s) !! i) ∧
  chip s' = chip s.
Proof.
  intros Hf Hrun. unfold nrf52_erase in Hrun.
  assert (Forall (fun i => 0 ≤ i) (seqZ first (last - first + 1))) as Hpos.
  { apply list.Forall_forall. intros i Hi%elem_of_seqZ. lia. }
  destruct (erase_loop_ok _ _ _ Hpos Hrun) as (Hc & _ & _ & Hin & Hout & _).
  split; [|split; [|done]].
  - intros i Hi. destruct (Hin (Z.of_nat i)) as (sec & Hsec & Hp & Hsec').
    { apply elem_of_seqZ. lia. }
    rewrite Nat2Z.id in *. by exists sec.
  - intros i Hi. apply Hout. intros Hin'%elem_of_seqZ. lia.
Qed.

(** ** The page writer *)

Lemma hoare_done {A} (P F : state T → Prop) (Q : A → state T → Prop)
    (m : M T A) (s s' : state T) a :
  hoare P m Q F → P s → m s = Done a s' → Q a s'.
Proof. intros H Hs Hrun. specialize (H s Hs). by rewrite Hrun in H. Qed.

Lemma set_is_erased_id sec : is_erased sec = 1 → set_is_erased 1 sec = sec.
Proof. destruct sec. simpl. by intros ->. Qed.

Lemma bank_erased_id i b sec :
  sectors b !! i = Some sec → is_erased sec = 1 → bank_erased i b = b.
Proof.
  intros Hi He. unfold bank_erased. rewrite Hi, set_is_erased_id by done.
  rewrite list_insert_id by done. by destruct b.
Qed.

Lemma lookup_bank_erased_inv i b j sec' :
  sectors (bank_erased i b) !! j = Some sec' →
  ∃ sec, sectors b !! j = Some sec ∧ is_protected sec = is_protected sec' ∧
         (is_erased sec = 1 → is_erased sec' = 1).
Proof.
  intros Hj. destruct (decide (i = j)) as [->|Hne].
  - destruct (sectors b !! j) as [sec|] eqn:Hsec.
    + rewrite (bank_erased_lookup _ _ _ Hsec) in Hj. injection Hj as <-.
      by exists sec.
    + unfold bank_erased in Hj. rewrite Hsec in Hj. congruence.
  - rewrite bank_erased_lookup_ne in Hj by done. by exists sec'.
Qed.

(** A completed erase loop found, for each page, a sector that is not
    protected. *)
Lemma write_pages_erase_unprotected fuel (s s1 : state T) o e :
  nrf52_write_pages_erase fuel o e s = Done Completed s1 →
  ∀ p, p ∈ loop_pages fuel o e (code_page_size (chip s)) →
    ∃ i sec, nrf52_find_sector_by_address (bank s) (chip s) p = Some i ∧
             sectors (bank s) !! i = Some sec ∧ is_protected sec ≠ 1.
Proof.
  revert s o. induction fuel as [|fuel IH]; intros s o; [done|].
  simpl. destruct (o <? e) eqn:Hoe.
  2:{ intros _ p Hp. by apply elem_of_nil in Hp. }
  unfold bind at 1, get_bank. unfold bind at 1, get_chip.
  destruct (nrf52_find_sector_by_address (bank s) (chip s) o) as [i|] eqn:Hf; [|by destruct (sectors_missing (bank s))].
  unfold bind at 1, sector.
  destruct (sectors (bank s) !! i) as [sec|] eqn:Hi; [|done].
  destruct (is_protected sec =? 1) eqn:Hprot; [done|]. apply Z.eqb_neq in Hprot.
  intros Hrun. apply (erase_if_stale _ _ _ _ _ Hi) in Hrun
    as (s_mid & Hk & Hc & Hb & _).
  intros p [->|Hin]%elem_of_cons.
  { by exists i, sec. }
  rewrite <- Hc in Hin, Hk.
  destruct (IH _ _ Hk p Hin) as (i' & sec' & Hf' & Hi' & Hp').
  rewrite Hb, Hc in Hf'.
  rewrite (find_sector_marks_erased (bank s)) in Hf'
    by apply marks_erased_bank_erased.
  rewrite Hb in Hi'.
  destruct (lookup_bank_erased_inv _ _ _ _ Hi') as (sec0 & Hi0 & Hp0 & _).
  exists i', sec0. split; [done|]. split; [done|]. by rewrite Hp0.
Qed.

(** Where every page already has its sector marked erased, the erase loop
    does nothing. *)
Lemma write_pages_erase_noop fuel (s : state T) o e :
  (∀ p i sec, p ∈ loop_pages fuel o e (code_page_size (chip s)) →
     nrf52_find_sector_by_address (bank s) (chip s) p = Some i →
     sectors (bank s) !! i = Some sec → is_erased sec = 1) →
  final (nrf52_write_pages_erase fuel o e s) = s.
Proof.
  revert o. induction fuel as [|fuel IH]; intros o Hall; [done|].
  simpl in *. destruct (o <? e) eqn:Hoe; [|done].
  unfold bind at 1, get_bank. unfold bind at 1, get_chip.
  destruct (nrf52_find_sector_by_address (bank s) (chip s) o) as [i|] eqn:Hf; [|by destruct (sectors_missing (bank s))].
  unfold bind at 1, sector.
  destruct (sectors (bank s) !! i) as [sec|] eqn:Hi; [|done].
  destruct (is_protected sec =? 1); [done|].
  rewrite (Hall o i sec) by (done || apply elem_of_cons; by left).
  simpl. unfold bind at 1, ret at 1. rewrite eqb_ok_refl. simpl.
  unfold bind. rewrite (mark_erased_done s i sec Hi).
  rewrite (bank_erased_id i (bank s) sec Hi)
    by (apply (Hall o i sec); [apply elem_of_cons; by left|done..]).
  replace {| chip := chip s; bank := bank s; target := target s; trace := trace s |}
    with s by (by destruct s).
  apply IH. intros p i' sec' Hin. apply Hall. apply elem_of_cons. by right.
Qed.

(** The calls of the programming tail of the two write strategies. *)
Lemma program_tail_effects (s : state T) offset buffer bytes :
  let tail : M T Z :=
    (res <- nrf52_nvmc_write_enable ;;
     if negb (res =? ERROR_OK) then ret res else
     res <- nrf52_ll_flash_write offset buffer bytes ;;
     if negb (res =? ERROR_OK) then nrf52_nvmc_read_only ;; ret res
     else nrf52_nvmc_read_only) in
  (∃ effs, effects (trace (final (tail s))) = effects (trace s) ++ effs ∧
           Forall is_program effs) ∧
  chip (final (tail s)) = chip s ∧ marks_erased (bank s) (bank (final (tail s))).
Proof.
  intros tail.
  destruct (hoare_final _ _ tail s
              (kept_program (trace s) is_program (chip s) (bank s)
                 (fun _ => I) offset buffer bytes)
              (kept_start s is_program)) as (_ & Heff & Hc & Hb).
  done.
Qed.

Lemma write_pages_no_erase (s : state T) start end_ buffer :
  (start mod code_page_size (chip s) = 0 → end_ mod code_page_size (chip s) = 0 →
   ∀ p i sec,
     p ∈ loop_pages (S (Z.to_nat (end_ / code_page_size (chip s)))) start end_
           (code_page_size (chip s)) →
     nrf52_find_sector_by_address (bank s) (chip s) p = Some i →
     sectors (bank s) !! i = Some sec → is_erased sec = 1) →
  ∃ effs,
    effects (trace (final (nrf52_write_pages start end_ buffer s)))
      = effects (trace s) ++ effs ∧
    Forall is_program effs.
Proof.
  intros Hall.
  assert (∃ effs, effects (trace s) = effects (trace s) ++ effs ∧
                  Forall is_program effs) as Hnone.
  { exists []. by rewrite app_nil_r. }
  unfold nrf52_write_pages, bind at 1, get_chip.
  destruct (code_page_size (chip s) =? 0); [done|].
  unfold bind at 1, ret.
  destruct (start mod code_page_size (chip s) =? 0) eqn:Hsm; [|done].
  destruct (end_ mod code_page_size (chip s) =? 0) eqn:Hem; [|done].
  apply Z.eqb_eq in Hsm, Hem.
  unfold assert, bind at 1, ret. unfold bind at 1. unfold bind at 1.
  pose proof (write_pages_erase_noop _ s start end_ (Hall Hsm Hem)) as Hloop.
  destruct (nrf52_write_pages_erase _ _ _ _) as [[|res] s1|f s1];
    simpl in Hloop; subst s1; [|done..].
  apply program_tail_effects.
Qed.

(** X9. After a successful [nrf52_write_pages], the sectors of the pages
    written are still marked erased although they now hold data: writing
    the same pages again, with whatever buffer and however the second
    write ends, erases nothing, and makes no flash-relevant call besides
    submitting data for programming. *)
Theorem write_pages_twice_erases_once (s s1 : state T) (start end_ : Z)
    (buffer buffer' : list Z) :
  uint32 start → uint32 end_ → uint32 (code_page_size (chip s)) →
  bank_typed (bank s) →
  nrf52_write_pages start end_ buffer s = Done ERROR_OK s1 →
  ∃ effs,
    effects (trace (final (nrf52_write_pages start end_ buffer' s1)))
      = effects (trace s1) ++ effs ∧
    Forall is_program effs.
Proof.
  intros [Hs0 Hs1] [He0 He1] [Hp0 Hp1] Ht Hrun.
  assert (chip s1 = chip s ∧
          (start mod code_page_size (chip s) = 0 →
           end_ mod code_page_size (chip s) = 0 →
           ∀ p, p ∈ loop_pages (S (Z.to_nat (end_ / code_page_size (chip s))))
                      start end_ (code_page_size (chip s)) →
             ∃ sec, page_sector (bank s1) (chip s1) p = Some sec ∧
                    is_erased sec = 1)) as [Hc Herased].
  { revert Hrun. unfold nrf52_write_pages, bind at 1, get_chip.
    destruct (code_page_size (chip s) =? 0) eqn:Hz; [done|].
    apply Z.eqb_neq in Hz. unfold bind at 1, ret.
    destruct (start mod code_page_size (chip s) =? 0) eqn:Hsm; [|done].
    destruct (end_ mod code_page_size (chip s) =? 0) eqn:Hem; [|done].
    apply Z.eqb_eq in Hsm, Hem.
    unfold assert, bind at 1, ret. unfold bind at 1. unfold bind at 1.
    destruct (nrf52_write_pages_erase _ _ _ _) as [[|res] s_mid|] eqn:Hloop; [| |done].
    2:{ intros [= -> _]. by apply write_pages_erase_returned in Hloop. }
    intros Htail.
    assert (0 < code_page_size (chip s)) as Hp by lia.
    pose proof (write_pages_erase_completed _ _ _ _ _ Hp Hs0 Hsm Hem He1 Ht Hloop)
      as (Hc1 & _ & _ & Hpages).
    pose proof (program_tail_effects s_mid start buffer (wrap32 (end_ - start)))
      as (_ & Hc2 & Hb2).
    cbv zeta in Hc2, Hb2. unfold ret in Hc2, Hb2.
    rewrite Htail in Hc2, Hb2. simpl in Hc2, Hb2.
    split; [congruence|]. intros _ _ p Hin.
    destruct (Hpages p Hin) as (sec & Hsec & Her).
    unfold page_sector in *.
    rewrite (find_sector_marks_erased _ _ _ _ Hb2), Hc2.
    destruct (nrf52_find_sector_by_address (bank s_mid) (chip s_mid) p) as [i|];
      [|done].
    simpl in *.
    destruct (marks_erased_lookup _ _ _ _ Hb2 Hsec) as (sec' & -> & Hrel).
    exists sec'. split; [done|]. by destruct Hrel as [->| ->]. }
  apply write_pages_no_erase. rewrite Hc. intros Hsm Hem p i sec Hin Hf Hi.
  destruct (Herased Hsm Hem p Hin) as (sec' & Hsec' & Her).
  unfold page_sector in Hsec'. rewrite Hc, Hf in Hsec'. simpl in Hsec'. congruence.
Qed.

(** ** Erasing, then writing *)

(** X10. After [nrf52_erase] has succeeded on sectors [first] to [last] of
    a bank laid out on the page grid, [nrf52_write_pages] over pages that
    lie within these sectors erases nothing: however it ends, it makes no
    flash-relevant call besides submitting data for programming. *)
Theorem erase_then_write_pages (s s1 : state T) (first last start end_ : Z)
    (buffer : list Z) :
  sector_grid (bank s) (code_page_size (chip s)) →
  0 < code_page_size (chip s) →
  num_sectors (bank s) * code_page_size (chip s) < 2 ^ 32 →
  0 ≤ first →
  nrf52_erase first last s = Done ERROR_OK s1 →
  first * code_page_size (chip s) ≤ start →
  end_ ≤ (last + 1) * code_page_size (chip s) →
  ∃ effs,
    effects (trace (final (nrf52_write_pages start end_ buffer s1)))
      = effects (trace s1) ++ effs ∧
    Forall is_program effs.
Proof.
  intros Hgrid Hp Hlt Hf Hrun Hstart Hend. unfold nrf52_erase in Hrun.
  assert (Forall (fun i => 0 ≤ i) (seqZ first (last - first + 1))) as Hpos.
  { apply list.Forall_forall. intros i Hi%elem_of_seqZ. lia. }
  destruct (erase_loop_ok _ _ _ Hpos Hrun) as (Hc & Hb & _ & Hin & _ & _).
  pose proof (sector_grid_marks_erased _ _ _ Hb Hgrid) as Hgrid1.
  destruct Hb as (_ & _ & Hn & _).
  apply write_pages_no_erase. rewrite Hc. intros Hsm Hem p i sec Hp' Hfind Hi.
  destruct (decide (start < end_)) as [Hse|Hse].
  2:{ simpl in Hp'. destruct (start <? end_) eqn:Hlt'; [apply Z.ltb_lt in Hlt'; lia|].
      by apply elem_of_nil in Hp'. }
  assert (0 ≤ start) as Hs0.
  { assert (0 ≤ first * code_page_size (chip s)) by (apply Z.mul_nonneg_nonneg; lia).
    lia. }
  assert (first ≤ last) as Hfl.
  { destruct (decide (first ≤ last)) as [|Hgt]; [done|].
    assert ((last + 1) * code_page_size (chip s) ≤ first * code_page_size (chip s))
      by (apply Z.mul_le_mono_nonneg_r; lia).
    lia. }
  destruct (Hin last) as (sec_l & Hl & _); [apply elem_of_seqZ; lia|].
  apply lookup_lt_Some in Hl.
  assert ((last + 1) * code_page_size (chip s)
          ≤ num_sectors (bank s) * code_page_size (chip s)) as Hext.
  { apply Z.mul_le_mono_nonneg_r; [lia|]. destruct Hgrid as [-> _]. lia. }
  apply loop_pages_bounds in Hp'; [|done|done|done|done|lia].
  rewrite find_sector_grid in Hfind; [|done|done|rewrite Hn; lia|rewrite Hn; lia].
  injection Hfind as <-.
  assert (first ≤ p / code_page_size (chip s)) by (apply Z.div_le_lower_bound; lia).
  assert (p / code_page_size (chip s) < last + 1) by (apply Z.div_lt_upper_bound; lia).
  destruct (Hin (p / code_page_size (chip s))) as (sec0 & _ & _ & Hi');
    [apply elem_of_seqZ; lia|].
  rewrite Hi' in Hi. by injection Hi as <-.
Qed.

(** ** Pages that cannot be written *)

Lemma unprotected_triggers_only b (added : list effect) :
  Forall (unprotected_trigger b) added →
  mbind effect_data added = [] ∧ omap effect_read added = [].
Proof.
  induction 1 as [|e added (i & sec & _ & _ & ->) _ [IH1 IH2]]; [done|].
  by split.
Qed.

(** X11. If a page of the range handed to [nrf52_write_pages] lies in no
    sector, or in a sector whose protection state is 1, the write does not
    report success, and nothing is submitted for programming nor read from
    target memory, however the write ends (pages before that one may have
    been erased). *)
Theorem write_pages_blocked_page (s : state T) (start end_ p : Z) (buffer : list Z) :
  uint32 start → uint32 end_ → uint32 (code_page_size (chip s)) →
  p ∈ page_offsets start end_ (code_page_size (chip s)) →
  (∀ i sec, nrf52_find_sector_by_address (bank s) (chip s) p = Some i →
            sectors (bank s) !! i = Some sec → is_protected sec = 1) →
  (∀ s', nrf52_write_pages start end_ buffer s ≠ Done ERROR_OK s') ∧
  flash_data (trace (final (nrf52_write_pages start end_ buffer s)))
    = flash_data (trace s) ∧
  memory_reads (trace (final (nrf52_write_pages start end_ buffer s)))
    = memory_reads (trace s).
Proof.
  intros [Hs0 Hs1] [He0 He1] [Hp0 Hp1] Hp Hblocked.
  assert (match nrf52_write_pages start end_ buffer s with
          | Done res s' =>
              res ≠ ERROR_OK ∧ flash_data (trace s') = flash_data (trace s) ∧
              memory_reads (trace s') = memory_reads (trace s)
          | Fault _ s' =>
              flash_data (trace s') = flash_data (trace s) ∧
              memory_reads (trace s') = memory_reads (trace s)
          end) as Hcase.
  2:{ destruct (nrf52_write_pages start end_ buffer s) as [res s1|f s1]; simpl.
      - destruct Hcase as (Hres & ? & ?). split; [|done]. by intros s' [= -> _].
      - by split. }
  unfold nrf52_write_pages, bind at 1, get_chip.
  destruct (code_page_size (chip s) =? 0) eqn:Hz; [done|].
  apply Z.eqb_neq in Hz. unfold bind at 1, ret.
  destruct (start mod code_page_size (chip s) =? 0) eqn:Hsm; [|done].
  destruct (end_ mod code_page_size (chip s) =? 0) eqn:Hem; [|done].
  apply Z.eqb_eq in Hsm, Hem.
  unfold assert, bind at 1, ret. unfold bind at 1. unfold bind at 1.
  assert (0 < code_page_size (chip s)) as Hpos by lia.
  pose proof (hoare_final _ _ _ s
                (kept_write_pages_erase (trace s) (unprotected_trigger (bank s))
                   (chip s) (bank s) (fun _ H => H)
                   (S (Z.to_nat (end_ / code_page_size (chip s)))) start end_)
                (kept_start s (unprotected_trigger (bank s))))
    as (_ & (added & Heff & Hadded) & _).
  destruct (unprotected_triggers_only _ _ Hadded) as [Hdata Hreads].
  destruct (nrf52_write_pages_erase _ _ _ _) as [[|res] s1|f s1] eqn:Hloop.
  - exfalso.
    assert ((Z.to_nat ((end_ - start) / code_page_size (chip s))
             < S (Z.to_nat (end_ / code_page_size (chip s))))%nat) as Hfuel.
    { assert ((end_ - start) / code_page_size (chip s)
              ≤ end_ / code_page_size (chip s))
        by (apply Z.div_le_mono; lia).
      assert (0 ≤ end_ / code_page_size (chip s)) by (apply Z.div_pos; lia).
      lia. }
    rewrite <- (loop_pages_offsets (S (Z.to_nat (end_ / code_page_size (chip s)))))
      in Hp by done.
    destruct (write_pages_erase_unprotected _ _ _ _ _ Hloop p Hp)
      as (i & sec & Hf & Hi & Hprot).
    by apply Hprot, (Hblocked i).
  - simpl in Heff |- *. split; [|split].
    + by apply write_pages_erase_returned in Hloop.
    + by rewrite !flash_data_effects, Heff, bind_app, Hdata, app_nil_r.
    + by rewrite !memory_reads_effects, Heff, omap_app, Hreads, app_nil_r.
  - simpl in Heff |- *. split.
    + by rewrite !flash_data_effects, Heff, bind_app, Hdata, app_nil_r.
    + by rewrite !memory_reads_effects, Heff, omap_app, Hreads, app_nil_r.
Qed.

(** ** The two write strategies, in general *)

(** What a successful write to the code region has submitted: the bytes
    read before the data where the write starts inside a page, the data,
    and the bytes read after it where the write ends inside a page. *)
Lemma code_flash_write_image (s s' : state T) buffer offset count :
  0 < code_page_size (chip s) → 0 ≤ offset → 0 ≤ count →
  offset + count + code_page_size (chip s) < 2 ^ 32 →
  Z.of_nat (length buffer) = count → bank_typed (bank s) →
  nrf52_code_flash_write buffer offset count s = Done ERROR_OK s' →
  let page_size := code_page_size (chip s) in
  let first := offset / page_size * page_size in
  let last := (offset + count + page_size - 1) / page_size * page_size in
  let pre := offset - first in
  let post := last - (offset + count) in
  let pre_data := if pre >? 0 then bytes_read first pre (target s) else [] in
  let t1 := if pre >? 0 then after_read first pre (target s) else target s in
  let post_data := if post >? 0 then bytes_read (offset + count) post t1 else [] in
  ∃ effs,
    Z.of_nat (length pre_data) = pre ∧ Z.of_nat (length post_data) = post ∧
    effects (trace s') = effects (trace s) ++
      (if pre >? 0 then [MemRead first 1 pre] else []) ++
      (if post >? 0 then [MemRead (offset + count) 1 post] else []) ++
      (RegWrite (erase_register (bank s)) <$>
         due_erases (bank s) (chip s) (page_offsets first last page_size)) ++
      effs ∧
    Forall is_program effs ∧
    mbind effect_data effs = pre_data ++ buffer ++ post_data ∧
    nvmc_config (trace s') = Some NRF52_NVMC_CONFIG_REN.
Proof.
  intros Hp Ho Hc Hlt Hlen Ht Hrun page_size first last pre post pre_data t1 post_data.
  pose proof (page_bounds offset count page_size Hp Ho Hc ltac:(lia))
    as (Hf & Hpre & Hl0 & Hl1 & Hpages & Hlp).
  fold first last in Hf, Hpre, Hl0, Hl1.
  revert Hrun. unfold nrf52_code_flash_write, bind at 1, get_chip.
  fold page_size.
  assert ((page_size =? 0) = false) as -> by (apply Z.eqb_neq; lia).
  unfold bind at 1. unfold ret at 1.
  rewrite (wrap32_small (offset + count)) by lia.
  unfold DIV_ROUND_UP. rewrite (wrap32_small (offset + count + page_size - 1)) by lia.
  fold first last.
  rewrite (wrap32_small first), (wrap32_small last) by lia.
  rewrite (wrap32_small (_ - _ / _)) by lia.
  replace ((offset + count + page_size - 1) / page_size - offset / page_size)
    with ((last - first) / page_size).
  2:{ subst first last. rewrite <- Z.mul_sub_distr_r, Z.div_mul by lia. done. }
  replace ((last - first) / page_size * page_size) with (last - first).
  2:{ subst first last. rewrite <- Z.mul_sub_distr_r, Z.div_mul by lia. done. }
  rewrite (wrap32_small (last - first)) by lia.
  fold pre. rewrite (wrap32_small pre) by (subst pre; lia).
  fold post. rewrite (wrap32_small post) by (subst post; lia).
  set (b0 := replicate (Z.to_nat (last - first)) 0).
  assert (Z.of_nat (length b0) = pre + count + post) as Hb0.
  { subst b0 pre post. rewrite length_replicate. lia. }
  (* the gap before the data *)
  unfold bind at 1.
  assert (∃ (s1 : state T) r1,
    (if pre >? 0
     then r <- read_memory first 1 pre;;
          match blit b0 0 r.2 pre with
          | Some a => ret (r.1, a)
          | None => fail UndefinedBehaviour
          end
     else ret (ERROR_OK, b0)) s =
      Done (r1, pre_data ++ drop (Z.to_nat pre) b0) s1 ∧
    Z.of_nat (length pre_data) = pre ∧
    chip s1 = chip s ∧ bank s1 = bank s ∧ target s1 = t1 ∧
    effects (trace s1) = effects (trace s) ++
      (if pre >? 0 then [MemRead first 1 pre] else []))
    as (s1 & r1 & -> & Hpd & Hc1 & Hb1 & Ht1 & He1).
  { subst pre_data t1. unfold bytes_read, after_read.
    destruct (pre >? 0) eqn:Hpos.
    - unfold bind, read_memory.
      destruct (target_read_memory _ _ _ _) as [[r d] t']. cbn [fst snd].
      rewrite Z.mul_1_l.
      rewrite blit_inside; [|lia|lia|rewrite length_resize; lia].
      eexists _, _. split; [reflexivity|].
      rewrite length_resize. repeat split. lia.
    - exists s, ERROR_OK. rewrite Z.gtb_ltb in Hpos. apply Z.ltb_ge in Hpos.
      assert (pre = 0) as Hz by (subst pre; lia). rewrite Hz.
      split; [done|]. by rewrite app_nil_r. }
  cbn [fst snd].
  destruct (r1 =? ERROR_OK) eqn:Hr1; cbn [negb].
  2:{ intros [= Hbad _]. rewrite Hbad in Hr1. by rewrite eqb_ok_refl in Hr1. }
  rewrite blit_inside; [| lia | rewrite length_app, length_drop; lia | done].
  rewrite take_app_length' by lia.
  rewrite drop_app_ge, drop_drop by lia.
  (* the gap after the data *)
  set (tail := drop _ b0).
  assert (Z.of_nat (length tail) = post) as Htail.
  { subst tail. rewrite length_drop. lia. }
  unfold bind at 1.
  assert (∃ (s2 : state T) r2,
    (if post >? 0
     then r <- read_memory (offset + count) 1 post;;
          match blit (pre_data ++ buffer ++ tail) (pre + count) r.2 post with
          | Some a => ret (r.1, a)
          | None => fail UndefinedBehaviour
          end
     else ret (ERROR_OK, pre_data ++ buffer ++ tail)) s1 =
      Done (r2, pre_data ++ buffer ++ post_data) s2 ∧
    Z.of_nat (length post_data) = post ∧
    chip s2 = chip s1 ∧ bank s2 = bank s1 ∧
    effects (trace s2) = effects (trace s1) ++
      (if post >? 0 then [MemRead (offset + count) 1 post] else []))
    as (s2 & r2 & -> & Hqd & Hc2 & Hb2 & He2).
  { subst post_data. unfold bytes_read. rewrite <- Ht1.
    destruct (post >? 0) eqn:Hpos.
    - unfold bind, read_memory.
      destruct (target_read_memory (offset + count) 1 post (target s1))
        as [[r d] t']. cbn [fst snd].
      rewrite Z.mul_1_l.
      rewrite blit_inside;
        [|lia|rewrite !length_app; lia|rewrite length_resize; lia].
      eexists _, _. split.
      + rewrite (app_assoc pre_data buffer tail).
        rewrite take_app_length' by (rewrite length_app; lia).
        rewrite drop_ge by (rewrite !length_app; lia).
        rewrite app_nil_r, <- app_assoc. reflexivity.
      + rewrite length_resize. repeat split. lia.
    - exists s1, ERROR_OK. rewrite Z.gtb_ltb in Hpos. apply Z.ltb_ge in Hpos.
      assert (length tail = 0%nat) as ->%nil_length_inv by lia.
      split; [done|]. split; [simpl; lia|]. by rewrite app_nil_r. }
  cbn [fst snd].
  destruct (r2 =? ERROR_OK) eqn:Hr2; cbn [negb].
  2:{ intros [= Hbad _]. rewrite Hbad in Hr2. by rewrite eqb_ok_refl in Hr2. }
  intros Hwp. apply write_pages_ok in Hwp as (effs & Heff & Hprog & Hdata & Hmode).
  - exists effs. split; [done|]. split; [done|].
    split; [|done].
    rewrite Heff, He2, He1, Hc2, Hc1, Hb2, Hb1. fold page_size.
    by rewrite <- !app_assoc.
  - unfold uint32. lia.
  - unfold uint32. lia.
  - lia.
  - rewrite Hc2, Hc1. fold page_size. unfold uint32. lia.
  - by rewrite Hb2, Hb1.
  - rewrite !length_app. lia.
Qed.

(** What a successful write to the configuration region has submitted:
    the bytes read from the region, with the data copied in. *)
Lemma uicr_flash_write_image (s s' : state T) buffer offset count :
  uint32 (code_page_size (chip s)) → 0 ≤ offset → 0 ≤ count →
  offset + count ≤ code_page_size (chip s) →
  Z.of_nat (length buffer) = count →
  nrf52_uicr_flash_write buffer offset count s = Done ERROR_OK s' →
  let old := bytes_read NRF52_UICR_BASE_ADDR (code_page_size (chip s)) (target s) in
  ∃ sec effs,
    sectors (bank s) !! 0%nat = Some sec ∧
    Z.of_nat (length old) = code_page_size (chip s) ∧
    effects (trace s') = effects (trace s) ++
      [MemRead NRF52_UICR_BASE_ADDR 1 (code_page_size (chip s))] ++
      (if is_erased sec =? 1 then []
       else [RegWrite (erase_register (bank s)) (erase_value (bank s) sec)]) ++
      effs ∧
    Forall is_program effs ∧
    mbind effect_data effs =
      take (Z.to_nat offset) old ++ buffer ++ drop (Z.to_nat (offset + count)) old ∧
    nvmc_config (trace s') = Some NRF52_NVMC_CONFIG_REN.
Proof.
  intros [Hp0 Hp1] Ho Hc Hle Hlen Hrun old. revert Hrun.
  unfold nrf52_uicr_flash_write, bind at 1, get_chip.
  rewrite wrap32_small by lia.
  assert ((offset + count >? code_page_size (chip s)) = false) as ->.
  { rewrite Z.gtb_ltb. apply Z.ltb_ge. lia. }
  unfold bind at 1, read_memory. subst old. unfold bytes_read.
  destruct (target_read_memory _ _ _ _) as [[r data] t1]. cbn [fst snd].
  rewrite Z.mul_1_l.
  set (old := resize _ 0 data).
  assert (Z.of_nat (length old) = code_page_size (chip s)) as Hold.
  { subst old. rewrite length_resize. lia. }
  destruct (r =? ERROR_OK) eqn:Hr; cbn [negb].
  2:{ intros [= -> _]. by rewrite eqb_ok_refl in Hr. }
  set (s1 := call t1 _ s).
  unfold bind at 1, sector.
  destruct (sectors (bank s1) !! 0%nat) as [sec|] eqn:Hsec; [|done].
  unfold bind at 1.
  destruct ((if negb (is_erased sec =? 1) then nrf52_erase_page 0 else ret ERROR_OK) s1)
    as [res s2|] eqn:Herase; [|done].
  destruct (res =? ERROR_OK) eqn:Hres; cbn [negb].
  2:{ intros [= -> _]. by rewrite eqb_ok_refl in Hres. }
  apply Z.eqb_eq in Hres. subst res.
  assert (chip s2 = chip s ∧
          effects (trace s2) = effects (trace s1) ++
            (if is_erased sec =? 1 then []
             else [RegWrite (erase_register (bank s)) (erase_value (bank s) sec)]))
    as [Hc2 He2].
  { destruct (is_erased sec =? 1); cbn [negb] in Herase.
    - injection Herase as <-. by rewrite app_nil_r.
    - apply erase_page_ok in Herase as (sec' & Hsec' & Hc' & _ & He' & _).
      assert (sec' = sec) as -> by congruence. done. }
  rewrite blit_inside by lia.
  set (new := take _ old ++ buffer ++ drop _ old).
  assert (Z.of_nat (length new) = code_page_size (chip s)) as Hnew.
  { subst new. rewrite !length_app, length_take, length_drop. lia. }
  destruct (nvmc_write_enable_returns s2) as (rwe & s3 & Hwe & (Hc3 & Hb3 & He3) & _).
  unfold bind at 1. rewrite Hwe.
  destruct (rwe =? ERROR_OK) eqn:Hrwe; cbn [negb].
  2:{ intros [= -> _]. by rewrite eqb_ok_refl in Hrwe. }
  destruct (decide (code_page_size (chip s) mod 4 = 0)) as [Hm4|Hm4].
  2:{ unfold bind at 1. by rewrite ll_flash_write_misaligned. }
  destruct (ll_flash_write_returns s3 NRF52_UICR_BASE_ADDR new (code_page_size (chip s)))
    as (rw & s4 & effs & Hll & (Hc4 & Hb4 & _ & He4 & Hprog) & Hdata);
    [lia|done|].
  unfold bind at 1. rewrite Hll.
  destruct (rw =? ERROR_OK) eqn:Hrw; cbn [negb].
  2:{ unfold bind. destruct (nrf52_nvmc_read_only s4); [|done].
      intros [= -> _]. by rewrite eqb_ok_refl in Hrw. }
  apply Z.eqb_eq in Hrw.
  destruct (nvmc_read_only_returns s4) as (rr & s5 & -> & (Hc5 & Hb5 & He5) & Hmode & _).
  intros [= -> <-]. exists sec, effs.
  split; [done|]. split; [done|]. split; [|auto].
  rewrite He5, He4, He3, He2. subst s1. simpl. by rewrite <- !app_assoc.
Qed.


(** The bytes held after a read are those the target returned, when it
    returned as many as were asked for. *)
Lemma bytes_read_all address count (t : T) :
  Z.of_nat (length (target_read_memory address 1 count t).1.2) = count →
  bytes_read address count t = (target_read_memory address 1 count t).1.2.
Proof.
  intros Hl. unfold bytes_read.
  rewrite <- Hl at 1. rewrite Nat2Z.id. apply resize_all.
Qed.

(** X12. A successful write to the code region through [nrf52_write]
    (bank number 0) makes these flash-relevant calls, in this order: a
    read of the head of the first page when the write starts inside a
    page, a read of the tail of the last page when it ends inside one, one
    erase trigger for each page of the range whose sector is not marked
    erased, and submissions of data that add up to whole pages holding the
    head, the buffer and the tail.  The head is what the first read
    returned, and the tail what the second read returned, from the target
    as the first read left it; each is empty when there is no such read.
    It ends in read-only mode. *)
Theorem code_write_effects (s s' : state T) (buffer : list Z) (offset count : Z) :
  bank_number (bank s) = 0 →
  0 < code_page_size (chip s) → 0 ≤ offset → 0 ≤ count →
  offset + count + code_page_size (chip s) < 2 ^ 32 →
  Z.of_nat (length buffer) = count → bank_typed (bank s) →
  nrf52_write buffer offset count s = Done ERROR_OK s' →
  let page_size := code_page_size (chip s) in
  let first := offset / page_size * page_size in
  let last := (offset + count + page_size - 1) / page_size * page_size in
  ∃ pre_data post_data effs,
    pre_data =
      (if offset - first >? 0 then bytes_read first (offset - first) (target s)
       else []) ∧
    post_data =
      (if last - (offset + count) >? 0
       then bytes_read (offset + count) (last - (offset + count))
              (if offset - first >? 0
               then after_read first (offset - first) (target s) else target s)
       else []) ∧
    Z.of_nat (length pre_data) = offset - first ∧
    Z.of_nat (length post_data) = last - (offset + count) ∧
    effects (trace s') = effects (trace s) ++
      (if offset - first >? 0 then [MemRead first 1 (offset - first)] else []) ++
      (if last - (offset + count) >? 0
       then [MemRead (offset + count) 1 (last - (offset + count))] else []) ++
      (RegWrite (erase_register (bank s)) <$>
         due_erases (bank s) (chip s) (page_offsets first last page_size)) ++
      effs ∧
    Forall is_program effs ∧
    mbind effect_data effs = pre_data ++ buffer ++ post_data ∧
    flash_data (trace s') = flash_data (trace s) ++ pre_data ++ buffer ++ post_data ∧
    Z.of_nat (length (pre_data ++ buffer ++ post_data)) = last - first ∧
    nvmc_config (trace s') = Some NRF52_NVMC_CONFIG_REN.
Proof.
  intros Hn Hp Ho Hcnt Hlt Hlen Ht Hrun.
  unfold nrf52_write, bind, get_bank in Hrun. rewrite Hn in Hrun. simpl in Hrun.
  destruct (code_flash_write_image _ _ _ _ _ Hp Ho Hcnt Hlt Hlen Ht Hrun)
    as (effs & Hpre & Hpost & Heff & Hprog & Hdata & Hmode).
  intros page_size first last.
  eexists _, _, effs.
  split; [reflexivity|]. split; [reflexivity|].
  split; [exact Hpre|]. split; [exact Hpost|]. split; [exact Heff|].
  split; [done|]. split; [exact Hdata|].
  split; [|split; [|done]].
  - rewrite !flash_data_effects, Heff, !bind_app, Hdata, fmap_triggers_no_data.
    by destruct (_ >? 0), (_ >? 0).
  - rewrite !length_app. fold page_size first last in Hpre, Hpost. lia.
Qed.

Lemma aligned_pages offset count page_size :
  0 < page_size → offset mod page_size = 0 → count mod page_size = 0 →
  offset / page_size * page_size = offset ∧
  (offset + count + page_size - 1) / page_size * page_size = offset + count.
Proof.
  intros Hp Ho Hc.
  apply Z.div_exact in Ho; [|lia]. apply Z.div_exact in Hc; [|lia].
  split; [lia|].
  replace (offset + count + page_size - 1)
    with ((offset / page_size + count / page_size) * page_size + (page_size - 1)) by lia.
  rewrite Z.div_add_l, (Z.div_small (page_size - 1)) by lia. lia.
Qed.

(** X13. A successful write of whole pages to the code region (offset and
    count multiples of the page size) reads no target memory, and the data
    submitted for programming is exactly the caller's buffer. *)
Theorem code_write_whole_pages (s s' : state T) (buffer : list Z) (offset count : Z) :
  0 < code_page_size (chip s) → 0 ≤ offset → 0 ≤ count →
  offset + count + code_page_size (chip s) < 2 ^ 32 →
  offset mod code_page_size (chip s) = 0 →
  count mod code_page_size (chip s) = 0 →
  Z.of_nat (length buffer) = count → bank_typed (bank s) →
  nrf52_code_flash_write buffer offset count s = Done ERROR_OK s' →
  memory_reads (trace s') = memory_reads (trace s) ∧
  flash_data (trace s') = flash_data (trace s) ++ buffer ∧
  erase_triggers (erase_register (bank s)) (trace s') =
    erase_triggers (erase_register (bank s)) (trace s) ++
    due_erases (bank s) (chip s)
      (page_offsets offset (offset + count) (code_page_size (chip s))).
Proof.
  intros Hp Ho Hcnt Hlt Hom Hcm Hlen Ht Hrun.
  destruct (code_flash_write_ok _ _ _ _ _ Hp Ho Hcnt Hlt Hlen Ht Hrun)
    as (pre_data & post_data & effs & Hpre & Hpost & Heff & Hprog & Hdata & Hmode).
  destruct (aligned_pages offset count _ Hp Hom Hcm) as [Hfirst Hlast].
  rewrite Hfirst, Hlast in *.
  rewrite (Z.sub_diag offset), (Z.sub_diag (offset + count)) in Heff. simpl in Heff.
  destruct pre_data; [|simpl in Hpre; lia].
  destruct post_data; [|simpl in Hpost; lia].
  simpl in Hdata. rewrite app_nil_r in Hdata.
  destruct (programs_only_data effs (erase_register (bank s)) Hprog) as [Htr Hrd].
  pose proof (config_is_no_erase_register (bank s)) as Hreg.
  split; [|split].
  - rewrite !memory_reads_effects, Heff, !omap_app, Hrd, fmap_triggers_no_reads.
    simpl. by rewrite ?app_nil_r.
  - rewrite !flash_data_effects, Heff, !bind_app, Hdata, fmap_triggers_no_data.
    simpl. by rewrite ?app_nil_r.
  - rewrite !erase_triggers_effects, Heff, !omap_app, Htr, fmap_triggers by done.
    simpl. by rewrite ?app_nil_r.
Qed.

(** In a bank as a probe laid it out, every page has its erase due. *)
Lemma due_erases_probed b c pages :
  probed_layout b (code_page_size c) → base b ≠ NRF52_UICR_BASE_ADDR →
  0 < code_page_size c → num_sectors b * code_page_size c < 2 ^ 32 →
  Forall (fun p => 0 ≤ p < num_sectors b * code_page_size c ∧
                   p mod code_page_size c = 0) pages →
  due_erases b c pages = pages.
Proof.
  intros Hlay Hbase%Z.eqb_neq Hp Hlt Hall.
  induction Hall as [|p pages [Hrange Hmod] _ IH]; [done|].
  rewrite due_erases_cons, IH. unfold page_sector.
  rewrite find_sector_grid by (done || by apply probed_layout_grid). simpl.
  destruct Hlay as [Hn Hl].
  assert (0 ≤ p / code_page_size c) by (apply Z.div_pos; lia).
  assert (p / code_page_size c < num_sectors b)
    by (apply Z.div_lt_upper_bound; lia).
  destruct (lookup_lt_is_Some_2 (sectors b) (Z.to_nat (p / code_page_size c)))
    as [sec Hi]; [lia|].
  rewrite Hi. destruct (Hl _ _ Hi) as (Hoff & _ & -> & _). simpl.
  unfold erase_value. rewrite Hbase, Hoff, Z2Nat.id by done.
  apply Z.div_exact in Hmod; [|lia]. f_equal. lia.
Qed.

Lemma page_offsets_range first last page_size :
  0 < page_size → 0 ≤ first → first mod page_size = 0 → last mod page_size = 0 →
  Forall (fun p => 0 ≤ p < last ∧ p mod page_size = 0)
         (page_offsets first last page_size).
Proof.
  intros Hp Hf Hfm Hlm. apply list.Forall_forall. intros p Hin.
  unfold page_offsets in Hin.
  apply list_elem_of_fmap in Hin as (k & -> & Hk%elem_of_seqZ).
  assert ((first + k * page_size) mod page_size = 0) as Hm.
  { rewrite Z.mod_add by lia. done. }
  split; [|done].
  assert (0 ≤ k * page_size) by (apply Z.mul_nonneg_nonneg; lia).
  split; [lia|].
  apply Z.div_exact in Hfm; [|lia]. apply Z.div_exact in Hlm; [|lia].
  assert ((last - first) / page_size = last / page_size - first / page_size) as Hq.
  { replace (last - first)
      with ((last / page_size - first / page_size) * page_size) by lia.
    by rewrite Z.div_mul by lia. }
  rewrite Hq in Hk.
  assert ((k + 1) * page_size ≤ (last / page_size - first / page_size) * page_size)
    by (apply Z.mul_le_mono_nonneg_r; lia).
  lia.
Qed.

(** X14. After a successful probe of the code region, the first write to
    a range that lies within the sectors laid out erases every page the
    range touches, each once and in ascending order, the erase trigger
    values being the page offsets. *)
Theorem first_write_after_probe (s s1 s2 : state T) (buffer : list Z)
    (offset count : Z) :
  base (bank s) = NRF52_FLASH_BASE_ADDR →
  nrf52_probe s = Done ERROR_OK s1 →
  0 ≤ offset → 0 ≤ count → Z.of_nat (length buffer) = count →
  offset + count ≤ num_sectors (bank s1) * code_page_size (chip s1) →
  offset + count + code_page_size (chip s1) < 2 ^ 32 →
  nrf52_code_flash_write buffer offset count s1 = Done ERROR_OK s2 →
  let page_size := code_page_size (chip s1) in
  let first := offset / page_size * page_size in
  let last := (offset + count + page_size - 1) / page_size * page_size in
  erase_triggers NRF52_NVMC_ERASEPAGE_ADDR (trace s2) =
    erase_triggers NRF52_NVMC_ERASEPAGE_ADDR (trace s1) ++
    page_offsets first last page_size.
Proof.
  intros Hbase Hprobe Ho Hcnt Hlen Hin Hlt Hrun page_size first last.
  destruct (probe_ok _ _ Hprobe) as (Hlay & Hb & Hps0 & Hext & Hsz & Hflash & _).
  rewrite Hbase in Hb. destruct (Hflash Hb) as [Hnz _].
  assert (0 < page_size) as Hp by (unfold page_size; lia).
  assert (bank_typed (bank s1)) as Ht.
  { apply list.Forall_forall. intros sec Hsec.
    apply list_elem_of_lookup in Hsec as [i Hi].
    destruct Hlay as [_ Hl]. destruct (Hl _ _ Hi) as (-> & _).
    apply Z.mul_nonneg_nonneg; lia. }
  destruct (code_flash_write_ok _ _ _ _ _ Hp Ho Hcnt Hlt Hlen Ht Hrun)
    as (pre_data & post_data & effs & _ & _ & Heff & Hprog & _ & _).
  fold page_size first last in Heff.
  assert (erase_register (bank s1) = NRF52_NVMC_ERASEPAGE_ADDR) as Hreg.
  { unfold erase_register. by rewrite Hb. }
  assert (first mod page_size = 0 ∧ last mod page_size = 0) as [Hfm Hlm].
  { unfold first, last. by rewrite !Z.mod_mul by lia. }
  assert (0 ≤ first) as Hf0.
  { unfold first. apply Z.mul_nonneg_nonneg; [apply Z.div_pos|]; lia. }
  assert (last ≤ num_sectors (bank s1) * page_size) as Hlast.
  { unfold last. apply Z.mul_le_mono_nonneg_r; [lia|].
    assert ((offset + count + page_size - 1) / page_size
            < num_sectors (bank s1) + 1); [|lia].
    apply Z.div_lt_upper_bound; lia. }
  assert (due_erases (bank s1) (chip s1) (page_offsets first last page_size)
          = page_offsets first last page_size) as Hdue.
  { apply due_erases_probed; [done|by rewrite Hb|done|fold page_size; lia|].
    eapply list.Forall_impl; [by apply page_offsets_range|].
    intros p [[? ?] ?]. fold page_size. split; [lia|done]. }
  rewrite Hreg, Hdue in Heff.
  destruct (programs_only_data effs NRF52_NVMC_ERASEPAGE_ADDR Hprog) as [Htr _].
  rewrite !erase_triggers_effects, Heff, !omap_app, Htr, fmap_triggers by done.
  rewrite app_nil_r. by destruct (_ >? 0), (_ >? 0).
Qed.

(** X15. A successful write to the configuration region reads the whole
    region once, erases it unless its sector is marked erased, and submits
    for programming a full image of the region: the bytes that read
    returned, with the caller's data in place from [offset] on. *)
Theorem uicr_write_splices (s s' : state T) (buffer : list Z) (offset count : Z) :
  uint32 (code_page_size (chip s)) → 0 ≤ offset → 0 ≤ count →
  offset + count ≤ code_page_size (chip s) →
  Z.of_nat (length buffer) = count →
  nrf52_uicr_flash_write buffer offset count s = Done ERROR_OK s' →
  ∃ sec old image,
    sectors (bank s) !! 0%nat = Some sec ∧
    old = bytes_read NRF52_UICR_BASE_ADDR (code_page_size (chip s)) (target s) ∧
    Z.of_nat (length old) = code_page_size (chip s) ∧
    image = take (Z.to_nat offset) old ++ buffer ++ drop (Z.to_nat (offset + count)) old ∧
    Z.of_nat (length image) = code_page_size (chip s) ∧
    take (Z.to_nat count) (drop (Z.to_nat offset) image) = buffer ∧
    memory_reads (trace s') =
      memory_reads (trace s) ++ [(NRF52_UICR_BASE_ADDR, 1, code_page_size (chip s))] ∧
    erase_triggers (erase_register (bank s)) (trace s') =
      erase_triggers (erase_register (bank s)) (trace s) ++
      (if is_erased sec =? 1 then [] else [erase_value (bank s) sec]) ∧
    flash_data (trace s') = flash_data (trace s) ++ image ∧
    nvmc_config (trace s') = Some NRF52_NVMC_CONFIG_REN.
Proof.
  intros Hps Ho Hcnt Hle Hlen Hrun.
  destruct (uicr_flash_write_image _ _ _ _ _ Hps Ho Hcnt Hle Hlen Hrun)
    as (sec & effs & Hsec & Hold & Heff & Hprog & Hdata & Hmode).
  set (old := bytes_read _ _ _) in *.
  exists sec, old, (take (Z.to_nat offset) old ++ buffer
                    ++ drop (Z.to_nat (offset + count)) old).
  destruct (programs_only_data effs (erase_register (bank s)) Hprog) as [Htr Hrd].
  pose proof (config_is_no_erase_register (bank s)) as Hreg.
  split; [done|]. split; [done|]. split; [done|]. split; [done|].
  split; [|split; [|split; [|split; [|split]]]].
  - rewrite !length_app, length_take, length_drop. lia.
  - rewrite drop_app_length'; [|rewrite length_take; lia].
    rewrite take_app_length'; [done|lia].
  - rewrite !memory_reads_effects, Heff, !omap_app, Hrd. simpl.
    destruct (is_erased sec =? 1); simpl; by rewrite ?app_nil_r.
  - rewrite !erase_triggers_effects, Heff, !omap_app, Htr by done. simpl.
    destruct (is_erased sec =? 1); simpl; rewrite ?Z.eqb_refl; by rewrite ?app_nil_r.
  - rewrite !flash_data_effects, Heff, !bind_app, Hdata. simpl.
    destruct (is_erased sec =? 1); simpl; done.
  - done.
Qed.

(** ** nrf52_ll_flash_write: the words written and the working areas *)

Lemma wait_for_nvmc_loop_polls n (s : state T) :
  ∃ res s' evs, nrf52_wait_for_nvmc_loop n s = Done res s' ∧
    trace s' = evs ++ trace s ∧ Forall polling_event evs.
Proof.
  revert s. induction n as [|n IH]; intros s; simpl;
    unfold bind, read_u32;
    destruct (target_read_u32 _ _) as [[res v] t'];
    simpl; destruct (res =? ERROR_OK); simpl;
    try destruct (wrap32 v =? NRF52_NVMC_READY); simpl;
    try (eexists _, _, [_]; split; [reflexivity|]; split; [reflexivity|];
         by repeat constructor).
  - eexists _, _, [_; _]. split; [reflexivity|]. split; [reflexivity|].
    by repeat constructor.
  - edestruct IH as (r & s' & evs & -> & Htr & Hall).
    eexists _, _, (evs ++ [_; _]). split; [reflexivity|].
    split; [by rewrite Htr, <- app_assoc|].
    apply Forall_app. split; [done|]. by repeat constructor.
Qed.

Lemma word_writes_polling evs tr :
  Forall polling_event evs → word_writes (evs ++ tr) = word_writes tr.
Proof. induction 1 as [|e evs He _ IH]; [done|]. by destruct e. Qed.

Lemma areas_obtained_polling evs tr :
  Forall polling_event evs → areas_obtained (evs ++ tr) = areas_obtained tr.
Proof. induction 1 as [|e evs He _ IH]; [done|]. by destruct e. Qed.

Lemma areas_released_polling evs tr :
  Forall polling_event evs → areas_released (evs ++ tr) = areas_released tr.
Proof. induction 1 as [|e evs He _ IH]; [done|]. by destruct e. Qed.

(** The [k]-th word of the fallback loop: its address and its bytes. *)
Lemma ll_flash_write_slow_words fuel (s s' : state T) offset buffer bytes :
  uint32 offset → 0 ≤ bytes < 2 ^ 32 → bytes mod 4 = 0 →
  nrf52_ll_flash_write_slow fuel offset buffer bytes s = Done ERROR_OK s' →
  word_writes (trace s') = word_writes (trace s) ++
    ((fun k => (wrap32 (offset + 4 * k), take 4 (drop (Z.to_nat (4 * k)) buffer)))
       <$> seqZ 0 (bytes / 4)).
Proof.
  revert s offset buffer bytes.
  induction fuel as [|fuel IH]; intros s offset buffer bytes Ho Hb Hm; [done|].
  simpl. destruct (bytes >? 0) eqn:Hpos.
  2:{ intros [= <-]. rewrite Z.gtb_ltb in Hpos. apply Z.ltb_ge in Hpos.
      assert (bytes = 0) as -> by lia. simpl. by rewrite app_nil_r. }
  apply Z.gtb_lt in Hpos.
  unfold bind at 1, write_memory.
  destruct (target_write_memory _ _ _ _ _) as [r1 t1].
  destruct (r1 =? ERROR_OK) eqn:Hr1; simpl.
  2:{ intros [= -> _]. by rewrite eqb_ok_refl in Hr1. }
  unfold bind at 1.
  destruct (wait_for_nvmc_loop_polls 100
              (call t1 (EvWriteMemory offset 4 1 (take 4 buffer) r1) s))
    as (r2 & s2 & evs & Hw & Htr & Hall).
  unfold nrf52_wait_for_nvmc. rewrite Hw.
  destruct (r2 =? ERROR_OK) eqn:Hr2; simpl.
  2:{ intros [= -> _]. by rewrite eqb_ok_refl in Hr2. }
  apply Z.div_exact in Hm; [|lia].
  assert (1 ≤ bytes / 4) as Hq by lia.
  rewrite (wrap32_small (bytes - 4)) by lia.
  intros Hrun. apply IH in Hrun; [|apply Z.mod_pos_bound; lia|lia|].
  2:{ replace (bytes - 4) with ((bytes / 4 - 1) * 4) by lia. apply Z.mod_mul. lia. }
  rewrite Hrun, Htr, word_writes_polling by done. simpl.
  rewrite <- app_assoc. f_equal.
  replace ((bytes - 4) / 4) with (bytes / 4 - 1).
  2:{ replace (bytes - 4) with ((bytes / 4 - 1) * 4) by lia.
      by rewrite Z.div_mul by lia. }
  rewrite (seqZ_cons 0 (bytes / 4)) by lia. simpl.
  rewrite Z.add_0_r, (wrap32_small offset) by done. f_equal.
  replace (Z.succ 0) with (1 + 0) by lia. replace (Z.pred (bytes / 4)) with (bytes / 4 - 1) by lia.
  rewrite <- fmap_add_seqZ, <- list_fmap_compose.
  apply list_fmap_ext. intros i k Hk. simpl.
  apply lookup_seqZ in Hk as [-> Hi]. f_equal.
  - unfold wrap32. rewrite Zplus_mod_idemp_l. f_equal. lia.
  - rewrite drop_drop. do 2 f_equal. lia.
Qed.

(** X16. When no working area can be had for the loader, a successful
    [nrf52_ll_flash_write] has written the buffer one word at a time: word
    [k], the four bytes of the buffer from [4k] on, goes to address
    [offset + 4k] in 32-bit arithmetic. *)
Theorem ll_flash_write_word_addresses (s s' : state T) (offset : Z)
    (buffer : list Z) (bytes : Z) :
  uint32 offset → uint32 bytes →
  (target_alloc_working_area 32 (target s)).1.1 ≠ ERROR_OK →
  nrf52_ll_flash_write offset buffer bytes s = Done ERROR_OK s' →
  bytes mod 4 = 0 ∧
  word_writes (trace s') = word_writes (trace s) ++
    ((fun k => (wrap32 (offset + 4 * k), take 4 (drop (Z.to_nat (4 * k)) buffer)))
       <$> seqZ 0 (bytes / 4)).
Proof.
  intros Ho Hb Halloc Hrun.
  destruct (decide (bytes mod 4 = 0)) as [Hm|Hm].
  2:{ by rewrite ll_flash_write_misaligned in Hrun. }
  split; [done|]. revert Hrun.
  unfold nrf52_ll_flash_write, bind at 1, assert.
  apply Z.eqb_eq in Hm as Hm'. rewrite Hm'. unfold ret at 1.
  unfold bind at 1, alloc_working_area.
  change (Z.of_nat (length nrf52_flash_write_code)) with 32.
  destruct (target_alloc_working_area 32 (target s)) as [[r wa] t1].
  simpl in Halloc. apply Z.eqb_neq in Halloc. cbn [fst snd]. rewrite Halloc.
  cbn [negb]. intros Hrun. apply ll_flash_write_slow_words in Hrun; [|done..].
  exact Hrun.
Qed.

Lemma ll_flash_write_slow_areas fuel (s s' : state T) offset buffer bytes res :
  nrf52_ll_flash_write_slow fuel offset buffer bytes s = Done res s' →
  areas_obtained (trace s') = areas_obtained (trace s) ∧
  areas_released (trace s') = areas_released (trace s).
Proof.
  revert s offset buffer bytes.
  induction fuel as [|fuel IH]; intros s offset buffer bytes; [done|].
  simpl. destruct (bytes >? 0); [|by intros [= _ <-]].
  unfold bind at 1, write_memory.
  destruct (target_write_memory _ _ _ _ _) as [r1 t1].
  destruct (r1 =? ERROR_OK); simpl; [|by intros [= _ <-]].
  unfold bind at 1.
  destruct (wait_for_nvmc_loop_polls 100
              (call t1 (EvWriteMemory offset 4 1 (take 4 buffer) r1) s))
    as (r2 & s2 & evs & Hw & Htr & Hall).
  unfold nrf52_wait_for_nvmc. rewrite Hw.
  assert (areas_obtained (trace s2) = areas_obtained (trace s) ∧
          areas_released (trace s2) = areas_released (trace s)) as [Ho Hr].
  { by rewrite Htr, areas_obtained_polling, areas_released_polling. }
  destruct (r2 =? ERROR_OK); simpl; [|by intros [= _ <-]].
  intros Hrun. apply IH in Hrun as [-> ->]. done.
Qed.

Lemma ll_flash_write_source_areas fuel (s s' : state T) wa size r :
  nrf52_ll_flash_write_source fuel wa size s = Done r s' →
  match r with
  | inl _ => areas_obtained (trace s') = areas_obtained (trace s) ∧
             areas_released (trace s') = areas_released (trace s) ++ [wa]
  | inr source => areas_obtained (trace s') = areas_obtained (trace s) ++ [source] ∧
                  areas_released (trace s') = areas_released (trace s)
  end.
Proof.
  revert s size. induction fuel as [|fuel IH]; intros s size; [done|].
  simpl. unfold bind at 1, alloc_working_area.
  destruct (target_alloc_working_area _ _) as [[r1 area] t1].
  simpl. destruct (r1 =? ERROR_OK) eqn:Hr1; simpl.
  { intros [= <- <-]. simpl. by rewrite Hr1. }
  destruct (_ <=? 256).
  - unfold bind, free_working_area, ret. intros [= <- <-]. simpl. by rewrite Hr1.
  - intros Hrun. apply IH in Hrun. simpl in Hrun. by rewrite Hr1 in Hrun.
Qed.

(** X17. Every working area [nrf52_ll_flash_write] obtains it has
    released by the time it returns, last obtained first, with one
    exception: when copying the loader program into its area fails, the
    function returns the code of that failure with the area still held. *)
Theorem ll_flash_write_working_areas (s s' : state T) (offset : Z)
    (buffer : list Z) (bytes res : Z) :
  nrf52_ll_flash_write offset buffer bytes s = Done res s' →
  ∃ obtained released,
    areas_obtained (trace s') = areas_obtained (trace s) ++ obtained ∧
    areas_released (trace s') = areas_released (trace s) ++ released ∧
    (released = reverse obtained ∨
     ∃ area a sz data,
       obtained = [area] ∧ released = [] ∧ res ≠ ERROR_OK ∧
       head (trace s') = Some (EvWriteBuffer a sz data res)).
Proof.
  unfold nrf52_ll_flash_write, bind at 1, assert.
  destruct (bytes mod 4 =? 0); [|done]. unfold ret at 1.
  unfold bind at 1, alloc_working_area.
  destruct (target_alloc_working_area _ _) as [[r wa] t1].
  cbn [fst snd]. destruct (r =? ERROR_OK) eqn:Hr; cbn [negb].
  2:{ intros Hrun. apply ll_flash_write_slow_areas in Hrun as [Ho Hrel].
      simpl in Ho, Hrel. rewrite Hr in Ho.
      exists [], []. rewrite !app_nil_r. split; [done|]. split; [done|]. by left. }
  unfold bind at 1, write_buffer.
  destruct (target_write_buffer _ _ _ _) as [r2 t2].
  destruct (r2 =? ERROR_OK) eqn:Hr2; cbn [negb].
  2:{ intros [= <- <-]. simpl. rewrite Hr.
      exists [wa], []. rewrite app_nil_r. split; [done|]. split; [done|].
      right. exists wa. eexists _, _, _. split; [done|]. split; [done|].
      split; [by apply Z.eqb_neq|done]. }
  unfold bind at 1.
  destruct (nrf52_ll_flash_write_source _ _ _ _) as [[retval|source] s3|] eqn:Hsrc;
    [| |done]; apply ll_flash_write_source_areas in Hsrc as [Ho Hrel];
    simpl in Ho, Hrel; rewrite Hr in Ho.
  - intros [= <- <-]. exists [wa], [wa]. split; [done|]. split; [done|]. by left.
  - unfold bind, run_flash_async_algorithm, free_working_area, ret.
    destruct (target_run_flash_async_algorithm _ _ _ _ _ _ _ _) as [r4 t4].
    intros [= <- <-]. simpl. rewrite Ho, Hrel.
    exists [wa; source], [source; wa]. rewrite <- !app_assoc.
    split; [done|]. split; [done|]. by left.
Qed.

(** ** Bank set-up and probing *)

(** The probed flag a probe sets is the one of the region the bank's base
    selects. *)
Lemma probe_flags (s s' : state T) res :
  nrf52_probe s = Done res s' →
  (res = ERROR_OK →
   if base (bank s) =? NRF52_FLASH_BASE_ADDR
   then probed0 (chip s') = true ∧ probed1 (chip s') = probed1 (chip s)
   else probed0 (chip s') = probed0 (chip s) ∧ probed1 (chip s') = true) ∧
  (res ≠ ERROR_OK →
   probed0 (chip s') = probed0 (chip s) ∧ probed1 (chip s') = probed1 (chip s)).
Proof.
  unfold nrf52_probe, bind, read_u32, get_chip, put_chip, get_bank, put_bank,
    alloc_sectors, nrf52_protect_check, ret, fail; simpl.
  destruct (target_read_u32 NRF52_FICR_CODEPAGESIZE_ADDR (target s))
    as [[r1 v1] t1]; simpl.
  destruct (r1 =? ERROR_OK) eqn:Hr1; simpl.
  2:{ intros [= <- <-]. split; [|done]. intros ->. by rewrite eqb_ok_refl in Hr1. }
  destruct (target_read_u32 NRF52_FICR_CODESIZE_ADDR t1) as [[r2 v2] t2]; simpl.
  destruct (r2 =? ERROR_OK) eqn:Hr2; simpl.
  2:{ intros [= <- <-]. split; [|done]. intros ->. by rewrite eqb_ok_refl in Hr2. }
  destruct (base (bank s) =? NRF52_FLASH_BASE_ADDR); simpl.
  - destruct (wrap32 v1 =? 0); simpl; [done|].
    destruct (_ <? 0); simpl.
    { intros [= <- <-]. split; [|done].
      intros Hbad. by destruct ERROR_FLASH_BANK_NOT_PROBED_not_ok. }
    destruct (calloc _ t2) as [[|] t3]; simpl; intros [= <- <-]; simpl.
    + by split.
    + split; [|done]. intros Hbad. by destruct ERROR_FLASH_BANK_NOT_PROBED_not_ok.
  - destruct (calloc 1 t2) as [[|] t3]; simpl; intros [= <- <-]; simpl.
    + by split.
    + split; [|done]. intros Hbad. by destruct ERROR_FLASH_BANK_NOT_PROBED_not_ok.
Qed.

(** X18. A probe only reads the target: however it ends, it has written
    no register, changed no mode, read no target memory and programmed
    nothing, and the bank keeps its base and number.  When it succeeds it
    has set the probed flag of the region the bank's base selects and left
    the other region's flag alone; when it returns an error both flags
    are as before. *)
Theorem probe_reads_only (s : state T) :
  effects (trace (final (nrf52_probe s))) = effects (trace s) ∧
  nvmc_config (trace (final (nrf52_probe s))) = nvmc_config (trace s) ∧
  base (bank (final (nrf52_probe s))) = base (bank s) ∧
  bank_number (bank (final (nrf52_probe s))) = bank_number (bank s) ∧
  ∀ res s', nrf52_probe s = Done res s' →
    (res = ERROR_OK →
     if base (bank s) =? NRF52_FLASH_BASE_ADDR
     then probed0 (chip s') = true ∧ probed1 (chip s') = probed1 (chip s)
     else probed0 (chip s') = probed0 (chip s) ∧ probed1 (chip s') = true) ∧
    (res ≠ ERROR_OK →
     probed0 (chip s') = probed0 (chip s) ∧ probed1 (chip s') = probed1 (chip s)).
Proof.
  destruct (probe_quiet s) as (_ & He & Hm & Hb & Hn).
  repeat (split; [done|]). intros res s'. apply probe_flags.
Qed.

(** What a successful bank command leaves behind. *)
Lemma flash_bank_command_ok (s s1 : state T) static_chip :
  nrf52_flash_bank_command static_chip s = Done ERROR_OK s1 →
  (base (bank s) = NRF52_FLASH_BASE_ADDR ∨ base (bank s) = NRF52_UICR_BASE_ADDR) ∧
  base (bank s1) = base (bank s) ∧
  bank_number (bank s1) = (if base (bank s) =? NRF52_FLASH_BASE_ADDR then 0 else 1) ∧
  (if base (bank s) =? NRF52_FLASH_BASE_ADDR
   then probed0 (chip s1) else probed1 (chip s1)) = false.
Proof.
  unfold nrf52_flash_bank_command, bind at 1, get_bank.
  destruct (base (bank s) =? NRF52_FLASH_BASE_ADDR) eqn:Hf;
    destruct (base (bank s) =? NRF52_UICR_BASE_ADDR) eqn:Hu; simpl.
  4:{ intros [= Hbad _]. by destruct ERROR_FAIL_not_ok. }
  all: unfold bind, put_bank, put_chip, alloc_chip, assert, ret, fail;
    destruct static_chip as [c|]; simpl;
    try (destruct (calloc 1 (target s)) as [[|] t1]; simpl);
    try done; intros [= <-]; simpl;
    (split; [first [apply Z.eqb_eq in Hf|apply Z.eqb_eq in Hu]; auto|]); done.
Qed.

(** X19. After a successful bank command the bank counts as not probed,
    so [nrf52_auto_probe] does what [nrf52_probe] does; and once that probe
    has succeeded, [nrf52_auto_probe] returns success without calling the
    target or changing anything. *)
Theorem auto_probe_after_bank_command (s s1 : state T)
    (static_chip : option nrf52_info) :
  nrf52_flash_bank_command static_chip s = Done ERROR_OK s1 →
  nrf52_auto_probe s1 = nrf52_probe s1 ∧
  ∀ s2, nrf52_probe s1 = Done ERROR_OK s2 →
        nrf52_auto_probe s2 = Done ERROR_OK s2.
Proof.
  intros (Hbase & Hb1 & Hn1 & Hflag)%flash_bank_command_ok.
  assert ((base (bank s) =? NRF52_FLASH_BASE_ADDR)
          = (bank_number (bank s1) =? 0)) as Hsel.
  { rewrite Hn1. by destruct (base (bank s) =? NRF52_FLASH_BASE_ADDR). }
  split.
  - unfold nrf52_auto_probe, nrf52_bank_is_probed, bind, get_bank, get_chip, ret.
    rewrite <- Hsel. by rewrite Hflag.
  - intros s2 Hprobe.
    destruct (probe_quiet s1) as (_ & _ & _ & Hb2 & Hn2).
    rewrite Hprobe in Hb2, Hn2. simpl in Hb2, Hn2.
    destruct (probe_flags _ _ _ Hprobe) as [Hok _]. specialize (Hok eq_refl).
    rewrite Hb1 in Hok.
    unfold nrf52_auto_probe, nrf52_bank_is_probed, bind, get_bank, get_chip, ret.
    rewrite Hn2, <- Hsel.
    destruct (base (bank s) =? NRF52_FLASH_BASE_ADDR); destruct Hok as [H0 H1];
      [by rewrite H0|by rewrite H1].
Qed.

(** X20. The bank command accepts a bank only at the base of the code
    region or of the configuration region: at any other base it returns
    the failure code and changes nothing.  Where it succeeds it calls the
    target at most to allocate the chip descriptor, and [nrf52_write] on
    the bank then runs the write strategy of the region at that base. *)
Theorem bank_command_selects_strategy (s : state T)
    (static_chip : option nrf52_info) :
  (base (bank s) ≠ NRF52_FLASH_BASE_ADDR → base (bank s) ≠ NRF52_UICR_BASE_ADDR →
   nrf52_flash_bank_command static_chip s = Done ERROR_FAIL s) ∧
  ∀ s1, nrf52_flash_bank_command static_chip s = Done ERROR_OK s1 →
    effects (trace s1) = effects (trace s) ∧
    nvmc_config (trace s1) = nvmc_config (trace s) ∧
    sectors (bank s1) = sectors (bank s) ∧
    ∀ buffer offset count,
      nrf52_write buffer offset count s1 =
        if base (bank s) =? NRF52_FLASH_BASE_ADDR
        then nrf52_code_flash_write buffer offset count s1
        else nrf52_uicr_flash_write buffer offset count s1.
Proof.
  split.
  - intros Hf%Z.eqb_neq Hu%Z.eqb_neq.
    unfold nrf52_flash_bank_command, bind, get_bank. by rewrite Hf, Hu.
  - intros s1 Hrun.
    pose proof (flash_bank_command_ok _ _ _ Hrun) as (_ & _ & Hn & _).
    assert (effects (trace s1) = effects (trace s) ∧
            nvmc_config (trace s1) = nvmc_config (trace s) ∧
            sectors (bank s1) = sectors (bank s)) as (He & Hm & Hs).
    { revert Hrun. unfold nrf52_flash_bank_command, bind at 1, get_bank.
      destruct (negb _); [intros [= Hbad _]; by destruct ERROR_FAIL_not_ok|].
      unfold bind, put_bank, put_chip, alloc_chip, assert, ret, fail.
      destruct static_chip as [c|]; simpl;
        try (destruct (calloc 1 (target s)) as [[|] t1]; simpl);
        try done; by intros [= <-]. }
    repeat (split; [done|]). intros buffer offset count.
    unfold nrf52_write, bind, get_bank. rewrite Hn.
    by destruct (base (bank s) =? NRF52_FLASH_BASE_ADDR).
Qed.

(** ** nrf52_erase_all *)

(** X21. [nrf52_erase_all] always returns, and leaves the chip descriptor
    and the bank as they were: the erased marks of the sectors are not
    touched by it.  It submits no data and reads no target memory; the
    only register it can write besides the mode register is the
    erase-all trigger, with value 1; and when it reports success it has
    written that trigger exactly once and the mode last acknowledged is
    read-only. *)
Theorem erase_all_outcome (s : state T) :
  ∃ res s', nrf52_erase_all s = Done res s' ∧
    chip s' = chip s ∧ bank s' = bank s ∧
    (effects (trace s') = effects (trace s) ∨
     effects (trace s') = effects (trace s) ++ [RegWrite NRF52_NVMC_ERASEALL_ADDR 1]) ∧
    (res = ERROR_OK →
     effects (trace s') = effects (trace s) ++ [RegWrite NRF52_NVMC_ERASEALL_ADDR 1] ∧
     nvmc_config (trace s') = Some NRF52_NVMC_CONFIG_REN) ∧
    flash_data (trace s') = flash_data (trace s) ∧
    memory_reads (trace s') = memory_reads (trace s).
Proof.
  destruct (nvmc_generic_erase_returns s NRF52_NVMC_ERASEALL_ADDR 1)
    as (res & s' & Hrun & Hc & Hb & He & Hok); [done|].
  exists res, s'. repeat (split; [done|]).
  rewrite !flash_data_effects, !memory_reads_effects.
  destruct He as [-> | ->]; [done|].
  rewrite bind_app, omap_app. simpl. by rewrite !app_nil_r.
Qed.

(** ** Requests for working areas *)

Lemma alloc_requests_polling evs tr :
  Forall polling_event evs → alloc_requests (evs ++ tr) = alloc_requests tr.
Proof. induction 1 as [|e evs He _ IH]; [done|]. by destruct e. Qed.

Lemma ll_flash_write_slow_requests fuel (s : state T) offset buffer bytes :
  alloc_requests (trace (final (nrf52_ll_flash_write_slow fuel offset buffer bytes s)))
    = alloc_requests (trace s).
Proof.
  revert s offset buffer bytes.
  induction fuel as [|fuel IH]; intros s offset buffer bytes; [done|].
  simpl. destruct (bytes >? 0); [|done].
  unfold bind at 1, write_memory.
  destruct (target_write_memory _ _ _ _ _) as [r1 t1].
  destruct (r1 =? ERROR_OK); cbn [negb]; [|done].
  unfold bind at 1.
  destruct (wait_for_nvmc_loop_polls 100
              (call t1 (EvWriteMemory offset 4 1 (take 4 buffer) r1) s))
    as (r2 & s2 & evs & Hw & Htr & Hall).
  unfold nrf52_wait_for_nvmc. rewrite Hw.
  assert (alloc_requests (trace s2) = alloc_requests (trace s)) as Hs2.
  { by rewrite Htr, alloc_requests_polling. }
  destruct (r2 =? ERROR_OK); cbn [negb]; [|done].
  by rewrite IH.
Qed.

Lemma ll_flash_write_source_requests fuel (s : state T) wa size :
  ∃ l, alloc_requests (trace (final (nrf52_ll_flash_write_source fuel wa size s)))
         = alloc_requests (trace s) ++ l ∧
       l `prefix_of` buffer_sizes fuel size.
Proof.
  revert s size. induction fuel as [|fuel IH]; intros s size.
  { exists []. split; [by rewrite app_nil_r|apply prefix_nil]. }
  simpl. unfold bind at 1, alloc_working_area.
  destruct (target_alloc_working_area _ _) as [[r1 area] t1].
  cbn [fst snd]. destruct (r1 =? ERROR_OK); cbn [negb].
  { exists [size]. split; [done|]. apply prefix_cons, prefix_nil. }
  destruct (_ <=? 256).
  - exists [size]. split; [done|]. apply prefix_cons, prefix_nil.
  - destruct (IH (call t1 (EvAlloc size r1 area) s)
                (wrap32 (Z.land (size / 2) (Z.lnot 3)))) as (l & Hl & Hpre).
    exists (size :: l). split.
    + rewrite Hl. simpl. by rewrite <- app_assoc.
    + by apply prefix_cons.
Qed.

(** X22. However it ends, the working areas [nrf52_ll_flash_write] asks
    for are an initial part of this sequence of sizes: 32 bytes for the
    loader program, then buffers of 8192, 4096, 2048, 1024 and 512 bytes.
    So it makes at most six requests, and never asks for a buffer of 256
    bytes or fewer. *)
Theorem ll_flash_write_requests (s : state T) (offset : Z) (buffer : list Z)
    (bytes : Z) :
  ∃ l,
    alloc_requests (trace (final (nrf52_ll_flash_write offset buffer bytes s)))
      = alloc_requests (trace s) ++ l ∧
    l `prefix_of` [32; 8192; 4096; 2048; 1024; 512].
Proof.
  unfold nrf52_ll_flash_write, bind at 1, assert.
  destruct (bytes mod 4 =? 0).
  2:{ exists []. split; [by rewrite app_nil_r|apply prefix_nil]. }
  unfold ret at 1. unfold bind at 1, alloc_working_area.
  change (Z.of_nat (length nrf52_flash_write_code)) with 32.
  destruct (target_alloc_working_area _ _) as [[r wa] t1].
  cbn [fst snd]. destruct (r =? ERROR_OK); cbn [negb].
  2:{ rewrite ll_flash_write_slow_requests. exists [32].
      split; [done|]. apply prefix_cons, prefix_nil. }
  unfold bind at 1, write_buffer.
  destruct (target_write_buffer _ _ _ _) as [r2 t2].
  destruct (r2 =? ERROR_OK); cbn [negb].
  2:{ exists [32]. split; [done|]. apply prefix_cons, prefix_nil. }
  unfold bind at 1.
  destruct (ll_flash_write_source_requests 32
              (call t2 (EvWriteBuffer (wa_address wa) 32 nrf52_flash_write_code r2)
                 (call t1 (EvAlloc 32 r wa) s)) wa 8192) as (l & Hl & Hpre).
  change (buffer_sizes 32 8192) with [8192; 4096; 2048; 1024; 512] in Hpre.
  exists (32 :: l). split; [|by apply prefix_cons].
  destruct (nrf52_ll_flash_write_source _ _ _ _) as [[retval|source] s3|f s3];
    simpl in Hl |- *.
  - rewrite Hl. by rewrite <- app_assoc.
  - unfold bind, run_flash_async_algorithm, free_working_area, ret.
    destruct (target_run_flash_async_algorithm _ _ _ _ _ _ _ _) as [r4 t4].
    simpl. rewrite Hl. by rewrite <- app_assoc.
  - rewrite Hl. by rewrite <- app_assoc.
Qed.

(** ** Failures on the way *)

(** X23. When the read of the head of the first page fails, a write to
    the code region does not succeed, and that read is the only
    flash-relevant call it has made: nothing is erased and nothing
    submitted for programming. *)
Theorem code_write_read_failure (s : state T) (buffer : list Z) (offset count : Z) :
  code_page_size (chip s) ≠ 0 →
  let first := wrap32 (offset / code_page_size (chip s) * code_page_size (chip s)) in
  let pre := wrap32 (offset - first) in
  0 < pre →
  (target_read_memory first 1 pre (target s)).1.1 ≠ ERROR_OK →
  (∀ s', nrf52_code_flash_write buffer offset count s ≠ Done ERROR_OK s') ∧
  effects (trace (final (nrf52_code_flash_write buffer offset count s)))
    = effects (trace s) ++ [MemRead first 1 pre].
Proof.
  intros Hz first pre Hpre Hread.
  assert (match nrf52_code_flash_write buffer offset count s with
          | Done res s' => res ≠ ERROR_OK ∧
                           effects (trace s') = effects (trace s) ++ [MemRead first 1 pre]
          | Fault _ s' => effects (trace s') = effects (trace s) ++ [MemRead first 1 pre]
          end) as Hcase.
  2:{ destruct (nrf52_code_flash_write buffer offset count s) as [res s'|f s'];
        simpl; [|by split].
      destruct Hcase as [Hres ?]. split; [|done]. by intros s'' [= -> _]. }
  unfold nrf52_code_flash_write, bind at 1, get_chip.
  apply Z.eqb_neq in Hz. rewrite Hz. unfold bind at 1, ret at 1.
  fold first. fold pre.
  apply Z.gtb_lt in Hpre. rewrite Hpre.
  unfold bind at 1. unfold bind at 1, read_memory.
  destruct (target_read_memory first 1 pre (target s)) as [[r d] t1].
  simpl in Hread. apply Z.eqb_neq in Hread. cbn [fst snd].
  destruct (blit _ 0 _ pre); [|done].
  unfold ret at 1. cbn [fst snd]. rewrite Hread. cbn [negb]. unfold ret.
  split; [by apply Z.eqb_neq|done].
Qed.

(** X24. A write issued right after the bank command, before any probe,
    with a chip descriptor freshly allocated: in the code region it divides
    by the page size, which is still zero, so its behaviour is undefined;
    in the configuration region every write of at least one byte is
    rejected with the failure code, the region's size being zero.  Neither
    calls the target. *)
Theorem write_before_probe (s s1 : state T) (buffer : list Z) (offset count : Z) :
  nrf52_flash_bank_command None s = Done ERROR_OK s1 →
  (base (bank s) = NRF52_FLASH_BASE_ADDR →
   nrf52_write buffer offset count s1 = Fault UndefinedBehaviour s1) ∧
  (base (bank s) = NRF52_UICR_BASE_ADDR → 0 < wrap32 (offset + count) →
   nrf52_write buffer offset count s1 = Done ERROR_FAIL s1).
Proof.
  intros Hrun.
  pose proof (flash_bank_command_ok _ _ _ Hrun) as (_ & _ & Hn & _).
  assert (code_page_size (chip s1) = 0) as Hps.
  { revert Hrun. unfold nrf52_flash_bank_command, bind at 1, get_bank.
    destruct (negb _); [intros [= Hbad _]; by destruct ERROR_FAIL_not_ok|].
    unfold bind, put_bank, put_chip, alloc_chip, assert, ret, fail. simpl.
    destruct (calloc 1 (target s)) as [[|] t1]; simpl; [|done].
    intros [= <-]. simpl. unfold clear_probed. by destruct (_ =? 0). }
  split.
  - intros Hb. rewrite Hb in Hn. simpl in Hn.
    unfold nrf52_write, bind at 1, get_bank. rewrite Hn. simpl.
    unfold nrf52_code_flash_write, bind, get_chip. by rewrite Hps.
  - intros Hb Hpos. rewrite Hb in Hn. simpl in Hn.
    unfold nrf52_write, bind at 1, get_bank. rewrite Hn. simpl.
    unfold nrf52_uicr_flash_write, bind, get_chip. rewrite Hps.
    apply Z.gtb_lt in Hpos. by rewrite Hpos.
Qed.

(** X25. [nrf52_erase_page] does not look at the result of the write to
    the erase trigger: when that write fails but the controller is set
    back to read-only mode without error, the page erase reports success
    and the sector is marked erased. *)
Theorem erase_page_ignores_trigger_failure (s s1 s3 : state T) (i : nat)
    (sec : flash_sector) (r : Z) (t2 : T) :
  sectors (bank s) !! i = Some sec → is_protected sec ≠ 1 →
  nrf52_nvmc_erase_enable s = Done ERROR_OK s1 →
  target_write_u32 (erase_register (bank s)) (erase_value (bank s) sec) (target s1)
    = (r, t2) →
  r ≠ ERROR_OK →
  nrf52_nvmc_read_only
    (call t2 (EvWriteU32 (erase_register (bank s)) (erase_value (bank s) sec) r) s1)
    = Done ERROR_OK s3 →
  ∃ s', nrf52_erase_page i s = Done ERROR_OK s' ∧
        sectors (bank s') !! i = Some (set_is_erased 1 sec) ∧
        trace s' = trace s3.
Proof.
  intros Hi Hprot%Z.eqb_neq Hen Hw Hr Hro.
  destruct (nvmc_erase_enable_returns s) as (r0 & s1' & Hen' & (Hc1 & Hb1 & _) & _).
  rewrite Hen in Hen'. injection Hen' as <- <-.
  destruct (nvmc_read_only_returns
              (call t2 (EvWriteU32 (erase_register (bank s)) (erase_value (bank s) sec) r) s1))
    as (r3 & s3' & Hro' & (Hc3 & Hb3 & _) & _).
  rewrite Hro in Hro'. injection Hro' as <- <-. simpl in Hb3.
  assert (sectors (bank s3) !! i = Some sec) as Hi3 by (by rewrite Hb3, Hb1).
  eexists. split.
  - unfold nrf52_erase_page, bind at 1, sector. rewrite Hi, Hprot.
    unfold bind at 1, get_bank. unfold bind at 1.
    assert (nrf52_nvmc_generic_erase (erase_register (bank s)) (erase_value (bank s) sec) s
            = Done ERROR_OK s3) as Hge.
    { unfold nrf52_nvmc_generic_erase, bind at 1. rewrite Hen, eqb_ok_refl.
      cbn [negb]. unfold bind, write_u32. by rewrite Hw. }
    unfold erase_register, erase_value in Hge.
    destruct (base (bank s) =? NRF52_UICR_BASE_ADDR); rewrite Hge, eqb_ok_refl;
      unfold bind; rewrite (mark_erased_done s3 i sec Hi3); reflexivity.
  - simpl. split; [by apply bank_erased_lookup|done].
Qed.

(** X26. A probe stops short of returning in one situation only: in the
    code region, when the page size register reads zero after both
    identity registers were read without error, where the number of
    sectors is a quotient by zero.  Everywhere else it returns. *)
Theorem probe_faults_only_on_zero_page_size (s : state T) :
  (∃ res s', nrf52_probe s = Done res s') ∨
  (∃ s', nrf52_probe s = Fault UndefinedBehaviour s' ∧
         base (bank s) = NRF52_FLASH_BASE_ADDR ∧ code_page_size (chip s') = 0 ∧
         bank s' = bank s).
Proof.
  unfold nrf52_probe, bind, read_u32, get_chip, put_chip, get_bank, put_bank,
    alloc_sectors, nrf52_protect_check, ret, fail; simpl.
  destruct (target_read_u32 NRF52_FICR_CODEPAGESIZE_ADDR (target s))
    as [[r1 v1] t1]; simpl.
  destruct (r1 =? ERROR_OK); simpl; [|left; by eexists _, _].
  destruct (target_read_u32 NRF52_FICR_CODESIZE_ADDR t1) as [[r2 v2] t2]; simpl.
  destruct (r2 =? ERROR_OK); simpl; [|left; by eexists _, _].
  destruct (base (bank s) =? NRF52_FLASH_BASE_ADDR) eqn:Hb; simpl.
  - destruct (wrap32 v1 =? 0) eqn:Hz; simpl.
    { right. eexists. split; [done|]. simpl.
      apply Z.eqb_eq in Hb, Hz. by repeat split. }
    destruct (_ <? 0); simpl; [left; by eexists _, _|].
    destruct (calloc _ t2) as [[|] t3]; simpl; left; by eexists _, _.
  - destruct (calloc 1 t2) as [[|] t3]; simpl; left; by eexists _, _.
Qed.

(** ** An erase that fails *)

Lemma erase_page_failed (s s' : state T) i res :
  nrf52_erase_page i s = Done res s' → res ≠ ERROR_OK →
  chip s' = chip s ∧ bank s' = bank s ∧
  ∃ l, effects (trace s') = effects (trace s) ++ l ∧
       (l = [] ∨ ∃ t, sector_trigger (bank s) (Z.of_nat i) = Some t ∧ l = [t]).
Proof.
  unfold nrf52_erase_page, bind at 1, sector.
  destruct (sectors (bank s) !! i) as [sec|] eqn:Hi; [|done].
  destruct (is_protected sec =? 1).
  { intros [= <- <-] _. repeat (split; [done|]). exists [].
    split; [by rewrite app_nil_r|by left]. }
  unfold bind at 1, get_bank. unfold bind at 1.
  assert (sector_trigger (bank s) (Z.of_nat i) =
          Some (RegWrite (erase_register (bank s)) (erase_value (bank s) sec))) as Ht.
  { unfold sector_trigger. by rewrite Nat2Z.id, Hi. }
  unfold erase_register, erase_value in Ht.
  destruct (base (bank s) =? NRF52_UICR_BASE_ADDR).
  - destruct (nvmc_generic_erase_returns s NRF52_NVMC_ERASEUICR_ADDR 1)
      as (r & s1 & -> & Hc & Hb & He & _); [done|].
    destruct (r =? ERROR_OK) eqn:Hr.
    { apply Z.eqb_eq in Hr. subst r. unfold bind.
      destruct (mark_erased i 1 s1); [|done]. by intros [= <- _] ?. }
    unfold bind, ret. intros [= <- <-] _. repeat (split; [done|]).
    destruct He as [He|He]; [exists []|eexists [_]]; split;
      rewrite ?He, ?app_nil_r; eauto.
  - destruct (nvmc_generic_erase_returns s NRF52_NVMC_ERASEPAGE_ADDR (offset sec))
      as (r & s1 & -> & Hc & Hb & He & _); [done|].
    destruct (r =? ERROR_OK) eqn:Hr.
    { apply Z.eqb_eq in Hr. subst r. unfold bind.
      destruct (mark_erased i 1 s1); [|done]. by intros [= <- _] ?. }
    unfold bind, ret. intros [= <- <-] _. repeat (split; [done|]).
    destruct He as [He|He]; [exists []|eexists [_]]; split;
      rewrite ?He, ?app_nil_r; eauto.
Qed.

Lemma erase_loop_failed indices (s s' : state T) res :
  Forall (fun i => 0 ≤ i) indices →
  nrf52_erase_loop indices ERROR_OK s = Done res s' → res ≠ ERROR_OK →
  ∃ done_ k rest l,
    indices = done_ ++ k :: rest ∧
    effects (trace s') = effects (trace s) ++ omap (sector_trigger (bank s)) done_ ++ l ∧
    (l = [] ∨ ∃ t, sector_trigger (bank s) k = Some t ∧ l = [t]) ∧
    (∀ i, i ∈ done_ →
       ∃ sec, sectors (bank s) !! Z.to_nat i = Some sec ∧
              sectors (bank s') !! Z.to_nat i = Some (set_is_erased 1 sec)) ∧
    (∀ j : nat, Z.of_nat j ∉ done_ → sectors (bank s') !! j = sectors (bank s) !! j).
Proof.
  intros Hpos. revert s. induction Hpos as [|i rest Hi Hrest IH]; intros s; simpl.
  { intros [= <- _] Hbad. done. }
  rewrite eqb_ok_refl.
  destruct (i <? 0) eqn:Hneg; [apply Z.ltb_lt in Hneg; lia|].
  unfold bind at 1, ret. unfold bind at 1.
  destruct (nrf52_erase_page (Z.to_nat i) s) as [r1 s1|] eqn:Hep; [|done].
  destruct (decide (r1 = ERROR_OK)) as [->|Hr1].
  - intros Hloop Hres.
    destruct (erase_page_ok _ _ _ Hep) as (sec & Hsec & Hc1 & Hb1 & He1 & _).
    destruct (IH s1 Hloop Hres)
      as (done_ & k & rest' & l & -> & He & Hl & Hin & Hout).
    exists (i :: done_), k, rest', l. split; [done|].
    assert (∀ j, sector_trigger (bank s1) j = sector_trigger (bank s) j) as Htrig.
    { intros j. rewrite Hb1. apply sector_trigger_bank_erased. }
    split; [|split; [|split]].
    + rewrite He, He1, <- !app_assoc. f_equal. csimpl.
      unfold sector_trigger at 2. rewrite Hsec. simpl. f_equal. f_equal.
      by apply omap_pointwise.
    + destruct Hl as [->|(t & Ht & ->)]; [by left|right].
      exists t. by rewrite <- Htrig.
    + intros j [->|Hj]%elem_of_cons.
      * exists sec. split; [done|].
        destruct (decide (Z.of_nat (Z.to_nat i) ∈ done_)) as [Hdup|Hnd].
        -- rewrite Z2Nat.id in Hdup by done.
           destruct (Hin i Hdup) as (sec1 & Hs1 & ->).
           rewrite Hb1, (bank_erased_lookup _ _ _ Hsec) in Hs1.
           by injection Hs1 as <-.
        -- rewrite (Hout _ Hnd), Hb1. by apply bank_erased_lookup.
      * destruct (Hin j Hj) as (sec1 & Hs1 & Hs').
        rewrite Hb1 in Hs1.
        destruct (decide (Z.to_nat i = Z.to_nat j)) as [Heq|Hne].
        -- rewrite <- Heq in *. rewrite (bank_erased_lookup _ _ _ Hsec) in Hs1.
           injection Hs1 as <-. exists sec. by rewrite Hs'.
        -- rewrite bank_erased_lookup_ne in Hs1 by done. by exists sec1.
    + intros j Hj%not_elem_of_cons. destruct Hj as [Hji Hj].
      rewrite (Hout j Hj), Hb1. apply bank_erased_lookup_ne. lia.
  - rewrite erase_loop_stops by done. intros [= <- <-] _.
    destruct (erase_page_failed _ _ _ _ Hep Hr1) as (Hc & Hb & l & He & Hl).
    exists [], i, rest, l. split; [done|]. split; [done|].
    split; [by rewrite Z2Nat.id in Hl|].
    split; [by intros j ?%elem_of_nil|]. intros j _. by rewrite Hb.
Qed.

Lemma seqZ_split a n (l1 l2 : list Z) k :
  seqZ a n = l1 ++ k :: l2 →
  l1 = seqZ a (Z.of_nat (length l1)) ∧ k = a + Z.of_nat (length l1) ∧
  Z.of_nat (length l1) < n.
Proof.
  intros Heq.
  assert (seqZ a n !! length l1 = Some k) as Hk.
  { rewrite Heq. by apply list_lookup_middle. }
  apply lookup_seqZ in Hk as [Hk Hlt]. split; [|split; [lia|done]].
  remember k as k' eqn:Hk' in Heq. clear Hk'.
  apply list_eq. intros j.
  destruct (decide (j < length l1)%nat) as [Hj|Hj].
  - rewrite <- (lookup_app_l l1 (k' :: l2)) by done. rewrite <- Heq.
    destruct (lookup_lt_is_Some_2 l1 j Hj) as [x Hx].
    rewrite (lookup_seqZ_lt a n j), (lookup_seqZ_lt a (Z.of_nat (length l1)) j);
      [done|lia|lia].
  - rewrite lookup_ge_None_2 by lia.
    symmetry. apply lookup_ge_None_2. rewrite length_seqZ. lia.
Qed.

(** X27. [nrf52_erase] stops at the first sector whose erasure fails:
    when it returns an error, there is a sector [k] of the range such that
    the sectors before it are marked erased and had their triggers
    written in order, the sectors from [k] on are as they were, and at most
    one more trigger was written, the one of sector [k]. *)
Theorem erase_stops_at_failure (s s' : state T) (first last res : Z) :
  0 ≤ first →
  nrf52_erase first last s = Done res s' → res ≠ ERROR_OK →
  ∃ (k : Z) (l : list Z),
    first ≤ k ≤ last ∧
    (∀ i : nat, first ≤ Z.of_nat i < k →
       ∃ sec, sectors (bank s) !! i = Some sec ∧
              sectors (bank s') !! i = Some (set_is_erased 1 sec)) ∧
    (∀ i : nat, ¬ (first ≤ Z.of_nat i < k) →
       sectors (bank s') !! i = sectors (bank s) !! i) ∧
    erase_triggers (erase_register (bank s)) (trace s') =
      erase_triggers (erase_register (bank s)) (trace s) ++
      (erase_value (bank s) <$>
         take (Z.to_nat (k - first)) (drop (Z.to_nat first) (sectors (bank s)))) ++ l ∧
    (l = [] ∨ ∃ sec, sectors (bank s) !! Z.to_nat k = Some sec ∧
                     l = [erase_value (bank s) sec]).
Proof.
  intros Hf Hrun Hres. unfold nrf52_erase in Hrun.
  assert (Forall (fun i => 0 ≤ i) (seqZ first (last - first + 1))) as Hpos.
  { apply list.Forall_forall. intros i Hi%elem_of_seqZ. lia. }
  destruct (erase_loop_failed _ _ _ _ Hpos Hrun Hres)
    as (done_ & k & rest & l & Hsplit & He & Hl & Hin & Hout).
  destruct (seqZ_split _ _ _ _ _ Hsplit) as (Hdone & -> & Hlen).
  set (n := length done_) in *.
  assert (omap (sector_trigger (bank s)) done_ =
          RegWrite (erase_register (bank s)) <$>
            (erase_value (bank s) <$>
               take n (drop (Z.to_nat first) (sectors (bank s))))) as Htrig.
  { rewrite Hdone. apply sector_triggers_range; [done|].
    rewrite <- Hdone. intros i Hi. destruct (Hin i Hi) as (sec & -> & _). by eexists. }
  pose proof (config_is_no_erase_register (bank s)) as Hreg.
  exists (first + Z.of_nat n), (omap (effect_trigger (erase_register (bank s))) l).
  split; [lia|]. split; [|split; [|split]].
  - intros i Hi. destruct (Hin (Z.of_nat i)) as (sec & Hsec & Hsec').
    { rewrite Hdone. apply elem_of_seqZ. lia. }
    rewrite Nat2Z.id in *. by exists sec.
  - intros i Hi. apply Hout. rewrite Hdone. intros Hin'%elem_of_seqZ. lia.
  - rewrite !erase_triggers_effects, He, !omap_app, Htrig, fmap_triggers by done.
    by replace (Z.to_nat (first + Z.of_nat n - first)) with n by lia.
  - destruct Hl as [->|(t & Ht & ->)]; [by left|right].
    unfold sector_trigger in Ht.
    destruct (sectors (bank s) !! Z.to_nat (first + Z.of_nat n)) as [sec|]; [|done].
    simpl in Ht. injection Ht as <-. exists sec. split; [done|].
    simpl. by rewrite Z.eqb_refl.
Qed.

End Coverage.


(** * The coverage theorems on the simulated target *)

Lemma small_pages_grid : sector_grid (bank small_pages) (code_page_size (chip small_pages)).
Proof.
  split; [vm_compute; reflexivity|].
  intros [|[|[|[|i]]]] sec; vm_compute; intros [= <-]; reflexivity.
Qed.

Lemma small_pages_typed : bank_typed (bank small_pages).
Proof. vm_compute. repeat constructor; discriminate. Qed.

(** X1 for a write of sixteen bytes at offset 16 of the small code
    region. *)
Lemma entries_respect_modes_witness :
  mode_respected
    (trace (final (run_entry (EntryWrite (payload 16) 16 16) small_pages))) = true.
Proof.
  apply (entries_respect_modes (EntryWrite (payload 16) 16 16) small_pages).
  vm_compute. reflexivity.
Defined.

(** X6 for address 40 of the small code region, which lies in page 2. *)
Lemma find_sector_by_address_index_witness :
  nrf52_find_sector_by_address (bank small_pages) (chip small_pages) 40 =
    if decide (40 < num_sectors (bank small_pages) * code_page_size (chip small_pages))
    then Some (Z.to_nat (40 / code_page_size (chip small_pages))) else None.
Proof.
  apply (find_sector_by_address_index (bank small_pages) (chip small_pages) 40).
  - apply small_pages_grid.
  - vm_compute. reflexivity.
  - vm_compute. reflexivity.
  - lia.
Defined.

(** X7 for the erasure of pages 1 and 2 of the small code region. *)
Lemma erase_range_ok_witness :
  erase_triggers (erase_register (bank small_pages)) (trace small_pages_erased) =
    erase_triggers (erase_register (bank small_pages)) (trace small_pages) ++
    (erase_value (bank small_pages) <$>
       take (Z.to_nat (2 - 1 + 1)) (drop (Z.to_nat 1) (sectors (bank small_pages)))) ∧
  Z.of_nat (length (take (Z.to_nat (2 - 1 + 1))
                      (drop (Z.to_nat 1) (sectors (bank small_pages)))))
    = Z.max 0 (2 - 1 + 1) ∧
  flash_data (trace small_pages_erased) = flash_data (trace small_pages) ∧
  memory_reads (trace small_pages_erased) = memory_reads (trace small_pages) ∧
  (1 ≤ 2 → nvmc_config (trace small_pages_erased) = Some NRF52_NVMC_CONFIG_REN) ∧
  (2 < 1 → small_pages_erased = small_pages).
Proof.
  apply (erase_range_ok small_pages small_pages_erased 1 2).
  - lia.
  - vm_compute. reflexivity.
Defined.

(** X8 for the same erasure. *)
Lemma erase_range_marks_witness :
  (∀ i : nat, 1 ≤ Z.of_nat i ≤ 2 →
     ∃ sec, sectors (bank small_pages) !! i = Some sec ∧ is_protected sec ≠ 1 ∧
            sectors (bank small_pages_erased) !! i = Some (set_is_erased 1 sec)) ∧
  (∀ i : nat, ¬ (1 ≤ Z.of_nat i ≤ 2) →
     sectors (bank small_pages_erased) !! i = sectors (bank small_pages) !! i) ∧
  chip small_pages_erased = chip small_pages.
Proof.
  apply (erase_range_marks small_pages small_pages_erased 1 2).
  - lia.
  - vm_compute. reflexivity.
Defined.

(** X9 for two writes of pages 1 and 2 of the small code region. *)
Lemma write_pages_twice_erases_once_witness :
  ∃ effs,
    effects (trace (final (nrf52_write_pages 16 48 (payload 32) small_pages_written)))
      = effects (trace small_pages_written) ++ effs ∧
    Forall is_program effs.
Proof.
  apply (write_pages_twice_erases_once small_pages small_pages_written 16 48
           (payload 32) (payload 32)).
  - unfold uint32. lia.
  - unfold uint32. lia.
  - vm_compute. split; [discriminate|reflexivity].
  - apply small_pages_typed.
  - vm_compute. reflexivity.
Defined.

(** X10 for a write of pages 1 and 2 after their erasure. *)
Lemma erase_then_write_pages_witness :
  ∃ effs,
    effects (trace (final (nrf52_write_pages 16 48 (payload 32) small_pages_erased)))
      = effects (trace small_pages_erased) ++ effs ∧
    Forall is_program effs.
Proof.
  apply (erase_then_write_pages small_pages small_pages_erased 1 2 16 48 (payload 32)).
  - apply small_pages_grid.
  - vm_compute. reflexivity.
  - vm_compute. reflexivity.
  - lia.
  - vm_compute. reflexivity.
  - vm_compute. discriminate.
  - vm_compute. discriminate.
Defined.

(** X11 for a write of pages 0 and 1 with page 1 protected. *)
Lemma write_pages_blocked_page_witness :
  (∀ s', nrf52_write_pages 0 32 (payload 32) page_one_protected ≠ Done ERROR_OK s') ∧
  flash_data (trace (final (nrf52_write_pages 0 32 (payload 32) page_one_protected)))
    = flash_data (trace page_one_protected) ∧
  memory_reads (trace (final (nrf52_write_pages 0 32 (payload 32) page_one_protected)))
    = memory_reads (trace page_one_protected).
Proof.
  apply (write_pages_blocked_page page_one_protected 0 32 16 (payload 32)).
  - unfold uint32. lia.
  - unfold uint32. lia.
  - vm_compute. split; [discriminate|reflexivity].
  - vm_compute. right. left.
  - intros i sec. vm_compute. intros [= <-] [= <-]. reflexivity.
Defined.

(** X12 for a write of ten bytes at offset 20, inside page 1. *)
Lemma code_write_effects_witness :
  let s' := final (nrf52_write (payload 10) 20 10 small_pages) in
  let page_size := code_page_size (chip small_pages) in
  let first := 20 / page_size * page_size in
  let last := (20 + 10 + page_size - 1) / page_size * page_size in
  ∃ pre_data post_data effs,
    pre_data =
      (if 20 - first >? 0 then bytes_read first (20 - first) (target small_pages)
       else []) ∧
    post_data =
      (if last - (20 + 10) >? 0
       then bytes_read (20 + 10) (last - (20 + 10))
              (if 20 - first >? 0
               then after_read first (20 - first) (target small_pages)
               else target small_pages)
       else []) ∧
    Z.of_nat (length pre_data) = 20 - first ∧
    Z.of_nat (length post_data) = last - (20 + 10) ∧
    effects (trace s') = effects (trace small_pages) ++
      (if 20 - first >? 0 then [MemRead first 1 (20 - first)] else []) ++
      (if last - (20 + 10) >? 0
       then [MemRead (20 + 10) 1 (last - (20 + 10))] else []) ++
      (RegWrite (erase_register (bank small_pages)) <$>
         due_erases (bank small_pages) (chip small_pages)
           (page_offsets first last page_size)) ++
      effs ∧
    Forall is_program effs ∧
    mbind effect_data effs = pre_data ++ payload 10 ++ post_data ∧
    flash_data (trace s') =
      flash_data (trace small_pages) ++ pre_data ++ payload 10 ++ post_data ∧
    Z.of_nat (length (pre_data ++ payload 10 ++ post_data)) = last - first ∧
    nvmc_config (trace s') = Some NRF52_NVMC_CONFIG_REN.
Proof.
  apply (code_write_effects small_pages
           (final (nrf52_write (payload 10) 20 10 small_pages)) (payload 10) 20 10).
  - vm_compute. reflexivity.
  - vm_compute. reflexivity.
  - lia.
  - lia.
  - vm_compute. reflexivity.
  - vm_compute. reflexivity.
  - apply small_pages_typed.
  - vm_compute. reflexivity.
Defined.

(** What that write comes to: page 1 erased, and flashed with the four
    bytes read before the data, the data, and the two bytes read after
    it. *)
Example code_write_inside_page_run :
  bytes_read 16 4 (target small_pages) = [0xFF; 0xFF; 0xFF; 0xFF] ∧
  bytes_read 30 2 (after_read 16 4 (target small_pages)) = [0xFF; 0xFF] ∧
  ∃ s', nrf52_write (payload 10) 20 10 small_pages = Done ERROR_OK s' ∧
        memory_reads (trace s') = [(16, 1, 4); (30, 1, 2)] ∧
        erase_triggers NRF52_NVMC_ERASEPAGE_ADDR (trace s') = [16] ∧
        flash_data (trace s') =
          [0xFF; 0xFF; 0xFF; 0xFF] ++ payload 10 ++ [0xFF; 0xFF].
Proof.
  split; [vm_compute; reflexivity|]. split; [vm_compute; reflexivity|].
  eexists. split; [vm_compute; reflexivity|]. vm_compute. repeat split.
Qed.

(** X13 for a write of pages 1 and 2. *)
Lemma code_write_whole_pages_witness :
  memory_reads
    (trace (final (nrf52_code_flash_write (payload 32) 16 32 small_pages)))
    = memory_reads (trace small_pages) ∧
  flash_data
    (trace (final (nrf52_code_flash_write (payload 32) 16 32 small_pages)))
    = flash_data (trace small_pages) ++ payload 32 ∧
  erase_triggers (erase_register (bank small_pages))
    (trace (final (nrf52_code_flash_write (payload 32) 16 32 small_pages))) =
    erase_triggers (erase_register (bank small_pages)) (trace small_pages) ++
    due_erases (bank small_pages) (chip small_pages)
      (page_offsets 16 (16 + 32) (code_page_size (chip small_pages))).
Proof.
  apply (code_write_whole_pages small_pages
           (final (nrf52_code_flash_write (payload 32) 16 32 small_pages))
           (payload 32) 16 32).
  - vm_compute. reflexivity.
  - lia.
  - lia.
  - vm_compute. reflexivity.
  - vm_compute. reflexivity.
  - vm_compute. reflexivity.
  - vm_compute. reflexivity.
  - apply small_pages_typed.
  - vm_compute. reflexivity.
Defined.

(** X14 for the first write after a probe of the small chip: ten bytes at
    offset 10, which touch pages 0 and 1. *)
Lemma first_write_after_probe_witness :
  let s1 := final (nrf52_probe (sim_start small_chip NRF52_FLASH_BASE_ADDR)) in
  let s2 := final (nrf52_code_flash_write (payload 10) 10 10 s1) in
  let page_size := code_page_size (chip s1) in
  let first := 10 / page_size * page_size in
  let last := (10 + 10 + page_size - 1) / page_size * page_size in
  erase_triggers NRF52_NVMC_ERASEPAGE_ADDR (trace s2) =
    erase_triggers NRF52_NVMC_ERASEPAGE_ADDR (trace s1) ++
    page_offsets first last page_size.
Proof.
  apply (first_write_after_probe (sim_start small_chip NRF52_FLASH_BASE_ADDR)
           (final (nrf52_probe (sim_start small_chip NRF52_FLASH_BASE_ADDR)))
           (final (nrf52_code_flash_write (payload 10) 10 10
                     (final (nrf52_probe (sim_start small_chip NRF52_FLASH_BASE_ADDR)))))
           (payload 10) 10 10).
  - vm_compute. reflexivity.
  - vm_compute. reflexivity.
  - lia.
  - lia.
  - vm_compute. reflexivity.
  - vm_compute. discriminate.
  - vm_compute. reflexivity.
  - vm_compute. reflexivity.
Defined.

(** X15 for a write of four bytes at offset 4 of the small configuration
    region. *)
Lemma uicr_write_splices_witness :
  let s' := final (nrf52_uicr_flash_write (payload 4) 4 4 small_config) in
  ∃ sec old image,
    sectors (bank small_config) !! 0%nat = Some sec ∧
    old = bytes_read NRF52_UICR_BASE_ADDR (code_page_size (chip small_config))
            (target small_config) ∧
    Z.of_nat (length old) = code_page_size (chip small_config) ∧
    image = take (Z.to_nat 4) old ++ payload 4 ++ drop (Z.to_nat (4 + 4)) old ∧
    Z.of_nat (length image) = code_page_size (chip small_config) ∧
    take (Z.to_nat 4) (drop (Z.to_nat 4) image) = payload 4 ∧
    memory_reads (trace s') =
      memory_reads (trace small_config) ++
      [(NRF52_UICR_BASE_ADDR, 1, code_page_size (chip small_config))] ∧
    erase_triggers (erase_register (bank small_config)) (trace s') =
      erase_triggers (erase_register (bank small_config)) (trace small_config) ++
      (if is_erased sec =? 1 then [] else [erase_value (bank small_config) sec]) ∧
    flash_data (trace s') = flash_data (trace small_config) ++ image ∧
    nvmc_config (trace s') = Some NRF52_NVMC_CONFIG_REN.
Proof.
  apply (uicr_write_splices small_config
           (final (nrf52_uicr_flash_write (payload 4) 4 4 small_config))
           (payload 4) 4 4).
  - vm_compute. split; [discriminate|reflexivity].
  - lia.
  - lia.
  - vm_compute. discriminate.
  - vm_compute. reflexivity.
  - vm_compute. reflexivity.
Defined.

(** What that write comes to: the sixteen bytes read, with bytes 4 to 7
    replaced by the data. *)
Example uicr_write_splices_run :
  bytes_read NRF52_UICR_BASE_ADDR 16 (target small_config) = replicate 16 0xFF ∧
  ∃ s', nrf52_uicr_flash_write (payload 4) 4 4 small_config = Done ERROR_OK s' ∧
        memory_reads (trace s') = [(NRF52_UICR_BASE_ADDR, 1, 16)] ∧
        flash_data (trace s') =
          replicate 4 0xFF ++ payload 4 ++ replicate 8 0xFF.
Proof.
  split; [vm_compute; reflexivity|].
  eexists. split; [vm_compute; reflexivity|]. vm_compute. repeat split.
Qed.

(** X16 for four words written on the chip without working areas. *)
Lemma ll_flash_write_word_addresses_witness :
  16 mod 4 = 0 ∧
  word_writes
    (trace (final (nrf52_ll_flash_write 0 (payload 16) 16 (sim_start sim_no_ram 0)))) =
    word_writes (trace (sim_start sim_no_ram 0)) ++
    ((fun k => (wrap32 (0 + 4 * k), take 4 (drop (Z.to_nat (4 * k)) (payload 16))))
       <$> seqZ 0 (16 / 4)).
Proof.
  apply (ll_flash_write_word_addresses (sim_start sim_no_ram 0)
           (final (nrf52_ll_flash_write 0 (payload 16) 16 (sim_start sim_no_ram 0)))
           0 (payload 16) 16).
  - unfold uint32. lia.
  - unfold uint32. lia.
  - vm_compute. discriminate.
  - vm_compute. reflexivity.
Defined.

(** X17 for four words written through the loader on the two-page chip. *)
Lemma ll_flash_write_working_areas_witness :
  let s := sim_start (sim_chip 4096 2) 0 in
  let s' := final (nrf52_ll_flash_write 0 (payload 16) 16 s) in
  ∃ obtained released,
    areas_obtained (trace s') = areas_obtained (trace s) ++ obtained ∧
    areas_released (trace s') = areas_released (trace s) ++ released ∧
    (released = reverse obtained ∨
     ∃ area a sz data,
       obtained = [area] ∧ released = [] ∧ ERROR_OK ≠ ERROR_OK ∧
       head (trace s') = Some (EvWriteBuffer a sz data ERROR_OK)).
Proof.
  apply (ll_flash_write_working_areas (sim_start (sim_chip 4096 2) 0)
           (final (nrf52_ll_flash_write 0 (payload 16) 16
                     (sim_start (sim_chip 4096 2) 0)))
           0 (payload 16) 16 ERROR_OK).
  vm_compute. reflexivity.
Defined.

(** X19 for the code region of the small chip, set up with no chip
    descriptor allocated yet. *)
Lemma auto_probe_after_bank_command_witness :
  let s1 := final (nrf52_flash_bank_command None
                     (sim_start small_chip NRF52_FLASH_BASE_ADDR)) in
  nrf52_auto_probe s1 = nrf52_probe s1 ∧
  ∀ s2, nrf52_probe s1 = Done ERROR_OK s2 →
        nrf52_auto_probe s2 = Done ERROR_OK s2.
Proof.
  apply (auto_probe_after_bank_command
           (sim_start small_chip NRF52_FLASH_BASE_ADDR)
           (final (nrf52_flash_bank_command None
                     (sim_start small_chip NRF52_FLASH_BASE_ADDR)))
           None).
  vm_compute. reflexivity.
Defined.

(** X23 for a write at offset 20 of a code region that cannot be read. *)
Lemma code_write_read_failure_witness :
  let first := wrap32 (20 / code_page_size (chip unreadable_pages)
                       * code_page_size (chip unreadable_pages)) in
  let pre := wrap32 (20 - first) in
  (∀ s', nrf52_code_flash_write (payload 10) 20 10 unreadable_pages ≠ Done ERROR_OK s') ∧
  effects (trace (final (nrf52_code_flash_write (payload 10) 20 10 unreadable_pages)))
    = effects (trace unreadable_pages) ++ [MemRead first 1 pre].
Proof.
  apply (code_write_read_failure unreadable_pages (payload 10) 20 10).
  - vm_compute. discriminate.
  - vm_compute. reflexivity.
  - vm_compute. discriminate.
Defined.

(** X24 for the code region of the small chip, right after set-up. *)
Lemma write_before_probe_witness :
  let s := sim_start small_chip NRF52_FLASH_BASE_ADDR in
  let s1 := final (nrf52_flash_bank_command None s) in
  (base (bank s) = NRF52_FLASH_BASE_ADDR →
   nrf52_write (payload 4) 0 4 s1 = Fault UndefinedBehaviour s1) ∧
  (base (bank s) = NRF52_UICR_BASE_ADDR → 0 < wrap32 (0 + 4) →
   nrf52_write (payload 4) 0 4 s1 = Done ERROR_FAIL s1).
Proof.
  apply (write_before_probe (sim_start small_chip NRF52_FLASH_BASE_ADDR)
           (final (nrf52_flash_bank_command None
                     (sim_start small_chip NRF52_FLASH_BASE_ADDR)))
           (payload 4) 0 4).
  vm_compute. reflexivity.
Defined.

(** X25 for page 1 of the chip on which writes to the page-erase trigger
    fail. *)
Lemma erase_page_ignores_trigger_failure_witness :
  ∃ s', nrf52_erase_page 1 trigger_fails_pages = Done ERROR_OK s' ∧
        sectors (bank s') !! 1%nat =
          Some (set_is_erased 1 {| offset := 4096; size := 4096;
                                   is_erased := -1; is_protected := -1 |}) ∧
        trace s' =
          trace (final (nrf52_nvmc_read_only
                          (call (target (final (nrf52_nvmc_erase_enable trigger_fails_pages)))
                             (EvWriteU32 (erase_register (bank trigger_fails_pages))
                                (erase_value (bank trigger_fails_pages)
                                   {| offset := 4096; size := 4096;
                                      is_erased := -1; is_protected := -1 |})
                                ERROR_FAIL)
                             (final (nrf52_nvmc_erase_enable trigger_fails_pages))))).
Proof.
  apply (erase_page_ignores_trigger_failure trigger_fails_pages
           (final (nrf52_nvmc_erase_enable trigger_fails_pages))
           (final (nrf52_nvmc_read_only
                     (call (target (final (nrf52_nvmc_erase_enable trigger_fails_pages)))
                        (EvWriteU32 (erase_register (bank trigger_fails_pages))
                           (erase_value (bank trigger_fails_pages)
                              {| offset := 4096; size := 4096;
                                 is_erased := -1; is_protected := -1 |})
                           ERROR_FAIL)
                        (final (nrf52_nvmc_erase_enable trigger_fails_pages)))))
           1%nat
           {| offset := 4096; size := 4096; is_erased := -1; is_protected := -1 |}
           ERROR_FAIL
           (target (final (nrf52_nvmc_erase_enable trigger_fails_pages)))).
  - vm_compute. reflexivity.
  - vm_compute. discriminate.
  - vm_compute. reflexivity.
  - vm_compute. reflexivity.
  - vm_compute. discriminate.
  - vm_compute. reflexivity.
Defined.

(** X27 for the erasure of pages 0 to 2 with page 1 protected. *)
Lemma erase_stops_at_failure_witness :
  let s' := final (nrf52_erase 0 2 page_one_protected) in
  ∃ (k : Z) (l : list Z),
    0 ≤ k ≤ 2 ∧
    (∀ i : nat, 0 ≤ Z.of_nat i < k →
       ∃ sec, sectors (bank page_one_protected) !! i = Some sec ∧
              sectors (bank s') !! i = Some (set_is_erased 1 sec)) ∧
    (∀ i : nat, ¬ (0 ≤ Z.of_nat i < k) →
       sectors (bank s') !! i = sectors (bank page_one_protected) !! i) ∧
    erase_triggers (erase_register (bank page_one_protected)) (trace s') =
      erase_triggers (erase_register (bank page_one_protected))
        (trace page_one_protected) ++
      (erase_value (bank page_one_protected) <$>
         take (Z.to_nat (k - 0))
           (drop (Z.to_nat 0) (sectors (bank page_one_protected)))) ++ l ∧
    (l = [] ∨ ∃ sec, sectors (bank page_one_protected) !! Z.to_nat k = Some sec ∧
                     l = [erase_value (bank page_one_protected) sec]).
Proof.
  apply (erase_stops_at_failure page_one_protected
           (final (nrf52_erase 0 2 page_one_protected)) 0 2 ERROR_FAIL).
  - lia.
  - vm_compute. reflexivity.
  - vm_compute. discriminate.
Defined.
